(** * Magic CV 2.0: the request pipeline of the server and the download path
      of the browser client, embedded in Rocq.

    The server module of the repository is one Node.js file: an upload
    filter, a content extractor, a completion client with three prompt
    builders, the DOCX and PDF renderers and the handler of
    [POST /api/tailor-cv].  The browser script validates the form, posts it
    and turns the base64 payload back into bytes.

    Layout of this file:
    - [JS]      the fragment of the JavaScript run time the program relies on
                (values read from JSON, exceptions, strings);
    - [Base64]  [Buffer.prototype.toString("base64")] and [atob];
    - [Server]  the server module, function by function;
    - [Client]  the submit handler and [downloadFile] of the browser script;
    - [Scenario] concrete collaborators and requests used to run the model;
    - [Notions], [Resume], [Cases] what further properties are stated with;
    - [Page]    the drop zone, the download buttons and the text of the
                options in the browser script;
    - [Storage] the names under which uploads are stored;
    - the properties.

    Text is carried as [string]; a character outside ASCII is carried as its
    UTF-8 bytes.  Binary buffers are [list byte]. *)

From Stdlib Require Import ZArith NArith QArith String Ascii List Lia Bool.
From Stdlib.Strings Require Import Byte.
From Stdlib Require Import DecimalString DecimalN.
From stdpp Require Import base option list strings gmap.

Local Open Scope string_scope.
Local Open Scope list_scope.
Set Warnings "-register-all".

(* ===================================================================== *)
(** * The JavaScript fragment *)
(* ===================================================================== *)

Module JS.

(** Values produced by [JSON.parse].  A number keeps the text of its
    literal: the program never computes with numbers, and what the run time
    does with one (conversion to a string or to a boolean) is taken from the
    environment. *)
Inductive JSON : Type :=
| JNull
| JBool (b : bool)
| JNum (literal : string)
| JStr (s : string)
| JArr (items : list JSON)
| JObj (members : list (string * JSON)).

(** A JavaScript value of the program: [None] is [undefined]. *)
Definition Value : Type := option JSON.

Definition undefined : Value := None.
Definition str (s : string) : Value := Some (JStr s).

(** Exceptions.  The first three are raised by the engine itself, [Error]
    stands for the error objects of [fs] and of the libraries.  The messages
    follow the wording of Node.js; no statement below depends on the wording
    of a message, except where a run is evaluated. *)
Inductive Exn : Type :=
| TypeError (msg : string)
| ReferenceError (msg : string)
| SyntaxError (msg : string)
| Error (msg : string).

(** [err.message] *)
Definition message (e : Exn) : string :=
  match e with
  | TypeError m | ReferenceError m | SyntaxError m | Error m => m
  end.

(** Result of evaluating an expression that may throw. *)
Inductive Res (A : Type) : Type :=
| Ok (a : A)
| Throw (e : Exn).
Arguments Ok {A} a.
Arguments Throw {A} e.

#[global] Instance Res_ret : MRet Res := fun A a => Ok a.
#[global] Instance Res_bind : MBind Res := fun A B f m =>
  match m with
  | Ok a => f a
  | Throw e => Throw e
  end.

Definition is_ok {A} (r : Res A) : bool :=
  match r with Ok _ => true | Throw _ => false end.

(** An identifier that no declaration of the module (and no global of the
    run time) binds: evaluating it throws. *)
Definition unbound {A} (identifier : string) : Res A :=
  Throw (ReferenceError (identifier +:+ " is not defined")).

(** ** Property reads *)

(** The own property [p] of an object built by [JSON.parse]: when a key is
    repeated in the text, the last occurrence wins. *)
Fixpoint own_property (members : list (string * JSON)) (p : string) : Value :=
  match members with
  | [] => None
  | (k, v) :: rest =>
      match own_property rest p with
      | Some w => Some w
      | None => if String.eqb k p then Some v else None
      end
  end.

(** Reading property [p] of [undefined] or [null] ([what]) throws. *)
Definition nullish_read {A} (what p : string) : Res A :=
  Throw (TypeError ("Cannot read properties of " +:+ what +:+ " (reading '" +:+ p +:+ "')")).

(** [v.p].  Reading a property of [undefined] or [null] throws.  On a
    boolean, number, string or array the read goes to the prototype; [p]
    ranges over the property names the program reads from parsed JSON
    ([cv], [coverLetter], [email], [format], [personalInfo], [fullName],
    [phone], [location], [summary], [experience], [skills], [education],
    [title], [company], [dates], [achievements], [degree], [institution]),
    none of which a built-in prototype defines, so the read gives
    [undefined]. *)
Definition get (v : Value) (p : string) : Res Value :=
  match v with
  | None => nullish_read "undefined" p
  | Some JNull => nullish_read "null" p
  | Some (JObj members) => Ok (own_property members p)
  | Some _ => Ok None
  end.

(** ** Conversions *)

Section Conversions.
(** [Number::toString] and the truthiness of a number, by literal. *)
Variable Number_toString : string -> string.
Variable Number_toBoolean : string -> bool.

(** What [ToPrimitive] throws when an object offers no conversion. *)
Definition no_primitive {A} : Res A :=
  Throw (TypeError "Cannot convert object to primitive value").

(** [String(v)] for a value read from JSON.  An array is joined with
    commas, [null] elements giving the empty string and the other elements
    being converted in turn.  An object is converted by the [toString] it
    inherits, unless it has a property of that name of its own: the value
    of such a property was read from JSON and cannot be called, the
    [valueOf] it inherits returns the object itself, and the conversion
    throws. *)
Fixpoint JSON_toString (v : JSON) : Res string :=
  match v with
  | JNull => Ok "null"
  | JBool true => Ok "true"
  | JBool false => Ok "false"
  | JNum l => Ok (Number_toString l)
  | JStr s => Ok s
  | JArr items =>
      parts ← mapM (fun x => match x with JNull => Ok "" | _ => JSON_toString x end) items;
      Ok (String.concat "," parts)
  | JObj members =>
      match own_property members "toString" with
      | Some _ => no_primitive
      | None => Ok "[object Object]"
      end
  end.

(** What a template literal [`${v}`] and [string + v] insert for [v]. *)
Definition ToString (v : Value) : Res string :=
  match v with
  | None => Ok "undefined"
  | Some j => JSON_toString j
  end.

(** [Array.prototype.join]: [undefined] and [null] elements are empty,
    the others are converted from the first to the last. *)
Definition array_join (sep : string) (items : list JSON) : Res string :=
  parts ← mapM (fun x => match x with JNull => Ok "" | _ => JSON_toString x end) items;
  Ok (String.concat sep parts).

(** The condition of [if (v)]. *)
Definition ToBoolean (v : Value) : bool :=
  match v with
  | None => false
  | Some JNull => false
  | Some (JBool b) => b
  | Some (JNum l) => Number_toBoolean l
  | Some (JStr s) => negb (String.eqb s "")
  | Some (JArr _) | Some (JObj _) => true
  end.
End Conversions.

(** [v === "literal"] *)
Definition strict_eq_string (v : Value) (literal : string) : bool :=
  match v with
  | Some (JStr s) => String.eqb s literal
  | _ => false
  end.

(** ** Strings *)

(** A continuation byte of a UTF-8 sequence. *)
Definition is_continuation (c : ascii) : bool :=
  let n := N_of_ascii c in (128 <=? n)%N && (n <? 192)%N.

Definition starts_with_continuation (s : string) : bool :=
  match s with
  | String d _ => is_continuation d
  | "" => false
  end.

(** The code points of a string, each as a string: what iterating over a
    string yields. *)
Fixpoint code_points (s : string) : list string :=
  match s with
  | "" => []
  | String c rest =>
      match code_points rest with
      | cp :: cps =>
          if starts_with_continuation rest then String c cp :: cps
          else String c "" :: cp :: cps
      | [] => [String c ""]
      end
  end.

(** [for (const x of v)]: arrays yield their elements, strings their code
    points, anything else is not iterable. *)
Definition iterate (expr : string) (v : Value) : Res (list Value) :=
  match v with
  | Some (JArr items) => Ok (List.map Some items)
  | Some (JStr s) => Ok (List.map str (code_points s))
  | _ => Throw (TypeError (expr +:+ " is not iterable"))
  end.

(** Length of the first of [alternatives] that [s] starts with. *)
Fixpoint first_match (alternatives : list string) (s : string) : option nat :=
  match alternatives with
  | [] => None
  | p :: ps => if String.prefix p s then Some (String.length p) else first_match ps s
  end.

(** [s.replace(/p1|p2|.../g, "")] for literal alternatives: scanning from
    the left, at each position the first alternative that matches is
    removed and the scan resumes after it; [skip] counts the characters of
    the current match still to be dropped. *)
Fixpoint remove_matches (alternatives : list string) (skip : nat) (s : string) : string :=
  match s with
  | "" => ""
  | String c rest =>
      match skip with
      | S n => remove_matches alternatives n rest
      | O =>
          match first_match alternatives s with
          | Some (S n) => remove_matches alternatives n rest
          | _ => String c (remove_matches alternatives 0 rest)
          end
      end
  end.

Definition replace_all (alternatives : list string) (s : string) : string :=
  remove_matches alternatives 0 s.

(** White space and line terminators of ECMAScript, in UTF-8: TAB, LF, VT,
    FF, CR, SP, U+00A0, U+1680, U+2000..U+200A, U+2028, U+2029, U+202F,
    U+205F, U+3000, U+FEFF. *)
Definition white_space : list string :=
  List.map string_of_list_byte
    [ [x09]; [x0a]; [x0b]; [x0c]; [x0d]; [x20];
      [xc2; xa0]; [xe1; x9a; x80];
      [xe2; x80; x80]; [xe2; x80; x81]; [xe2; x80; x82]; [xe2; x80; x83];
      [xe2; x80; x84]; [xe2; x80; x85]; [xe2; x80; x86]; [xe2; x80; x87];
      [xe2; x80; x88]; [xe2; x80; x89]; [xe2; x80; x8a];
      [xe2; x80; xa8]; [xe2; x80; xa9]; [xe2; x80; xaf];
      [xe2; x81; x9f]; [xe3; x80; x80]; [xef; xbb; xbf] ].

(** Drops the longest prefix made of [units]. *)
Fixpoint drop_leading (units : list string) (skip : nat) (s : string) : string :=
  match s with
  | "" => ""
  | String c rest =>
      match skip with
      | S n => drop_leading units n rest
      | O =>
          match first_match units s with
          | Some (S n) => drop_leading units n rest
          | _ => s
          end
      end
  end.

Fixpoint string_rev (s : string) : string :=
  match s with
  | "" => ""
  | String c rest => string_rev rest +:+ String c ""
  end.

Definition trimStart (s : string) : string := drop_leading white_space 0 s.

Definition trimEnd (s : string) : string :=
  string_rev (drop_leading (List.map string_rev white_space) 0 (string_rev s)).

(** [s.trim()] *)
Definition trim (s : string) : string := trimEnd (trimStart s).

(** Double quotes inside the literals of this file are written [~]. *)
Definition q (s : string) : string :=
  string_of_list_ascii
    (List.map (fun c => if Ascii.eqb c "~"%char then "034"%char else c)
       (list_ascii_of_string s)).

End JS.

(* ===================================================================== *)
(** * Base64 *)
(* ===================================================================== *)

(** The two built-ins that carry a rendered file from the server to the
    browser: [buffer.toString("base64")] of Node.js (RFC 4648, section 4,
    with padding) and [atob] of the browser (the forgiving base64 decoding of
    the WHATWG Infra standard).  Octets and sextets are natural numbers; the
    shifts and masks of the usual implementations are written as divisions
    and remainders by powers of two. *)
Module Base64.
Import JS.

Definition Buffer : Type := list byte.

Definition alphabet : string :=
  "ABCDEFGHIJKLMNOPQRSTUVWXYZabcdefghijklmnopqrstuvwxyz0123456789+/".

(** The character of a sextet. *)
Definition digit (n : N) : ascii :=
  match String.get (N.to_nat n) alphabet with
  | Some c => c
  | None => "="%char
  end.

Fixpoint index_of (c : ascii) (s : string) : option N :=
  match s with
  | "" => None
  | String d rest =>
      if Ascii.eqb c d then Some 0%N else N.succ <$> index_of c rest
  end.

(** The sextet of a character of the alphabet. *)
Definition sextet (c : ascii) : option N := index_of c alphabet.

Local Open Scope N_scope.

(** The sextets of a buffer: three octets give four sextets; one
    remaining octet gives two and two give three, the missing bits being
    zero. *)
Fixpoint sextets (buffer : Buffer) : list N :=
  match buffer with
  | [] => []
  | [a] =>
      let x := Byte.to_N a in
      [x / 4; x mod 4 * 16]
  | [a; b] =>
      let x := Byte.to_N a in
      let y := Byte.to_N b in
      [x / 4; x mod 4 * 16 + y / 16; y mod 16 * 4]
  | a :: b :: c :: rest =>
      let x := Byte.to_N a in
      let y := Byte.to_N b in
      let z := Byte.to_N c in
      x / 4 :: x mod 4 * 16 + y / 16 :: y mod 16 * 4 + z / 64 :: z mod 64 :: sextets rest
  end.

(** The [=] that complete the last group of four characters. *)
Fixpoint padding (buffer : Buffer) : list ascii :=
  match buffer with
  | [] => []
  | [_] => ["="; "="]%char
  | [_; _] => ["="%char]
  | _ :: _ :: _ :: rest => padding rest
  end.

(** [buffer.toString("base64")] *)
Definition toString_base64 (buffer : Buffer) : string :=
  string_of_list_ascii (List.map digit (sextets buffer) ++ padding buffer).

(** ASCII whitespace of the Infra standard: TAB, LF, FF, CR, SPACE. *)
Definition is_ascii_whitespace (c : ascii) : bool :=
  existsb (Ascii.eqb c) ["009"; "010"; "012"; "013"; " "]%char.

(** Step 2 of forgiving-base64 decode: when the length is a multiple of
    four, one or two trailing [=] are removed. *)
Definition remove_padding (data : list ascii) : list ascii :=
  if (N.of_nat (length data) mod 4 =? 0) then
    match rev data with
    | c1 :: r1 =>
        if Ascii.eqb c1 "=" then
          match r1 with
          | c2 :: r2 => if Ascii.eqb c2 "=" then rev r2 else rev r1
          | [] => rev r1
          end
        else data
    | [] => data
    end
  else data.

(** Steps 5 to 10: every four sextets give three octets; two remaining
    sextets give one octet and three give two, the bits left over being
    discarded. *)
Fixpoint octets (sextets : list N) : list N :=
  match sextets with
  | s0 :: s1 :: s2 :: s3 :: rest =>
      (s0 * 4 + s1 / 16) :: (s1 mod 16 * 16 + s2 / 4) :: (s2 mod 4 * 64 + s3)
      :: octets rest
  | [s0; s1; s2] => [s0 * 4 + s1 / 16; s1 mod 16 * 16 + s2 / 4]
  | [s0; s1] => [s0 * 4 + s1 / 16]
  | _ => []
  end.

(** What decoding needs of a digit: it gives its sextet back, it is not
    whitespace and it is not the padding character. *)
Definition digit_ok (n : N) : bool :=
  match sextet (digit n) with Some m => m =? n | None => false end
  && negb (is_ascii_whitespace (digit n))
  && negb (Ascii.eqb (digit n) "=").

Definition InvalidCharacterError : Exn :=
  Error "The string to be decoded is not correctly encoded.".

(** [atob(data)]: the result is a binary string, given by its code units. *)
Definition atob (data : string) : Res (list N) :=
  let data := filter (fun c => is_ascii_whitespace c = false) (list_ascii_of_string data) in
  let data := remove_padding data in
  if (N.of_nat (length data) mod 4 =? 1) then Throw InvalidCharacterError
  else
    match mapM sextet data with
    | None => Throw InvalidCharacterError
    | Some sextets => Ok (octets sextets)
    end.

End Base64.

(* ===================================================================== *)
(** * The server module *)
(* ===================================================================== *)

Module Server.
Import JS Base64.

(** ** Documents handed to the rendering libraries *)

(** What the program passes to [docx]: the options of text runs inside
    paragraphs inside one section.  The text of a run is whatever value the
    program put there; a run, a paragraph and the document are built by the
    constructors of the library. *)
Inductive AlignmentType : Type := CENTER.
Inductive BorderStyle : Type := SINGLE.

Record TextRun : Type := {
  text : Value;
  bold : bool;
  italics : bool;
  size : Z;
  font : string;
  color : option string
}.

Record Border : Type := {
  border_color : string;
  border_space : Z;
  border_style : BorderStyle;
  border_size : Z
}.

Record Paragraph : Type := {
  children : list TextRun;
  alignment : option AlignmentType;
  spacing_before : option Z;
  spacing_after : option Z;
  border_bottom : option Border;
  indent_left : option Z
}.

Record Margin : Type := { top : Z; right : Z; bottom : Z; left : Z }.

(** [new Document({ sections: [{ properties: { margin }, children }] })] *)
Record Document : Type := {
  margin : Margin;
  paragraphs : list Paragraph
}.

(** What the program asks of a [PDFDocument], call by call.  [MoveTo x] and
    [LineTo x] stand for [moveTo(x, doc.y)] and [lineTo(x, doc.y)]: the
    ordinate is the cursor of the library. *)
Record TextOptions : Type := {
  align : option string;
  opt_bold : bool;
  continued : bool;
  oblique : bool;
  lineGap : option Q;
  indent : option Q
}.

Definition no_options : TextOptions :=
  {| align := None; opt_bold := false; continued := false; oblique := false;
     lineGap := None; indent := None |}.

Inductive PdfCall : Type :=
| FillColor (c : string)
| StrokeColor (c : string)
| FontSize (s : Q)
| LineWidth (w : Q)
| Text (t : Value) (options : TextOptions)
| MoveDown (lines : Q)
| MoveTo (x : Z)
| LineTo (x : Z)
| Stroke
| End_.

(** [new PDFDocument({ margin })] followed by the calls made on it. *)
Record PdfDocument : Type := {
  pdf_margin : Z;
  calls : list PdfCall
}.

Inductive RenderJob : Type :=
| Docx (d : Document)
| Pdf (d : PdfDocument).

(** ** The completion request *)

(** The body and the headers of the POST to the completion endpoint. *)
Record CompletionRequest : Type := {
  url : string;
  model : string;
  system_content : string;
  user_content : string;
  temperature : Q;
  max_tokens : Z;
  authorization : string
}.

(** ** Collaborators *)

(** Everything the module calls and does not define: built-ins of the run
    time, the two extraction libraries, the HTTP client with the remote
    model behind it, and the two rendering libraries.  Each is a function
    of its input; a failure is the exception the caller sees.  Both
    rendering libraries declare the text they are given a string, and
    with a string the call returns; what they do with a value of another
    type is theirs to decide. *)
Record Env : Type := {
  (** [JSON.parse]: the parsed value, or the message of the [SyntaxError] *)
  JSON_parse : string -> string + JSON;
  (** [String.prototype.toUpperCase] *)
  toUpperCase : string -> string;
  (** conversion of a number, given by its literal, to a string *)
  Number_toString : string -> string;
  (** truthiness of a number, given by its literal *)
  Number_toBoolean : string -> bool;
  (** [process.env.DEEPSEEK_API_KEY] *)
  DEEPSEEK_API_KEY : option string;
  (** [(await pdfParse(buffer)).text] *)
  pdfParse : Buffer -> Res string;
  (** [(await mammoth.extractRawText({ buffer })).value] *)
  extractRawText : Buffer -> Res string;
  (** [(await axios.post(url, body, { headers })).data.choices[0].message.content] *)
  post : CompletionRequest -> Res string;
  (** [new TextRun(options)] where [options.text] is not a string:
      whether the constructor returns, or what it throws *)
  TextRun_new : TextRun -> Res unit;
  (** [await Packer.toBuffer(doc)] *)
  Packer_toBuffer : Document -> Res Buffer;
  (** [doc.text(text, options)] where [text] is not a string: whether the
      call returns, or what it throws *)
  PDFDocument_text : Value -> TextOptions -> Res unit;
  (** the concatenation of the chunks a [PDFDocument] emits up to its end *)
  PDFDocument_output : PdfDocument -> Res Buffer
}.

Definition render (env : Env) (j : RenderJob) : Res Buffer :=
  match j with
  | Docx d => Packer_toBuffer env d
  | Pdf d => PDFDocument_output env d
  end.

(** ** The response object under construction *)

Record Entry : Type := {
  preview : string;
  fileName : string;
  fileData : option string
}.

Inductive Kind : Type := CV | CoverLetter | Email.

#[global] Instance Kind_eq_dec : EqDecision Kind := ltac:(solve_decision).

(** The object [results] of the handler: a property per document kind,
    absent until the task of that kind assigns it. *)
Record Results : Type := {
  cv : option Entry;
  coverLetter : option Entry;
  email : option Entry
}.

Definition no_results : Results :=
  {| cv := None; coverLetter := None; email := None |}.

Definition entry (k : Kind) (r : Results) : option Entry :=
  match k with
  | CV => cv r
  | CoverLetter => coverLetter r
  | Email => email r
  end.

(** [results.k = e] *)
Definition set_entry (k : Kind) (e : Entry) (r : Results) : Results :=
  match k with
  | CV => {| cv := Some e; coverLetter := coverLetter r; email := email r |}
  | CoverLetter => {| cv := cv r; coverLetter := Some e; email := email r |}
  | Email => {| cv := cv r; coverLetter := coverLetter r; email := Some e |}
  end.

(** [results.k.fileData = data], on the entry assigned just before. *)
Definition set_fileData (k : Kind) (data : string) (r : Results) : Results :=
  match entry k r with
  | Some e =>
      set_entry k {| preview := preview e; fileName := fileName e; fileData := Some data |} r
  | None => r
  end.

(** ** Asynchronous functions *)

(** The body of an [async] function, cut at its [await]s.  Between two
    [await]s the body runs without interruption; at an [await] it is
    suspended until the awaited operation settles, and a rejection is thrown
    at the [await] (no function of the module catches inside a task). *)
Inductive Async (A : Type) : Type :=
| Return (a : A)
| Raise (e : Exn)
| Assign (f : Results -> Results) (k : Async A)
| AwaitCompletion (r : CompletionRequest) (k : string -> Async A)
| AwaitRender (j : RenderJob) (k : Buffer -> Async A).
Arguments Return {A} a.
Arguments Raise {A} e.
Arguments Assign {A} f k.
Arguments AwaitCompletion {A} r k.
Arguments AwaitRender {A} j k.

Fixpoint Async_bind {A B} (f : A -> Async B) (c : Async A) : Async B :=
  match c with
  | Return a => f a
  | Raise e => Raise e
  | Assign g k => Assign g (Async_bind f k)
  | AwaitCompletion r k => AwaitCompletion r (fun x => Async_bind f (k x))
  | AwaitRender j k => AwaitRender j (fun x => Async_bind f (k x))
  end.

#[global] Instance Async_ret : MRet Async := fun A a => Return a.
#[global] Instance Async_mbind : MBind Async := fun A B f c => Async_bind f c.

(** A synchronous expression inside an asynchronous body. *)
Definition now {A} (r : Res A) : Async A :=
  match r with
  | Ok a => Return a
  | Throw e => Raise e
  end.

(** ** Upload filter *)

Definition allowedTypes : list string :=
  [ "application/pdf";
    "application/vnd.openxmlformats-officedocument.wordprocessingml.document" ].

(** [fileFilter(req, file, cb)]: [cb(null, true)] is [Ok true], [cb(error,
    false)] is the error. *)
Definition fileFilter (mimetype : string) : Res bool :=
  if existsb (String.eqb mimetype) allowedTypes then Ok true
  else Throw (Error "Invalid file type. Only PDF and DOCX files are allowed.").

(** [limits: { fileSize: 10 * 1024 * 1024 }] *)
Definition fileSize : Z := 10 * 1024 * 1024.

(** [upload.single("cv")] on a part of declared type [mimetype] carrying
    [length] bytes: the filter decides first, then the library refuses a
    file that reaches [limits.fileSize], the limit itself included. *)
Definition upload (mimetype : string) (length : Z) : Res unit :=
  _ ← fileFilter mimetype;
  if (length >=? fileSize)%Z then Throw (Error "File too large") else Ok ().

(** ** Prompts and the completion client *)

Definition nl : string := String "010"%char "".

(** A template literal's [${v}] and the right operand of [string + v]:
    the conversion of [v] to a string, which throws for some objects. *)
Definition tpl (env : Env) (v : Value) : Res string := ToString (Number_toString env) v.

(** The request [callDeepSeek] posts. *)
Definition completion_request (env : Env) (systemPrompt userPrompt : string) (maxTokens : Z)
  : CompletionRequest :=
  {| url := "https://api.deepseek.com/chat/completions";
     model := "deepseek-chat";
     system_content := systemPrompt;
     user_content := userPrompt;
     temperature := 0.5;
     max_tokens := maxTokens;
     authorization :=
       "Bearer " +:+ match DEEPSEEK_API_KEY env with Some key => key | None => "undefined" end |}.

Definition callDeepSeek (env : Env) (systemPrompt userPrompt : string) (maxTokens : Z)
  : Async string :=
  AwaitCompletion (completion_request env systemPrompt userPrompt maxTokens)
    (fun content => Return content).

Definition tailoredCV_prompt (cvContent jobDescription : string) : string :=
  "You are a professional CV writer. Analyze the original CV and tailor it for the target job.

ORIGINAL CV:
" +:+ cvContent +:+ "

TARGET JOB DESCRIPTION:
" +:+ jobDescription +:+ q "

INSTRUCTIONS:
1. Extract candidate's EXACT name, email, phone, location from CV
2. Create professional summary (3-4 sentences)
3. Rewrite bullet points for experience to match target job
4. List relevant skills
5. Include EXACT education details

OUTPUT FORMAT (JSON):
{
  ~personalInfo~: { ~fullName~: ~...~, ~email~: ~...~, ~phone~: ~...~, ~location~: ~...~, ~linkedin~: ~...~ },
  ~summary~: ~...~,
  ~experience~: [ { ~title~: ~...~, ~company~: ~...~, ~location~: ~...~, ~dates~: ~...~, ~achievements~: [~...~] } ],
  ~skills~: [~...~],
  ~education~: [ { ~degree~: ~...~, ~institution~: ~...~, ~dates~: ~...~, ~details~: ~...~ } ]
}

Return ONLY valid JSON.".

Definition generateTailoredCV (env : Env) (cvContent jobDescription : string) : Async string :=
  callDeepSeek env "You are an expert CV writer. Always output JSON."
    (tailoredCV_prompt cvContent jobDescription) 4000.

Definition coverLetter_prompt (cvContent jobDescription candidateName : string) : string :=
  "Write a professional cover letter for " +:+ candidateName +:+ " for this job:" +:+ nl
  +:+ jobDescription +:+ nl +:+ "Original CV Context:" +:+ nl +:+ cvContent.

(** The prompt is a template literal: [candidateName] is converted to a
    string before anything is posted. *)
Definition generateCoverLetter (env : Env) (cvContent jobDescription : string)
    (candidateName : Value) : Async string :=
  name ← now (tpl env candidateName);
  callDeepSeek env "You write professional cover letters without placeholders or asterisks."
    (coverLetter_prompt cvContent jobDescription name) 2048.

Definition email_prompt (jobDescription candidateName : string) : string :=
  "Write a professional application email for " +:+ candidateName +:+ " for this job:" +:+ nl
  +:+ jobDescription.

Definition generateApplicationEmail (env : Env) (cvContent jobDescription : string)
    (candidateName : Value) : Async string :=
  name ← now (tpl env candidateName);
  callDeepSeek env "You write professional job application emails without placeholders or asterisks."
    (email_prompt jobDescription name) 1024.

(** ** DOCX generators *)

Section Renderers.
Variable env : Env.

(** [v.toUpperCase()] where [v] is the value of [expr] *)
Definition call_toUpperCase (expr : string) (v : Value) : Res string :=
  match v with
  | Some (JStr s) => Ok (toUpperCase env s)
  | None => nullish_read "undefined" "toUpperCase"
  | Some JNull => nullish_read "null" "toUpperCase"
  | Some _ => Throw (TypeError (expr +:+ ".toUpperCase is not a function"))
  end.

(** [v.join(sep)] where [v] is the value of [expr] *)
Definition call_join (expr : string) (v : Value) (sep : string) : Res string :=
  match v with
  | Some (JArr items) => array_join (Number_toString env) sep items
  | None => nullish_read "undefined" "join"
  | Some JNull => nullish_read "null" "join"
  | Some _ => Throw (TypeError (expr +:+ ".join is not a function"))
  end.

(** The options of a run. *)
Definition run (t : Value) (b i : bool) (sz : Z) (c : option string) : TextRun :=
  {| text := t; bold := b; italics := i; size := sz; font := "Calibri"; color := c |}.

(** [new TextRun(options)]: with a string for text the constructor
    returns; with another value it returns or throws as the library
    decides.  Below, a run whose text is a string by construction (a
    literal, a template literal, the result of [toUpperCase], of [join] or
    of a concatenation) is written as its options; a run whose text is a
    value of the résumé goes through the constructor. *)
Definition new_TextRun (options : TextRun) : Res TextRun :=
  match text options with
  | Some (JStr _) => Ok options
  | _ => _ ← TextRun_new env options; Ok options
  end.

Definition para (runs : list TextRun) (a : option AlignmentType)
    (before after : option Z) (b : option Border) (ind : option Z) : Paragraph :=
  {| children := runs; alignment := a; spacing_before := before;
     spacing_after := after; border_bottom := b; indent_left := ind |}.

Definition rule (c : string) (sz : Z) : Border :=
  {| border_color := c; border_space := 1; border_style := SINGLE; border_size := sz |}.

(** The paragraph that opens each of the four sections; the source writes
    it out four times, with the title as the only difference. *)
Definition section_title (title : string) : Paragraph :=
  para [run (str title) true false 24 (Some "1a365d")] None
    (Some 200%Z) (Some 120%Z) (Some (rule "e2e8f0" 6)) None.

(** The paragraph pushed for one element of [job.achievements]. *)
Definition docx_achievement (ach : Value) : Res Paragraph :=
  bullet ← tpl env ach;
  Ok (para [ run (str ("• " +:+ bullet)) false false 21 None ]
        None None (Some 60%Z) None (Some 360%Z)).

(** The paragraphs pushed for one element of [cvData.experience], built
    in the order in which the source evaluates its expressions. *)
Definition docx_job (job : Value) : Res (list Paragraph) :=
  title ← get job "title";
  title_run ← new_TextRun (run title true false 22 None);
  company ← get job "company";
  company_run ← new_TextRun (run company false true 22 None);
  location ← get job "location";
  location ← tpl env location;
  dates ← get job "dates";
  dates ← tpl env dates;
  achievements ← get job "achievements";
  achs ← iterate "job.achievements" achievements;
  bullets ← mapM docx_achievement achs;
  Ok ([ para [ title_run;
               run (str "  |  ") false false 22 (Some "a0aec0");
               company_run ]
          None (Some 150%Z) (Some 60%Z) None None;
        para [ run (str (location +:+ " | " +:+ dates)) false false 20 (Some "718096") ]
          None None (Some 80%Z) None None ]
      ++ bullets).

(** The paragraphs pushed for one element of [cvData.education]. *)
Definition docx_edu (edu : Value) : Res (list Paragraph) :=
  degree ← get edu "degree";
  degree_run ← new_TextRun (run degree true false 22 None);
  institution ← get edu "institution";
  institution ← tpl env institution;
  dates ← get edu "dates";
  dates ← tpl env dates;
  Ok [ para [ degree_run ] None (Some 100%Z) (Some 40%Z) None None;
       para [ run (str (institution +:+ " | " +:+ dates)) false false 20 (Some "718096") ]
         None None (Some 100%Z) None None ].

(** The array [children] of [generateCVDocx], in the order in which the
    source evaluates it: the first dereference, conversion or constructor
    that fails throws, and nothing after it is evaluated. *)
Definition docx_children (cvData : Value) : Res (list Paragraph) :=
  personalInfo ← get cvData "personalInfo";
  fullName ← get personalInfo "fullName";
  name ← call_toUpperCase "cvData.personalInfo.fullName" fullName;
  email ← get personalInfo "email";
  email ← tpl env email;
  phone ← get personalInfo "phone";
  phone ← tpl env phone;
  location ← get personalInfo "location";
  location ← tpl env location;
  summary ← get cvData "summary";
  summary_run ← new_TextRun (run summary false false 22 None);
  experience ← get cvData "experience";
  jobs ← iterate "cvData.experience" experience;
  job_paragraphs ← mapM docx_job jobs;
  skills ← get cvData "skills";
  skill_line ← call_join "cvData.skills" skills "  •  ";
  education ← get cvData "education";
  edus ← iterate "cvData.education" education;
  edu_paragraphs ← mapM docx_edu edus;
  Ok ([ para [ run (str name) true false 40 (Some "1a365d") ]
          (Some CENTER) None (Some 120%Z) None None;
        para [ run (str (email +:+ " | " +:+ phone +:+ " | " +:+ location))
                 false false 20 (Some "4a5568") ]
          (Some CENTER) None (Some 300%Z) None None;
        para [] None None (Some 300%Z) (Some (rule "1a365d" 12)) None;
        section_title "PROFESSIONAL SUMMARY";
        para [ summary_run ] None None (Some 200%Z) None None;
        section_title "PROFESSIONAL EXPERIENCE" ]
      ++ concat job_paragraphs
      ++ [ section_title "SKILLS";
           para [ run (str skill_line) false false 21 None ] None None (Some 200%Z) None None;
           section_title "EDUCATION" ]
      ++ concat edu_paragraphs).

Definition generateCVDocx (cvData : Value) : Async Buffer :=
  children ← now (docx_children cvData);
  AwaitRender
    (Docx {| margin := {| top := 720; right := 720; bottom := 720; left := 720 |};
             paragraphs := children |})
    (fun buffer => Return buffer).

(** [generateTextDocx] is called by the handler and declared nowhere: the
    module has no function, constant or import of that name, and it is no
    global of Node.js.  Evaluating the call throws before its arguments
    are looked at. *)
Definition generateTextDocx (title body : string) : Async Buffer :=
  now (unbound "generateTextDocx").

(** ** PDF generators *)

(** The executor of [new Promise(...)] in [generateCVPDF]: it creates the
    document and makes its calls on it one after the other, evaluating the
    expressions of the résumé in between.  The state is the list of the
    calls made so far; when an expression or a call throws, the calls
    made before stay made and the document is never ended. *)
Definition Executor (A : Type) : Type := list PdfCall -> Res A * list PdfCall.

#[global] Instance Executor_ret : MRet Executor := fun A a calls => (Ok a, calls).
#[global] Instance Executor_bind : MBind Executor := fun A B f m calls =>
  match m calls with
  | (Ok a, calls') => f a calls'
  | (Throw e, calls') => (Throw e, calls')
  end.

(** An expression evaluated between two calls. *)
Definition eval {A} (r : Res A) : Executor A := fun calls => (r, calls).

(** Calls with constant arguments, or with a text that is a string by
    construction. *)
Definition doc_calls (cs : list PdfCall) : Executor unit :=
  fun calls => (Ok (), calls ++ cs).

(** [doc.text(t, options)] for a value of the résumé; the call is made
    whether it returns or throws. *)
Definition doc_text (t : Value) (options : TextOptions) : Executor unit :=
  fun calls =>
    (match t with
     | Some (JStr _) => Ok ()
     | _ => PDFDocument_text env t options
     end, calls ++ [Text t options]).

(** [for (const x of items) body] *)
Fixpoint for_each {A} (body : A -> Executor unit) (items : list A) : Executor unit :=
  match items with
  | [] => mret ()
  | x :: rest => _ ← body x; for_each body rest
  end.

Definition renderSectionHeader (title : string) : Executor unit :=
  doc_calls
    [ FillColor "#1a365d"; FontSize 13;
      Text (str title) {| align := None; opt_bold := true; continued := false;
                          oblique := false; lineGap := None; indent := None |};
      MoveDown 0.2;
      StrokeColor "#e2e8f0"; LineWidth 1; MoveTo 40; LineTo 570; Stroke; MoveDown 0.8 ].

Definition pdf_achievement (ach : Value) : Executor unit :=
  bullet ← eval (tpl env ach);
  doc_calls [ Text (str ("• " +:+ bullet))
                {| align := None; opt_bold := false; continued := false; oblique := false;
                   lineGap := Some 1.5%Q; indent := Some 15%Q |} ].

(** The body of the loop over [cvData.experience]. *)
Definition pdf_job (job : Value) : Executor unit :=
  _ ← doc_calls [ FillColor "#000000"; FontSize 11 ];
  title ← eval (get job "title");
  _ ← doc_text title {| align := None; opt_bold := true; continued := true;
                        oblique := false; lineGap := None; indent := None |};
  _ ← doc_calls [ FillColor "#a0aec0";
                  Text (str "  |  ") {| align := None; opt_bold := false; continued := true;
                                        oblique := false; lineGap := None; indent := None |};
                  FillColor "#000000" ];
  company ← eval (get job "company");
  _ ← doc_text company {| align := None; opt_bold := false; continued := false;
                          oblique := true; lineGap := None; indent := None |};
  _ ← doc_calls [ MoveDown 0.2; FillColor "#718096"; FontSize 9.5 ];
  location ← eval (get job "location");
  location ← eval (tpl env location);
  dates ← eval (get job "dates");
  dates ← eval (tpl env dates);
  _ ← doc_calls [ Text (str (location +:+ " | " +:+ dates)) no_options;
                  MoveDown 0.5;
                  FillColor "#000000"; FontSize 10.5 ];
  achievements ← eval (get job "achievements");
  achs ← eval (iterate "job.achievements" achievements);
  _ ← for_each pdf_achievement achs;
  doc_calls [ MoveDown 1 ].

(** The body of the loop over [cvData.education]. *)
Definition pdf_edu (edu : Value) : Executor unit :=
  _ ← doc_calls [ FillColor "#000000"; FontSize 11 ];
  degree ← eval (get edu "degree");
  _ ← doc_text degree {| align := None; opt_bold := true; continued := false;
                         oblique := false; lineGap := None; indent := None |};
  _ ← doc_calls [ MoveDown 0.2; FillColor "#718096"; FontSize 9.5 ];
  institution ← eval (get edu "institution");
  institution ← eval (tpl env institution);
  dates ← eval (get edu "dates");
  dates ← eval (tpl env dates);
  doc_calls [ Text (str (institution +:+ " | " +:+ dates)) no_options; MoveDown 1 ].

Definition centered : TextOptions :=
  {| align := Some "center"; opt_bold := false; continued := false; oblique := false;
     lineGap := None; indent := None |}.

Definition spaced (gap : Q) : TextOptions :=
  {| align := None; opt_bold := false; continued := false; oblique := false;
     lineGap := Some gap; indent := None |}.

(** The executor of [generateCVPDF], from the first call on the new
    document to [doc.end()]. *)
Definition executor (cvData : Value) : Executor unit :=
  _ ← doc_calls [ FillColor "#1a365d"; FontSize 22 ];
  personalInfo ← eval (get cvData "personalInfo");
  fullName ← eval (get personalInfo "fullName");
  name ← eval (call_toUpperCase "cvData.personalInfo.fullName" fullName);
  _ ← doc_calls [ Text (str name) centered; MoveDown 0.2;
                  FillColor "#4a5568"; FontSize 10 ];
  email ← eval (get personalInfo "email");
  email ← eval (tpl env email);
  phone ← eval (get personalInfo "phone");
  phone ← eval (tpl env phone);
  location ← eval (get personalInfo "location");
  location ← eval (tpl env location);
  _ ← doc_calls [ Text (str (email +:+ " | " +:+ phone +:+ " | " +:+ location)) centered;
                  MoveDown 1.5;
                  StrokeColor "#1a365d"; LineWidth 2; MoveTo 40; LineTo 570; Stroke;
                  MoveDown 1.5 ];
  _ ← renderSectionHeader "PROFESSIONAL SUMMARY";
  _ ← doc_calls [ FillColor "#000000"; FontSize 10.5 ];
  summary ← eval (get cvData "summary");
  _ ← doc_text summary (spaced 2);
  _ ← doc_calls [ MoveDown 1.5 ];
  _ ← renderSectionHeader "PROFESSIONAL EXPERIENCE";
  experience ← eval (get cvData "experience");
  jobs ← eval (iterate "cvData.experience" experience);
  _ ← for_each pdf_job jobs;
  _ ← renderSectionHeader "SKILLS";
  _ ← doc_calls [ FillColor "#000000"; FontSize 10.5 ];
  skills ← eval (get cvData "skills");
  skill_line ← eval (call_join "cvData.skills" skills "  •  ");
  _ ← doc_calls [ Text (str skill_line) (spaced 2); MoveDown 1.5 ];
  _ ← renderSectionHeader "EDUCATION";
  education ← eval (get cvData "education");
  edus ← eval (iterate "cvData.education" education);
  _ ← for_each pdf_edu edus;
  doc_calls [ End_ ].

(** The calls made on a document that the executor has ended. *)
Definition pdf_calls (cvData : Value) : Res (list PdfCall) :=
  match executor cvData [] with
  | (Ok _, calls) => Ok calls
  | (Throw e, _) => Throw e
  end.

(** The promise of [generateCVPDF] is rejected when its executor throws,
    whatever calls the document has received by then, and resolved with
    the concatenated chunks when the document ends. *)
Definition generateCVPDF (cvData : Value) : Async Buffer :=
  calls ← now (pdf_calls cvData);
  AwaitRender (Pdf {| pdf_margin := 40; calls := calls |}) (fun buffer => Return buffer).

(** The title is a literal and the body is the text of a completion:
    both are strings. *)
Definition generateTextPDF (title body : string) : Async Buffer :=
  AwaitRender
    (Pdf {| pdf_margin := 50;
            calls := [ FontSize 18; Text (str title) centered; MoveDown 2;
                       FontSize 12;
                       Text (str body)
                         {| align := Some "left"; opt_bold := false; continued := false;
                            oblique := false; lineGap := Some 5%Q; indent := None |};
                       End_ ] |})
    (fun buffer => Return buffer).
End Renderers.

(** ** The state a request acts on *)

(** What a request does that is visible outside its own computation, in
    order: a call of [fs.readFileSync] and whether it returned, the return
    of an extraction library, a call of [JSON.parse] with its argument and
    the value it returned (none if it threw), the call of [axios.post], the
    settling of its promise, the hand-over of a document to a rendering
    library (the call of [Packer.toBuffer], or of [doc.end()] on a PDF
    document that has received its calls), the settling of its promise,
    and a call of [fs.unlinkSync] with whether it removed the file. *)
Inductive Event : Type :=
| ReadFile (path : string) (ok : bool)
| Extracted (mimeType : string) (ok : bool)
| JSONParse (text : string) (value : option JSON)
| Sent (r : CompletionRequest)
| Replied (r : CompletionRequest) (ok : bool)
| RenderStarted (j : RenderJob)
| Rendered (j : RenderJob) (ok : bool)
| Unlinked (path : string) (ok : bool).

(** The events that report a failure. *)
Definition failed (e : Event) : bool :=
  match e with
  | ReadFile _ ok | Extracted _ ok | Replied _ ok | Rendered _ ok | Unlinked _ ok => negb ok
  | JSONParse _ None => true
  | JSONParse _ (Some _) | Sent _ | RenderStarted _ => false
  end.

(** The upload directory, the events so far, and the object [results]
    shared by the tasks of the request. *)
Record State : Type := {
  files : gmap string Buffer;
  trace : list Event;
  results : Results
}.

Definition log (e : Event) (st : State) : State :=
  {| files := files st; trace := trace st ++ [e]; results := results st |}.

Definition update_results (f : Results -> Results) (st : State) : State :=
  {| files := files st; trace := trace st; results := f (results st) |}.

(** Computations of the handler: they act on the state and may throw. *)
Definition M (A : Type) : Type := State -> Res A * State.

#[global] Instance M_ret : MRet M := fun A a st => (Ok a, st).
#[global] Instance M_bind : MBind M := fun A B f m st =>
  match m st with
  | (Ok a, st') => f a st'
  | (Throw e, st') => (Throw e, st')
  end.

Definition lift {A} (r : Res A) : M A := fun st => (r, st).

(** [fs.readFileSync(path)] *)
Definition readFileSync (path : string) : M Buffer := fun st =>
  match files st !! path with
  | Some buffer => (Ok buffer, log (ReadFile path true) st)
  | None =>
      (Throw (Error ("ENOENT: no such file or directory, open '" +:+ path +:+ "'")),
       log (ReadFile path false) st)
  end.

(** [fs.unlinkSync(path)] *)
Definition unlinkSync (path : string) : M unit := fun st =>
  match files st !! path with
  | Some _ =>
      (Ok (), log (Unlinked path true)
                {| files := delete path (files st); trace := trace st; results := results st |})
  | None =>
      (Throw (Error ("ENOENT: no such file or directory, unlink '" +:+ path +:+ "'")),
       log (Unlinked path false) st)
  end.

(** ** Running asynchronous functions *)

Section Scheduling.
Variable env : Env.

(** [await c] in the body of the handler, when nothing else of the
    request is in flight: [c] runs to its end before the handler goes
    on. *)
Fixpoint await {A} (c : Async A) : M A :=
  match c with
  | Return a => fun st => (Ok a, st)
  | Raise e => fun st => (Throw e, st)
  | Assign f k => fun st => await k (update_results f st)
  | AwaitCompletion r k => fun st =>
      let st := log (Sent r) st in
      match post env r with
      | Ok content => await (k content) (log (Replied r true) st)
      | Throw e => (Throw e, log (Replied r false) st)
      end
  | AwaitRender j k => fun st =>
      let st := log (RenderStarted j) st in
      match render env j with
      | Ok buffer => await (k buffer) (log (Rendered j true) st)
      | Throw e => (Throw e, log (Rendered j false) st)
      end
  end.

(** The promise of a task: settled, or suspended on an operation that
    has been started. *)
Inductive Promise : Type :=
| Settled (r : Res unit)
| OnCompletion (r : CompletionRequest) (k : string -> Async unit)
| OnRender (j : RenderJob) (k : Buffer -> Async unit).

(** Calling an [async] function: its body runs up to the first [await],
    where the operation is started and the body is suspended. *)
Fixpoint start (c : Async unit) (st : State) : Promise * State :=
  match c with
  | Return _ => (Settled (Ok ()), st)
  | Raise e => (Settled (Throw e), st)
  | Assign f k => start k (update_results f st)
  | AwaitCompletion r k => (OnCompletion r k, log (Sent r) st)
  | AwaitRender j k => (OnRender j k, log (RenderStarted j) st)
  end.

(** The operation a task is suspended on settles: a rejection rejects
    the task, a value resumes the body up to its next [await]. *)
Definition resume (p : Promise) (st : State) : Promise * State :=
  match p with
  | Settled r => (Settled r, st)
  | OnCompletion r k =>
      match post env r with
      | Ok content => start (k content) (log (Replied r true) st)
      | Throw e => (Settled (Throw e), log (Replied r false) st)
      end
  | OnRender j k =>
      match render env j with
      | Ok buffer => start (k buffer) (log (Rendered j true) st)
      | Throw e => (Settled (Throw e), log (Rendered j false) st)
      end
  end.

(** The task runs from where it is suspended to its end. *)
Definition finish (p : Promise) : M unit :=
  match p with
  | Settled r => lift r
  | OnCompletion r k => fun st =>
      match post env r with
      | Ok content => await (k content) (log (Replied r true) st)
      | Throw e => (Throw e, log (Replied r false) st)
      end
  | OnRender j k => fun st =>
      match render env j with
      | Ok buffer => await (k buffer) (log (Rendered j true) st)
      | Throw e => (Throw e, log (Rendered j false) st)
      end
  end.

Definition Task : Type := Kind * Promise.

Fixpoint first_rejection (tasks : list Task) : option Exn :=
  match tasks with
  | [] => None
  | (_, Settled (Throw e)) :: _ => Some e
  | _ :: rest => first_rejection rest
  end.

(** The pending operation of the task of kind [k] settles. *)
Fixpoint step (k : Kind) (tasks : list Task) (st : State) : list Task * State :=
  match tasks with
  | [] => ([], st)
  | (k', p) :: rest =>
      if decide (k = k') then
        let '(p', st') := resume p st in ((k', p') :: rest, st')
      else
        let '(rest', st') := step k rest st in ((k', p) :: rest', st')
  end.

(** The tasks still suspended run to their ends, one after the other. *)
Fixpoint drain (tasks : list Task) : M unit :=
  match tasks with
  | [] => mret ()
  | (_, p) :: rest => _ ← finish p; drain rest
  end.

(** [await Promise.all(promises)].  The order in which the operations in
    flight settle is not the program's to choose: [schedule] names, step
    by step, the task whose pending operation settles next (a name with
    nothing pending is passed over); what is left when the schedule is
    used up settles in the order of creation.  The first rejection ends
    the wait and is thrown; the other tasks are left where they are. *)
Fixpoint Promise_all (schedule : list Kind) (tasks : list Task) : M unit :=
  fun st =>
    match first_rejection tasks with
    | Some e => (Throw e, st)
    | None =>
        match schedule with
        | [] => drain tasks st
        | k :: later =>
            let '(tasks', st') := step k tasks st in
            Promise_all later tasks' st'
        end
    end.
End Scheduling.

(** ** The handler of [POST /api/tailor-cv] *)

(** The uploaded file as the upload middleware describes it. *)
Record File : Type := {
  path : string;
  mimetype : string
}.

(** [req.body.jobDescription], [req.body.options] and [req.file]; a field
    that was not sent is [undefined]. *)
Record Request : Type := {
  body_jobDescription : option string;
  body_options : option string;
  file : option File
}.

Inductive Body : Type :=
| Success (documents : Results)        (* [{ success: true, ...results }] *)
| Failure (error : string).            (* [{ error }] *)

Record Response : Type := {
  status : Z;
  body : Body
}.

(** A text field in a place that converts its value to a string. *)
Definition field_text (v : option string) : string :=
  match v with
  | Some s => s
  | None => "undefined"
  end.

Definition fences : list string := [ "```json"; "```" ].

(** The first [n] characters removed. *)
Fixpoint string_drop (n : nat) (s : string) : string :=
  match n, s with
  | S n, String _ rest => string_drop n rest
  | _, _ => s
  end.

(** As the specification words the cleaning of the model's answer:
    code-fence markers are stripped where they lead and where they trail
    the text, and nowhere else. *)
Definition strip_leading_trailing_fences (s : string) : string :=
  let strip_leading (fs : list string) (s : string) : string :=
    match first_match fs s with
    | Some n => string_drop n s
    | None => s
    end in
  let s := strip_leading fences (trim s) in
  let s := string_rev (strip_leading (List.map string_rev fences) (string_rev s)) in
  trim s.

Section Handler.
Variable env : Env.
Variable schedule : list Kind.

(** [JSON.parse(text)] *)
Definition call_JSON_parse (text : string) : M JSON := fun st =>
  match JSON_parse env text with
  | inr v => (Ok v, log (JSONParse text (Some v)) st)
  | inl msg => (Throw (SyntaxError msg), log (JSONParse text None) st)
  end.

(** The awaited call of an extraction library. *)
Definition extract (mimeType : string) (r : Res string) : M string := fun st =>
  (r, log (Extracted mimeType (is_ok r)) st).

(** [parseCVContent(filePath, mimeType)] *)
Definition parseCVContent (filePath mimeType : string) : M string :=
  buffer ← readFileSync filePath;
  if String.eqb mimeType "application/pdf" then extract mimeType (pdfParse env buffer)
  else extract mimeType (extractRawText env buffer).

(** The three immediately invoked [async] functions of the handler.  The
    file name of an entry is a template literal: the candidate's name and
    the format are converted to strings before the entry is assigned. *)
Definition cv_task (options cvData candidateName : Value) (tailoredCVResponse : string)
  : Async unit :=
  name ← now (tpl env candidateName);
  format ← now (get options "format");
  extension ← now (tpl env format);
  Assign (set_entry CV
            {| preview := tailoredCVResponse;
               fileName := name +:+ "_CV." +:+ extension;
               fileData := None |})
    (buffer ← (if strict_eq_string format "pdf" then generateCVPDF env cvData
               else generateCVDocx env cvData);
     Assign (set_fileData CV (toString_base64 buffer)) (Return ())).

Definition coverLetter_task (options candidateName : Value) (cvContent jobDescription : string)
  : Async unit :=
  text ← generateCoverLetter env cvContent jobDescription candidateName;
  name ← now (tpl env candidateName);
  format ← now (get options "format");
  extension ← now (tpl env format);
  Assign (set_entry CoverLetter
            {| preview := text;
               fileName := name +:+ "_Cover_Letter." +:+ extension;
               fileData := None |})
    (buffer ← (if strict_eq_string format "pdf" then generateTextPDF "Cover Letter" text
               else generateTextDocx "Cover Letter" text);
     Assign (set_fileData CoverLetter (toString_base64 buffer)) (Return ())).

Definition email_task (options candidateName : Value) (cvContent jobDescription : string)
  : Async unit :=
  text ← generateApplicationEmail env cvContent jobDescription candidateName;
  name ← now (tpl env candidateName);
  format ← now (get options "format");
  extension ← now (tpl env format);
  Assign (set_entry Email
            {| preview := text;
               fileName := name +:+ "_Email." +:+ extension;
               fileData := None |})
    (buffer ← (if strict_eq_string format "pdf" then generateTextPDF "Application Email" text
               else generateTextDocx "Application Email" text);
     Assign (set_fileData Email (toString_base64 buffer)) (Return ())).

(** [if (selected) promises.push((async () => { ... })())] *)
Definition push_if (selected : Value) (k : Kind) (c : Async unit) (promises : list Task)
  : M (list Task) :=
  fun st =>
    if ToBoolean (Number_toBoolean env) selected then
      let '(p, st') := start c st in (Ok (promises ++ [(k, p)]), st')
    else (Ok promises, st).

(** [res.json({ success: true, ...results })] *)
Definition res_json : M Response :=
  fun st => (Ok {| status := 200; body := Success (results st) |}, st).

(** The [try] block from the read of the candidate's name on: the
    tasks selected by [options] are started one after the other, the
    handler waits for all of them, removes the upload and answers. *)
Definition fan_out (options cvData : JSON) (cvFile : File)
    (cvContent jobDescription tailoredCVResponse : string) : M Response :=
  personalInfo ← lift (get (Some cvData) "personalInfo");
  candidateName ← lift (get personalInfo "fullName");
  let promises := [] in
  wants_cv ← lift (get (Some options) "cv");
  promises ← push_if wants_cv CV
               (cv_task (Some options) (Some cvData) candidateName tailoredCVResponse) promises;
  wants_coverLetter ← lift (get (Some options) "coverLetter");
  promises ← push_if wants_coverLetter CoverLetter
               (coverLetter_task (Some options) candidateName cvContent jobDescription) promises;
  wants_email ← lift (get (Some options) "email");
  promises ← push_if wants_email Email
               (email_task (Some options) candidateName cvContent jobDescription) promises;
  _ ← Promise_all env schedule promises;
  _ ← unlinkSync (path cvFile);
  res_json.

(** The body of the [try] block. *)
Definition tailor_cv (req : Request) : M Response :=
  let jobDescription := field_text (body_jobDescription req) in
  options ← call_JSON_parse (field_text (body_options req));
  cvFile ← lift (match file req with
                 | Some f => Ok f
                 | None => nullish_read "undefined" "path"
                 end);
  cvContent ← parseCVContent (path cvFile) (mimetype cvFile);
  tailoredCVResponse ← await env (generateTailoredCV env cvContent jobDescription);
  cvData ← call_JSON_parse (trim (replace_all fences tailoredCVResponse));
  fan_out options cvData cvFile cvContent jobDescription tailoredCVResponse.

(** What the handler leaves behind: the response and the state at the
    moment the response is sent. *)
Record Outcome : Type := {
  response : Response;
  final : State
}.

(** The end of the [try] block, or the [catch] that answers 500 with
    the message of whatever was thrown. *)
Definition answer (run : Res Response * State) : Outcome :=
  match run with
  | (Ok res, st) => {| response := res; final := st |}
  | (Throw err, st) =>
      {| response := {| status := 500; body := Failure (message err) |}; final := st |}
  end.

(** The state in which the handler is entered. *)
Definition entered (uploads : gmap string Buffer) : State :=
  {| files := uploads; trace := []; results := no_results |}.

Definition handler (req : Request) (uploads : gmap string Buffer) : Outcome :=
  answer (tailor_cv req (entered uploads)).
End Handler.

(** ** Notions used to state the properties *)

(** The property of [options] that selects a kind, and the suffix of its
    file name. *)
Definition key (k : Kind) : string :=
  match k with
  | CV => "cv"
  | CoverLetter => "coverLetter"
  | Email => "email"
  end.

Definition suffix (k : Kind) : string :=
  match k with
  | CV => "_CV."
  | CoverLetter => "_Cover_Letter."
  | Email => "_Email."
  end.

(** [options] selects kind [k]: the condition of the [if] that starts its
    task. *)
Definition selects (env : Env) (options : JSON) (k : Kind) : bool :=
  match get (Some options) (key k) with
  | Ok v => ToBoolean (Number_toBoolean env) v
  | Throw _ => false
  end.

(** What [parseCVContent] extracts from a buffer. *)
Definition extraction (env : Env) (mimeType : string) (buffer : Buffer) : Res string :=
  if String.eqb mimeType "application/pdf" then pdfParse env buffer
  else extractRawText env buffer.

(** The three requests of the handler. *)
Definition tailoredCV_request (env : Env) (cvContent jobDescription : string)
  : CompletionRequest :=
  completion_request env "You are an expert CV writer. Always output JSON."
    (tailoredCV_prompt cvContent jobDescription) 4000.

Definition coverLetter_request (env : Env) (cvContent jobDescription name : string)
  : CompletionRequest :=
  completion_request env
    "You write professional cover letters without placeholders or asterisks."
    (coverLetter_prompt cvContent jobDescription name) 2048.

Definition email_request (env : Env) (jobDescription name : string)
  : CompletionRequest :=
  completion_request env
    "You write professional job application emails without placeholders or asterisks."
    (email_prompt jobDescription name) 1024.

(** [cvData.personalInfo.fullName] *)
Definition candidate_name (cvData : JSON) : Res Value :=
  personalInfo ← get (Some cvData) "personalInfo";
  get personalInfo "fullName".

(** The request got as far as the model's answer to the résumé prompt:
    [options] were parsed, the upload was read and [cvContent] extracted
    from it, and the model answered [raw]. *)
Record Answered (env : Env) (req : Request) (uploads : gmap string Buffer)
    (options : JSON) (cvFile : File) (cvContent raw : string) : Prop := {
  answered_options : JSON_parse env (field_text (body_options req)) = inr options;
  answered_file : file req = Some cvFile;
  answered_extraction :
    exists buffer, uploads !! path cvFile = Some buffer
                   /\ extraction env (mimetype cvFile) buffer = Ok cvContent;
  answered_reply :
    post env (tailoredCV_request env cvContent (field_text (body_jobDescription req)))
    = Ok raw
}.

(** What has happened by then. *)
Definition answered_trace (env : Env) (req : Request) (options : JSON) (cvFile : File)
    (cvContent : string) : list Event :=
  let r := tailoredCV_request env cvContent (field_text (body_jobDescription req)) in
  [ JSONParse (field_text (body_options req)) (Some options);
    ReadFile (path cvFile) true;
    Extracted (mimetype cvFile) true;
    Sent r;
    Replied r true ].

(** The event is the removal of a file. *)
Definition is_removal (e : Event) : bool :=
  match e with
  | Unlinked _ true => true
  | _ => false
  end.

(** An event of a request that stops before the model has answered: it is
    no removal, and if it asks for a completion it is the résumé's. *)
Definition early (e : Event) : Prop :=
  is_removal e = false
  /\ forall r, e = Sent r ->
       system_content r = "You are an expert CV writer. Always output JSON.".

(** No event of the list reports a failure. *)
Definition quiet (events : list Event) : Prop :=
  Forall (fun e => failed e = false) events.

(** [st'] comes after [st]: the upload directory is the same and [tail]
    is what happened in between, none of it a removal. *)
Definition grows (st st' : State) (tail : list Event) : Prop :=
  files st' = files st
  /\ trace st' = trace st ++ tail
  /\ Forall (fun e => is_removal e = false) tail.

(** The task [c] of kind [k], run from a state in which [results.k] is
    [cur], writes to [results.k] only and, if it returns, leaves there an
    entry that satisfies [Q].  The answers of the collaborators are those
    of [env]. *)
Inductive Confined (env : Env) (k : Kind) (Q : Entry -> Prop)
  : option Entry -> Async unit -> Prop :=
| Confined_return cur e u :
    cur = Some e -> Q e -> Confined env k Q cur (Return u)
| Confined_raise cur x :
    Confined env k Q cur (Raise x)
| Confined_assign cur cur' f c :
    (forall r, entry k r = cur ->
       entry k (f r) = cur' /\ forall k', k' <> k -> entry k' (f r) = entry k' r) ->
    Confined env k Q cur' c ->
    Confined env k Q cur (Assign f c)
| Confined_completion cur r kont :
    (forall x, post env r = Ok x -> Confined env k Q cur (kont x)) ->
    Confined env k Q cur (AwaitCompletion r kont)
| Confined_render cur j kont :
    (forall x, render env j = Ok x -> Confined env k Q cur (kont x)) ->
    Confined env k Q cur (AwaitRender j kont).

(** The same for a task that has been started. *)
Definition Promise_confined (env : Env) (k : Kind) (Q : Entry -> Prop)
    (cur : option Entry) (p : Promise) : Prop :=
  match p with
  | Settled (Ok _) => exists e, cur = Some e /\ Q e
  | Settled (Throw _) => True
  | OnCompletion r kont => forall x, post env r = Ok x -> Confined env k Q cur (kont x)
  | OnRender j kont => forall x, render env j = Ok x -> Confined env k Q cur (kont x)
  end.

(** The file name of the document of kind [k]: the candidate's name,
    the suffix of the kind and the format, each converted to a string. *)
Definition file_name (env : Env) (candidateName format : Value) (k : Kind) : Res string :=
  name ← tpl env candidateName;
  extension ← tpl env format;
  Ok (name +:+ suffix k +:+ extension).

(** What the finished task of kind [k] leaves in its entry: the file name
    built from the candidate's name, the suffix of the kind and the format,
    and the base64 text of a rendered buffer; for the CV the preview is the
    model's answer as received; a cover letter or an email is produced in
    PDF only. *)
Definition produced (env : Env) (candidateName format : Value) (raw : string)
    (k : Kind) (e : Entry) : Prop :=
  file_name env candidateName format k = Ok (fileName e)
  /\ (exists buffer, fileData e = Some (toString_base64 buffer))
  /\ match k with
     | CV => preview e = raw
     | CoverLetter | Email => strict_eq_string format "pdf" = true
     end.

(** The entries of the kinds other than [k] are the same in [r'] as in
    [r]. *)
Definition kept (k : Kind) (r r' : Results) : Prop :=
  forall k', k' <> k -> entry k' r' = entry k' r.

(** The tasks the handler waits for are of different kinds and each is
    confined to its own entry of [results]. *)
Definition Tasks_confined (env : Env) (Q : Kind -> Entry -> Prop)
    (tasks : list Task) (r : Results) : Prop :=
  NoDup (List.map fst tasks)
  /\ Forall (fun t : Task => Promise_confined env (fst t) (Q (fst t)) (entry (fst t) r) (snd t))
       tasks.

End Server.

(* ===================================================================== *)
(** * The browser script *)
(* ===================================================================== *)

Module Client.
Import JS Base64.

(** ** The submit handler of the form *)

(** A file chosen in the file input. *)
Record BrowserFile : Type := {
  name : string;
  type : string;
  content : Buffer
}.

(** What the handler reads from the page: the text area, the file input,
    the three check boxes and the format toggle. *)
Record Form : Type := {
  jobDescription_value : string;
  cvFile_files : list BrowserFile;
  generateCV_checked : bool;
  generateCoverLetter_checked : bool;
  generateEmail_checked : bool;
  selectedFormat : string
}.

Record Options : Type := {
  cv : bool;
  coverLetter : bool;
  email : bool;
  format : string
}.

(** The fields appended to the [FormData]; [options] is sent as
    [JSON.stringify(options)]. *)
Record FormData : Type := {
  fd_jobDescription : string;
  fd_cv : BrowserFile;
  fd_options : Options
}.

(** What a submission does first: it either shows a message and returns,
    or posts the form to [/api/tailor-cv]. *)
Inductive Submission : Type :=
| Toast (message : string)
| Fetch (formData : FormData).

Definition submit (form : Form) : Submission :=
  if String.eqb (trim (jobDescription_value form)) "" then
    Toast "Please enter a job description."
  else
    match cvFile_files form with
    | [] => Toast "Please upload your CV."
    | file0 :: _ =>
        let options :=
          {| cv := generateCV_checked form;
             coverLetter := generateCoverLetter_checked form;
             email := generateEmail_checked form;
             format := selectedFormat form |} in
        if negb (cv options) && negb (coverLetter options) && negb (email options) then
          Toast "Please select at least one document to generate."
        else
          Fetch {| fd_jobDescription := trim (jobDescription_value form);
                   fd_cv := file0;
                   fd_options := options |}
    end.

(** ** [downloadFile] *)

(** [binaryString.charCodeAt(i)]; the loop never reads out of range. *)
Definition charCodeAt (binaryString : list N) (i : nat) : N :=
  default 0%N (binaryString !! i).

(** Storing a number into a [Uint8Array] keeps it modulo 256. *)
Definition ToUint8 (n : N) : byte :=
  default x00 (Byte.of_N (n mod 256)).

(** [for (let i = 0; i < len; i++) bytes[i] = binaryString.charCodeAt(i)],
    with [remaining] iterations to go. *)
Fixpoint fill (remaining i : nat) (binaryString : list N) (bytes : list byte) : list byte :=
  match remaining with
  | O => bytes
  | S n => fill n (S i) binaryString (<[i := ToUint8 (charCodeAt binaryString i)]> bytes)
  end.

(** Lines 63 to 69: the bytes of a base64 string. *)
Definition base64_to_bytes (base64Data : string) : Res (list byte) :=
  binaryString ← atob base64Data;
  let len := length binaryString in
  let bytes := replicate len x00 in
  Ok (fill len 0 binaryString bytes).

(** What [downloadFile] does to the page. *)
Inductive Effect : Type :=
| ShowToast (message : string) (isSuccess : bool) (duration : Z)
| SaveAs (bytes : list byte) (mimeType : string) (fileName : string)
| ConsoleError (label message : string).

Definition downloadFile (base64Data : option string) (fileName format : string) : list Effect :=
  match base64Data with
  | None | Some "" => [ ShowToast "No file data available" false 5000 ]
  | Some data =>
      match base64_to_bytes data with
      | Ok bytes =>
          let mimeType :=
            if String.eqb format "pdf" then "application/pdf"
            else "application/vnd.openxmlformats-officedocument.wordprocessingml.document" in
          [ SaveAs bytes mimeType fileName;
            ShowToast (fileName +:+ " downloaded!") true 3000 ]
      | Throw error =>
          [ ConsoleError "Download error:" (message error);
            ShowToast ("Download failed: " +:+ message error) false 5000 ]
      end
  end.

End Client.

(* ===================================================================== *)
(** * Concrete collaborators *)
(* ===================================================================== *)

(** A run time and stand-ins for the libraries and the remote model, to run
    the handler on concrete requests. *)
Module Scenario.
Import JS Base64 Server.

(** ** A reference [JSON.parse] *)

(** A recursive-descent parser for the JSON grammar. *)
Definition is_json_whitespace (c : ascii) : bool :=
  existsb (Ascii.eqb c) [" "; "009"; "010"; "013"]%char.

Fixpoint skip_whitespace (s : list ascii) : list ascii :=
  match s with
  | c :: r => if is_json_whitespace c then skip_whitespace r else s
  | [] => []
  end.

Definition is_digit (c : ascii) : bool :=
  let n := N_of_ascii c in (48 <=? n)%N && (n <=? 57)%N.

Definition hex_value (c : ascii) : option N :=
  let n := N_of_ascii c in
  if (48 <=? n)%N && (n <=? 57)%N then Some (n - 48)%N
  else if (65 <=? n)%N && (n <=? 70)%N then Some (n - 55)%N
  else if (97 <=? n)%N && (n <=? 102)%N then Some (n - 87)%N
  else None.

Definition hex4 (a b c d : ascii) : option N :=
  x ← hex_value a; y ← hex_value b; z ← hex_value c; w ← hex_value d;
  Some (((x * 16 + y) * 16 + z) * 16 + w)%N.

(** UTF-8 bytes of a code point. *)
Definition utf8 (cp : N) : list ascii :=
  List.map ascii_of_N
    (if (cp <? 128)%N then [cp]
     else if (cp <? 2048)%N then [192 + cp / 64; 128 + cp mod 64]
     else if (cp <? 65536)%N then [224 + cp / 4096; 128 + cp / 64 mod 64; 128 + cp mod 64]
     else [240 + cp / 262144; 128 + cp / 4096 mod 64; 128 + cp / 64 mod 64; 128 + cp mod 64])%N.

Definition simple_escape (c : ascii) : option ascii :=
  if Ascii.eqb c "034" then Some "034"%char
  else if Ascii.eqb c "\" then Some "\"%char
  else if Ascii.eqb c "/" then Some "/"%char
  else if Ascii.eqb c "b" then Some "008"%char
  else if Ascii.eqb c "f" then Some "012"%char
  else if Ascii.eqb c "n" then Some "010"%char
  else if Ascii.eqb c "r" then Some "013"%char
  else if Ascii.eqb c "t" then Some "009"%char
  else None.

(** The low surrogate escaped at the head of [s], with what follows it. *)
Definition low_surrogate (s : list ascii) : option N :=
  match s with
  | bs :: u :: a :: b :: c :: d :: _ =>
      if Ascii.eqb bs "\" && Ascii.eqb u "u" then
        lo ← hex4 a b c d;
        if (56320 <=? lo)%N && (lo <=? 57343)%N then Some lo else None
      else None
  | _ => None
  end.

(** The characters of a string literal after its opening quote; [acc] holds
    the bytes read so far, last first. *)
Fixpoint string_chars (s : list ascii) (acc : list ascii) : option (string * list ascii) :=
  match s with
  | [] => None
  | c :: r =>
      if Ascii.eqb c "034" then Some (string_of_list_ascii (rev acc), r)
      else if Ascii.eqb c "\" then
        match r with
        | [] => None
        | e :: r1 =>
            if Ascii.eqb e "u" then
              match r1 with
              | a :: b :: c' :: d :: r2 =>
                  match hex4 a b c' d with
                  | None => None
                  | Some cu =>
                      match (if (55296 <=? cu)%N && (cu <=? 56319)%N then low_surrogate r2 else None), r2 with
                      | Some lo, _ :: _ :: _ :: _ :: _ :: _ :: r3 =>
                          string_chars r3
                            (rev (utf8 (65536 + (cu - 55296) * 1024 + (lo - 56320))%N) ++ acc)
                      | _, _ => string_chars r2 (rev (utf8 cu) ++ acc)
                      end
                  end
              | _ => None
              end
            else
              match simple_escape e with
              | Some ch => string_chars r1 (ch :: acc)
              | None => None
              end
        end
      else if (N_of_ascii c <? 32)%N then None
      else string_chars r (c :: acc)
  end.

Fixpoint span_digits (s : list ascii) : list ascii * list ascii :=
  match s with
  | c :: r => if is_digit c then let '(ds, rest) := span_digits r in (c :: ds, rest) else ([], s)
  | [] => ([], [])
  end.

(** A number literal at the head of [s]: its text and what follows. *)
Definition number_literal (s : list ascii) : option (string * list ascii) :=
  let '(sign, s) := match s with
                    | c :: r => if Ascii.eqb c "-" then ([c], r) else ([], s)
                    | [] => ([], s)
                    end in
  match span_digits s with
  | ([], _) => None
  | (d :: ds, s) =>
      if Ascii.eqb d "0" && negb (bool_decide (ds = [])) then None
      else
        let int := sign ++ d :: ds in
        frac ← match s with
               | c :: r =>
                   if Ascii.eqb c "." then
                     match span_digits r with
                     | ([], _) => None
                     | (fs, r') => Some (c :: fs, r')
                     end
                   else Some ([], s)
               | [] => Some ([], s)
               end;
        let '(fraction, s) := frac in
        expo ← match s with
               | c :: r =>
                   if Ascii.eqb c "e" || Ascii.eqb c "E" then
                     let '(esign, r) := match r with
                                        | c' :: r' =>
                                            if Ascii.eqb c' "+" || Ascii.eqb c' "-"
                                            then ([c'], r') else ([], r)
                                        | [] => ([], r)
                                        end in
                     match span_digits r with
                     | ([], _) => None
                     | (es, r') => Some (c :: esign ++ es, r')
                     end
                   else Some ([], s)
               | [] => Some ([], s)
               end;
        let '(exponent, s) := expo in
        Some (string_of_list_ascii (int ++ fraction ++ exponent), s)
  end.

Definition keyword (w : string) (s : list ascii) : option (list ascii) :=
  let w := list_ascii_of_string w in
  if bool_decide (take (length w) s = w) then Some (drop (length w) s) else None.

Fixpoint value (fuel : nat) (s : list ascii) : option (JSON * list ascii) :=
  match fuel with
  | O => None
  | S fuel =>
      match skip_whitespace s with
      | [] => None
      | c :: r =>
          if Ascii.eqb c "034" then
            '(str, rest) ← string_chars r []; Some (JStr str, rest)
          else if Ascii.eqb c "[" then
            match skip_whitespace r with
            | c' :: r' => if Ascii.eqb c' "]" then Some (JArr [], r') else elements fuel r []
            | [] => None
            end
          else if Ascii.eqb c "{" then
            match skip_whitespace r with
            | c' :: r' => if Ascii.eqb c' "}" then Some (JObj [], r') else members fuel r []
            | [] => None
            end
          else if Ascii.eqb c "n" then rest ← keyword "null" (c :: r); Some (JNull, rest)
          else if Ascii.eqb c "t" then rest ← keyword "true" (c :: r); Some (JBool true, rest)
          else if Ascii.eqb c "f" then rest ← keyword "false" (c :: r); Some (JBool false, rest)
          else '(lit, rest) ← number_literal (c :: r); Some (JNum lit, rest)
      end
  end
with elements (fuel : nat) (s : list ascii) (acc : list JSON) : option (JSON * list ascii) :=
  match fuel with
  | O => None
  | S fuel =>
      '(v, rest) ← value fuel s;
      match skip_whitespace rest with
      | c :: r =>
          if Ascii.eqb c "," then elements fuel r (v :: acc)
          else if Ascii.eqb c "]" then Some (JArr (rev (v :: acc)), r)
          else None
      | [] => None
      end
  end
with members (fuel : nat) (s : list ascii) (acc : list (string * JSON)) : option (JSON * list ascii) :=
  match fuel with
  | O => None
  | S fuel =>
      match skip_whitespace s with
      | c :: r =>
          if Ascii.eqb c "034" then
            '(key, rest) ← string_chars r [];
            match skip_whitespace rest with
            | c' :: r' =>
                if Ascii.eqb c' ":" then
                  '(v, rest) ← value fuel r';
                  match skip_whitespace rest with
                  | c'' :: r'' =>
                      if Ascii.eqb c'' "," then members fuel r'' ((key, v) :: acc)
                      else if Ascii.eqb c'' "}" then Some (JObj (rev ((key, v) :: acc)), r'')
                      else None
                  | [] => None
                  end
                else None
            | [] => None
            end
          else None
      | [] => None
      end
  end.

(** The whole text must be one value.  The message of the error is the
    engine's own business: this parser quotes the text and says that it
    [is not valid JSON]. *)
Definition JSON_parse (text : string) : string + JSON :=
  let s := list_ascii_of_string text in
  match value (2 * length s + 2) s with
  | Some (v, rest) =>
      match skip_whitespace rest with
      | [] => inr v
      | _ :: _ => inl (q "~" +:+ text +:+ q "~ is not valid JSON")
      end
  | None => inl (q "~" +:+ text +:+ q "~ is not valid JSON")
  end.

(** ** Stand-ins *)

(** Upper case of the ASCII letters. *)
Definition toUpperCase (s : string) : string :=
  string_of_list_ascii
    (List.map (fun c =>
       let n := N_of_ascii c in
       if (97 <=? n)%N && (n <=? 122)%N then ascii_of_N (n - 32) else c)
     (list_ascii_of_string s)).

(** A literal is truthy when a digit of its mantissa is not zero. *)
Fixpoint Number_toBoolean (literal : string) : bool :=
  match literal with
  | "" => false
  | String c rest =>
      if Ascii.eqb c "e" || Ascii.eqb c "E" then false
      else (is_digit c && negb (Ascii.eqb c "0")) || Number_toBoolean rest
  end.

Definition cv_writer : string := "You are an expert CV writer. Always output JSON.".
Definition letter_writer : string :=
  "You write professional cover letters without placeholders or asterisks.".

(** A remote model that answers the résumé prompt with [resume], the
    cover-letter prompt with [letter] and the email prompt with [mail]. *)
Definition replies (resume letter mail : Res string) (r : CompletionRequest) : Res string :=
  if String.eqb (system_content r) cv_writer then resume
  else if String.eqb (system_content r) letter_writer then letter
  else mail.

(** A DOCX library that takes a text which is no string for an object
    of options and reads a property of it: [null] has none to read. *)
Definition TextRun_new (options : TextRun) : Res unit :=
  match text options with
  | Some JNull => nullish_read "null" "space"
  | _ => Ok ()
  end.

(** A PDF library that draws [undefined] and [null] as the empty text
    and converts any other value to a string. *)
Definition PDFDocument_text (t : Value) (options : TextOptions) : Res unit :=
  match t with
  | None | Some JNull => Ok ()
  | Some v => _ ← JSON_toString (fun literal => literal) v; Ok ()
  end.

(** Extraction stand-ins read the upload as text; rendering stand-ins
    produce the signature of the format followed by one byte. *)
Definition node (resume letter mail : Res string) : Env :=
  {| Server.JSON_parse := JSON_parse;
     Server.toUpperCase := toUpperCase;
     Number_toString := fun literal => literal;
     Server.Number_toBoolean := Number_toBoolean;
     DEEPSEEK_API_KEY := Some "sk-0000";
     pdfParse := fun buffer => Ok (string_of_list_byte buffer);
     extractRawText := fun buffer => Ok (string_of_list_byte buffer);
     post := replies resume letter mail;
     Server.TextRun_new := TextRun_new;
     Packer_toBuffer := fun _ => Ok [x50; x4b; x03; x04; x14];
     Server.PDFDocument_text := PDFDocument_text;
     PDFDocument_output := fun _ => Ok [x25; x50; x44; x46; x2d] |}.

(** ** Requests *)

Definition docx_type : string :=
  "application/vnd.openxmlformats-officedocument.wordprocessingml.document".

Definition upload_path : string := "uploads/1730592000000-123456789.docx".

Definition upload_bytes : Buffer :=
  list_byte_of_string "Jane Doe, jane@x.com, 555-1234, Boston".

Definition uploads : gmap string Buffer := {[ upload_path := upload_bytes ]}.

Definition jane_upload : File := {| path := upload_path; mimetype := docx_type |}.

Definition request (jobDescription options : string) : Request :=
  {| body_jobDescription := Some jobDescription;
     body_options := Some options;
     file := Some jane_upload |}.

Definition options_text (cv coverLetter email format : string) : string :=
  q "{~cv~:" +:+ cv +:+ q ",~coverLetter~:" +:+ coverLetter +:+ q ",~email~:" +:+ email
  +:+ q ",~format~:~" +:+ format +:+ q "~}".

(** ** Replies of the model *)

(** A résumé in the JSON shape the prompt asks for. *)
Definition resume_text (summary : string) : string :=
  q "{~personalInfo~:{~fullName~:~Jane Doe~,~email~:~jane@x.com~,~phone~:~555-1234~,~location~:~Boston~,~linkedin~:~~},~summary~:~"
  +:+ summary
  +:+ q "~,~experience~:[{~title~:~Engineer~,~company~:~Acme~,~location~:~Boston~,~dates~:~2019-2024~,~achievements~:[~Built APIs~]}],~skills~:[~Go~,~SQL~],~education~:[{~degree~:~BSc~,~institution~:~MIT~,~dates~:~2015-2019~,~details~:~~}]}".

Definition resume_json : string := resume_text "Backend engineer.".

(** The résumé as models usually send it: inside a fenced block. *)
Definition fenced_resume : string := "```json" +:+ nl +:+ resume_json +:+ nl +:+ "```".

(** A résumé, not fenced, whose summary speaks of code fences. *)
Definition resume_about_fences : string :=
  resume_text "Documents APIs in Markdown, examples in ``` blocks.".

Definition letter_text : string := "Dear Hiring Manager, I am writing to apply.".
Definition mail_text : string := "Subject: Application for Senior Backend Engineer".

(** The value the reference parser gives for a text that is JSON. *)
Definition parsed (text : string) : JSON :=
  match JSON_parse text with
  | inr v => v
  | inl _ => JNull
  end.

(** ** Runs *)

Definition job : string := "Senior Backend Engineer".

(** Every collaborator answers. *)
Definition all_well : Env := node (Ok fenced_resume) (Ok letter_text) (Ok mail_text).

(** The model answers the résumé prompt with a refusal in prose. *)
Definition prose_answer : Env :=
  node (Ok "I am sorry, I cannot help with that.") (Ok letter_text) (Ok mail_text).

(** The model's résumé mentions code fences. *)
Definition fences_inside : Env :=
  node (Ok resume_about_fences) (Ok letter_text) (Ok mail_text).

(** The completion endpoint fails on the email prompt. *)
Definition email_down : Env :=
  node (Ok fenced_resume) (Ok letter_text)
    (Throw (Error "Request failed with status code 503")).

(** The model names the candidate with an object that has a [toString]
    of its own. *)
Definition unnameable_resume : string :=
  q "{~personalInfo~:{~fullName~:{~toString~:1}},~summary~:~Backend engineer.~}".

Definition unnameable : Env :=
  node (Ok unnameable_resume) (Ok letter_text) (Ok mail_text).

Definition cv_docx : string := options_text "true" "false" "false" "docx".
Definition cv_pdf : string := options_text "true" "false" "false" "pdf".
Definition letter_docx : string := options_text "false" "true" "false" "docx".
Definition nothing_docx : string := options_text "false" "false" "false" "docx".
Definition all_pdf : string := options_text "true" "true" "true" "pdf".

(** A request that carries no file. *)
Definition no_upload : Request :=
  {| body_jobDescription := Some job; body_options := Some all_pdf; file := None |}.

(** The form with everything ticked, a file chosen and a blank job
    description. *)
Definition blank_form : Client.Form :=
  {| Client.jobDescription_value := "   ";
     Client.cvFile_files :=
       [ {| Client.name := "jane.docx"; Client.type := docx_type;
            Client.content := upload_bytes |} ];
     Client.generateCV_checked := true;
     Client.generateCoverLetter_checked := true;
     Client.generateEmail_checked := true;
     Client.selectedFormat := "docx" |}.

End Scenario.

(* ===================================================================== *)
(** * Further notions *)
(* ===================================================================== *)

(** Notions used to state what the cleaning of the model's answer, the
    renderers and the scheduling of the tasks do. *)
Module Notions.
Import JS Base64 Server.

(** The text holds three backticks in a row somewhere. *)
Fixpoint has_fence (s : string) : bool :=
  match s with
  | "" => false
  | String _ rest => String.prefix "```" s || has_fence rest
  end.

(** The text holds a backtick. *)
Fixpoint has_backtick (s : string) : bool :=
  match s with
  | "" => false
  | String c rest => Ascii.eqb c "`" || has_backtick rest
  end.

(** The argument of the handler's second [JSON.parse]. *)
Definition cleaned (tailoredCVResponse : string) : string :=
  trim (replace_all fences tailoredCVResponse).

(** The texts of a DOCX document, run by run, and the texts a PDF
    document is asked to draw, call by call. *)
Definition docx_texts (paragraphs : list Paragraph) : list Value :=
  concat (List.map (fun p => List.map text (children p)) paragraphs).

Definition pdf_texts (calls : list PdfCall) : list Value :=
  omap (fun c => match c with Text t _ => Some t | _ => None end) calls.

(** ** Tasks run to their end *)

Section Verdicts.
Variable env : Env.

(** What an asynchronous body comes to when every operation it awaits is
    answered as [env] answers it: the value it returns or the exception it
    throws, and what it has done to [results] by then. *)
Fixpoint verdict {A} (c : Async A) : Res A :=
  match c with
  | Return a => Ok a
  | Raise e => Throw e
  | Assign _ k => verdict k
  | AwaitCompletion r k =>
      match post env r with
      | Ok content => verdict (k content)
      | Throw e => Throw e
      end
  | AwaitRender j k =>
      match render env j with
      | Ok buffer => verdict (k buffer)
      | Throw e => Throw e
      end
  end.

Fixpoint effect {A} (c : Async A) (r : Results) : Results :=
  match c with
  | Return _ | Raise _ => r
  | Assign f k => effect k (f r)
  | AwaitCompletion q k =>
      match post env q with
      | Ok content => effect (k content) r
      | Throw _ => r
      end
  | AwaitRender j k =>
      match render env j with
      | Ok buffer => effect (k buffer) r
      | Throw _ => r
      end
  end.

(** The same for a task that has been started. *)
Definition promise_verdict (p : Promise) : Res unit :=
  match p with
  | Settled r => r
  | OnCompletion r k =>
      match post env r with
      | Ok content => verdict (k content)
      | Throw e => Throw e
      end
  | OnRender j k =>
      match render env j with
      | Ok buffer => verdict (k buffer)
      | Throw e => Throw e
      end
  end.

(** Every task of the list comes to a good end. *)
Definition all_fulfil (tasks : list Task) : bool :=
  forallb (fun t : Task => is_ok (promise_verdict (snd t))) tasks.
End Verdicts.

(** ** The completions a request asks for *)

(** The requests posted to the completion endpoint, in order. *)
Definition sent (events : list Event) : list CompletionRequest :=
  omap (fun e => match e with Sent r => Some r | _ => None end) events.

(** An asynchronous body that asks for no completion, whatever its
    renderings return. *)
Inductive Silent : Async unit -> Prop :=
| Silent_return u : Silent (Return u)
| Silent_raise x : Silent (Raise x)
| Silent_assign f c : Silent c -> Silent (Assign f c)
| Silent_render j k : (forall buffer, Silent (k buffer)) -> Silent (AwaitRender j k).

(** A task that will ask for no completion from where it is. *)
Definition Promise_silent (p : Promise) : Prop :=
  match p with
  | Settled _ => True
  | OnCompletion _ k => forall content, Silent (k content)
  | OnRender _ k => forall buffer, Silent (k buffer)
  end.

(** The completion whose reply is the text of a kind: for the CV the
    résumé's, asked for before the tasks are started; for a cover letter
    and for an email the request whose prompt holds the candidate's name,
    if the name can be converted to a string. *)
Definition text_request (env : Env) (cvContent jobDescription : string)
    (candidateName : Value) (k : Kind) : Res CompletionRequest :=
  match k with
  | CV => Ok (tailoredCV_request env cvContent jobDescription)
  | CoverLetter =>
      name ← tpl env candidateName;
      Ok (coverLetter_request env cvContent jobDescription name)
  | Email =>
      name ← tpl env candidateName;
      Ok (email_request env jobDescription name)
  end.

(** The completions the tasks ask for when they are started: the cover
    letter's and the email's, if they are selected; none when the
    candidate's name cannot be converted to a string. *)
Definition task_completions (env : Env) (options : JSON) (cvContent jobDescription : string)
    (candidateName : Value) : list CompletionRequest :=
  match tpl env candidateName with
  | Ok name =>
      (if selects env options CoverLetter
       then [coverLetter_request env cvContent jobDescription name]
       else [])
      ++ (if selects env options Email
          then [email_request env jobDescription name]
          else [])
  | Throw _ => []
  end.

(** The completions of a request that is served: the résumé's first,
    then that of each selected text kind. *)
Definition completions (env : Env) (options : JSON) (cvContent jobDescription : string)
    (candidateName : Value) : Res (list CompletionRequest) :=
  letter ← (if selects env options CoverLetter
            then r ← text_request env cvContent jobDescription candidateName CoverLetter;
                 Ok [r]
            else Ok []);
  mail ← (if selects env options Email
          then r ← text_request env cvContent jobDescription candidateName Email; Ok [r]
          else Ok []);
  Ok (tailoredCV_request env cvContent jobDescription :: letter ++ mail).

(** What every request of the program to the completion endpoint has in
    common. *)
Definition well_addressed (env : Env) (r : CompletionRequest) : Prop :=
  url r = "https://api.deepseek.com/chat/completions"
  /\ model r = "deepseek-chat"
  /\ temperature r = 0.5%Q
  /\ authorization r
     = "Bearer " +:+ match DEEPSEEK_API_KEY env with Some key => key | None => "undefined" end
  /\ (max_tokens r = 4000 \/ max_tokens r = 2048 \/ max_tokens r = 1024)%Z.

(** ** The documents of a response *)

(** The document [cv_task] hands to a rendering library: a PDF when
    [options.format] is the string [pdf], a DOCX file for any other
    value. *)
Definition cv_document (env : Env) (format cvData : Value) : Res RenderJob :=
  if strict_eq_string format "pdf" then
    calls ← pdf_calls env cvData; Ok (Pdf {| pdf_margin := 40; calls := calls |})
  else
    children ← docx_children env cvData;
    Ok (Docx {| margin := {| top := 720; right := 720; bottom := 720; left := 720 |};
                paragraphs := children |}).

(** The document [generateTextPDF] hands to the PDF library. *)
Definition text_document (title body : string) : RenderJob :=
  Pdf {| pdf_margin := 50;
         calls := [ FontSize 18; Text (str title) centered; MoveDown 2;
                    FontSize 12;
                    Text (str body)
                      {| align := Some "left"; opt_bold := false; continued := false;
                         oblique := false; lineGap := Some 5%Q; indent := None |};
                    End_ ] |}.

(** The title under which the text of a kind is rendered. *)
Definition title_of (k : Kind) : string :=
  match k with
  | CV => ""
  | CoverLetter => "Cover Letter"
  | Email => "Application Email"
  end.

(** The task of a kind, as the handler starts it. *)
Definition task (env : Env) (options cvData : JSON) (candidateName : Value)
    (cvContent jobDescription tailoredCVResponse : string) (k : Kind) : Async unit :=
  match k with
  | CV => cv_task env (Some options) (Some cvData) candidateName tailoredCVResponse
  | CoverLetter => coverLetter_task env (Some options) candidateName cvContent jobDescription
  | Email => email_task env (Some options) candidateName cvContent jobDescription
  end.

(** The document of a kind that a request hands to a rendering library:
    for the CV the one built from the parsed résumé in the format asked
    for, for a cover letter and for an email the text the model sent in
    reply to the request of the kind, under the title of the kind. *)
Definition document (env : Env) (options cvData : JSON) (candidateName : Value)
    (cvContent jobDescription : string) (k : Kind) : Res RenderJob :=
  match k with
  | CV =>
      format ← get (Some options) "format";
      cv_document env format (Some cvData)
  | CoverLetter | Email =>
      request ← text_request env cvContent jobDescription candidateName k;
      text ← post env request;
      Ok (text_document (title_of k) text)
  end.

(** ** Steps that fail *)

(** A step of the task of a kind fails, as the collaborators of [env]
    answer: the completion of a cover letter or of an email is refused,
    the rendering library fails on the text of one, the document of the CV
    cannot be built, or the rendering library fails on it. *)
Inductive Task_fails (env : Env) (options cvData : JSON) (candidateName : Value)
    (cvContent jobDescription : string) : Kind -> Prop :=
| generation_fails k request x :
    k <> CV ->
    text_request env cvContent jobDescription candidateName k = Ok request ->
    post env request = Throw x ->
    Task_fails env options cvData candidateName cvContent jobDescription k
| text_render_fails k request text x :
    k <> CV ->
    text_request env cvContent jobDescription candidateName k = Ok request ->
    post env request = Ok text ->
    render env (text_document (title_of k) text) = Throw x ->
    Task_fails env options cvData candidateName cvContent jobDescription k
| cv_build_fails format x :
    get (Some options) "format" = Ok format ->
    cv_document env format (Some cvData) = Throw x ->
    Task_fails env options cvData candidateName cvContent jobDescription CV
| cv_render_fails format job x :
    get (Some options) "format" = Ok format ->
    cv_document env format (Some cvData) = Ok job ->
    render env job = Throw x ->
    Task_fails env options cvData candidateName cvContent jobDescription CV.

(** A step of the pipeline fails on a request, as the collaborators of
    [env] answer: the options or the model's résumé are no JSON, the
    stored upload cannot be read, the extraction library fails on it, the
    completion of the résumé is refused, or a step of the task of a
    selected kind fails. *)
Inductive Step_fails (env : Env) (req : Request) (uploads : gmap string Buffer) : Prop :=
| options_parse_fails msg :
    JSON_parse env (field_text (body_options req)) = inl msg ->
    Step_fails env req uploads
| read_fails cvFile :
    file req = Some cvFile ->
    uploads !! path cvFile = None ->
    Step_fails env req uploads
| extraction_fails cvFile buffer x :
    file req = Some cvFile ->
    uploads !! path cvFile = Some buffer ->
    extraction env (mimetype cvFile) buffer = Throw x ->
    Step_fails env req uploads
| resume_generation_fails cvFile buffer cvContent x :
    file req = Some cvFile ->
    uploads !! path cvFile = Some buffer ->
    extraction env (mimetype cvFile) buffer = Ok cvContent ->
    post env (tailoredCV_request env cvContent (field_text (body_jobDescription req)))
    = Throw x ->
    Step_fails env req uploads
| resume_parse_fails options cvFile cvContent raw msg :
    Answered env req uploads options cvFile cvContent raw ->
    JSON_parse env (cleaned raw) = inl msg ->
    Step_fails env req uploads
| task_fails options cvFile cvContent raw cvData candidateName k :
    Answered env req uploads options cvFile cvContent raw ->
    JSON_parse env (cleaned raw) = inr cvData ->
    candidate_name cvData = Ok candidateName ->
    selects env options k = true ->
    Task_fails env options cvData candidateName cvContent
      (field_text (body_jobDescription req)) k ->
    Step_fails env req uploads.

End Notions.

(** The résumé in the shape the prompt of [generateTailoredCV] asks the
    model for, and the JSON value that [JSON.parse] makes of it. *)
Module Resume.
Import JS.

Record PersonalInfo : Type := {
  fullName : string;
  email : string;
  phone : string;
  location : string;
  linkedin : string
}.

Record Job : Type := {
  title : string;
  company : string;
  job_location : string;
  job_dates : string;
  achievements : list string
}.

Record Education : Type := {
  degree : string;
  institution : string;
  edu_dates : string;
  details : string
}.

Record ResumeData : Type := {
  personalInfo : PersonalInfo;
  summary : string;
  experience : list Job;
  skills : list string;
  education : list Education
}.

Definition of_PersonalInfo (p : PersonalInfo) : JSON :=
  JObj [ ("fullName", JStr (fullName p)); ("email", JStr (email p));
         ("phone", JStr (phone p)); ("location", JStr (location p));
         ("linkedin", JStr (linkedin p)) ].

Definition of_Job (j : Job) : JSON :=
  JObj [ ("title", JStr (title j)); ("company", JStr (company j));
         ("location", JStr (job_location j)); ("dates", JStr (job_dates j));
         ("achievements", JArr (List.map JStr (achievements j))) ].

Definition of_Education (e : Education) : JSON :=
  JObj [ ("degree", JStr (degree e)); ("institution", JStr (institution e));
         ("dates", JStr (edu_dates e)); ("details", JStr (details e)) ].

Definition of_ResumeData (r : ResumeData) : JSON :=
  JObj [ ("personalInfo", of_PersonalInfo (personalInfo r));
         ("summary", JStr (summary r));
         ("experience", JArr (List.map of_Job (experience r)));
         ("skills", JArr (List.map JStr (skills r)));
         ("education", JArr (List.map of_Education (education r))) ].

(** The number of achievements over all the jobs. *)
Definition achievement_count (r : ResumeData) : nat :=
  list_sum (List.map (fun j => length (achievements j)) (experience r)).

End Resume.

(** Further collaborators and requests to run the model on. *)
Module Cases.
Import JS Base64 Server Scenario.

(** The completion endpoint fails on the cover-letter prompt and on the
    email prompt, each time in its own way. *)
Definition both_down : Env :=
  node (Ok fenced_resume)
    (Throw (Error "Request failed with status code 429"))
    (Throw (Error "Request failed with status code 503")).

Definition letters_pdf : string := options_text "false" "true" "true" "pdf".

(** The upload directory while another request is being served. *)
Definition other_path : string := "uploads/1730592000417-987654321.pdf".

Definition two_uploads : gmap string Buffer :=
  <[ other_path := [x25; x50; x44; x46] ]> uploads.

End Cases.

(* ===================================================================== *)
(** * More of the browser script *)
(* ===================================================================== *)

(** The drop zone, the download buttons and the text of [options] that the
    submit handler sends. *)
Module Page.
Import JS Base64 Client.

(** [s.endsWith(suffix)] *)
Definition endsWith (s suffix : string) : bool :=
  String.prefix (string_rev suffix) (string_rev s).

(** The test of the [drop] handler on the first dropped file: it is taken
    into the file input when the test holds, refused with a message
    otherwise. *)
Definition drop_accepts (file : BrowserFile) : bool :=
  String.eqb (type file) "application/pdf" || endsWith (name file) ".docx".

Inductive Drop : Type :=
| Taken (file : BrowserFile)
| Refused (message : string)
| Ignored.

Definition drop (files : list BrowserFile) : Drop :=
  match files with
  | [] => Ignored
  | file :: _ =>
      if drop_accepts file then Taken file
      else Refused "Please upload a PDF or DOCX file."
  end.

(** The content type under which a file of a [FormData] travels: its
    [type], or [application/octet-stream] when the browser knows none.
    The upload middleware hands it to [fileFilter] as [file.mimetype]. *)
Definition mimetype_sent (file : BrowserFile) : string :=
  if String.eqb (type file) "" then "application/octet-stream" else type file.

(** ** The download buttons *)

(** The variables [results] and [selectedFormat] of the script.  [results]
    is the body of the last 200 response, if any; its documents are read
    as the server wrote them. *)
Record Script : Type := {
  results : option Server.Results;
  selectedFormat : string
}.

(** The click handler of the download button of a kind. *)
Definition download (k : Server.Kind) (script : Script) : list Effect :=
  match results script with
  | Some r =>
      match Server.entry k r with
      | Some e =>
          downloadFile (Server.fileData e) (Server.fileName e) (selectedFormat script)
      | None => []
      end
  | None => []
  end.

(** The type [downloadFile] gives the blob. *)
Definition mimeType (format : string) : string :=
  if String.eqb format "pdf" then "application/pdf"
  else "application/vnd.openxmlformats-officedocument.wordprocessingml.document".

(** ** [JSON.stringify(options)] *)

(** A hexadecimal digit, in lower case. *)
Definition hex_digit (n : N) : ascii :=
  if (n <? 10)%N then ascii_of_N (48 + n) else ascii_of_N (87 + n).

(** [QuoteJSONString], character by character: the quote and the reverse
    solidus are escaped, the control characters are written with their
    short escapes or as [\u00xx], everything else stands for itself. *)
Definition quote_char (c : ascii) : list ascii :=
  let n := N_of_ascii c in
  if Ascii.eqb c "034" then ["\"; "034"]%char
  else if Ascii.eqb c "\" then ["\"; "\"]%char
  else if Ascii.eqb c "008" then ["\"; "b"]%char
  else if Ascii.eqb c "012" then ["\"; "f"]%char
  else if Ascii.eqb c "010" then ["\"; "n"]%char
  else if Ascii.eqb c "013" then ["\"; "r"]%char
  else if Ascii.eqb c "009" then ["\"; "t"]%char
  else if (n <? 32)%N then
    ["\"; "u"; "0"; "0"; hex_digit (n / 16); hex_digit (n mod 16)]%char
  else [c].

Definition quote_chars (s : list ascii) : list ascii := flat_map quote_char s.

Definition JSON_quote (s : string) : list ascii :=
  "034"%char :: quote_chars (list_ascii_of_string s) ++ ["034"%char].

Definition JSON_boolean (b : bool) : list ascii :=
  list_ascii_of_string (if b then "true" else "false").

(** [JSON.stringify] of the object the submit handler builds: the
    properties in the order of their creation, no white space. *)
Definition JSON_stringify (options : Options) : string :=
  string_of_list_ascii
    (list_ascii_of_string (q "{~cv~:") ++ JSON_boolean (cv options)
     ++ list_ascii_of_string (q ",~coverLetter~:") ++ JSON_boolean (coverLetter options)
     ++ list_ascii_of_string (q ",~email~:") ++ JSON_boolean (email options)
     ++ list_ascii_of_string (q ",~format~:") ++ JSON_quote (format options)
     ++ ["}"%char]).

(** The check box of a kind. *)
Definition checked (options : Options) (k : Server.Kind) : bool :=
  match k with
  | Server.CV => cv options
  | Server.CoverLetter => coverLetter options
  | Server.Email => email options
  end.

End Page.

(* ===================================================================== *)
(** * The storage of the uploads *)
(* ===================================================================== *)

(** The [filename] function given to [multer.diskStorage], with the two
    built-ins it relies on: the conversion of a number to a string and
    [path.extname]. *)
Module Storage.
Import JS.

(** [String(n)] for a number that is a natural number below 10^21, as
    [Date.now()] and [Math.round(Math.random() * 1e9)] are: its decimal
    digits. *)
Definition Number_toString (n : N) : string :=
  NilEmpty.string_of_uint (N.to_uint n).

(** ** [path.extname] of Node.js, POSIX flavour *)

(** The variables of its loop; [-1] is [None]. *)
Record Scan : Type := {
  startDot : option nat;
  startPart : nat;
  end_ : option nat;
  matchedSlash : bool;
  preDotState : Z
}.

Definition initial : Scan :=
  {| startDot := None; startPart := 0; end_ := None; matchedSlash := true;
     preDotState := 0 |}.

(** The loop [for (let i = path.length - 1; i >= 0; --i)], run on the
    characters not yet seen, last first: the character at the head is
    [path[i]], and [i] is the number of characters before it. *)
Fixpoint scan (unseen : list ascii) (st : Scan) : Scan :=
  match unseen with
  | [] => st
  | code :: before =>
      let i := length before in
      if Ascii.eqb code "/" then
        if negb (matchedSlash st) then
          (* a separator that is not at the end: stop *)
          {| startDot := startDot st; startPart := i + 1; end_ := end_ st;
             matchedSlash := matchedSlash st; preDotState := preDotState st |}
        else scan before st
      else
        let st :=
          match end_ st with
          | None =>
              (* the first character that is no separator ends the extension *)
              {| startDot := startDot st; startPart := startPart st; end_ := Some (i + 1);
                 matchedSlash := false; preDotState := preDotState st |}
          | Some _ => st
          end in
        let st :=
          if Ascii.eqb code "." then
            match startDot st with
            | None =>
                {| startDot := Some i; startPart := startPart st; end_ := end_ st;
                   matchedSlash := matchedSlash st; preDotState := preDotState st |}
            | Some _ =>
                if negb (preDotState st =? 1)%Z then
                  {| startDot := startDot st; startPart := startPart st; end_ := end_ st;
                     matchedSlash := matchedSlash st; preDotState := 1 |}
                else st
            end
          else
            match startDot st with
            | Some _ =>
                {| startDot := startDot st; startPart := startPart st; end_ := end_ st;
                   matchedSlash := matchedSlash st; preDotState := -1 |}
            | None => st
            end in
        scan before st
  end.

(** [path.slice(from, to)] for [from <= to] within the text *)
Definition slice (from to : nat) (path : list ascii) : list ascii :=
  take (to - from) (drop from path).

Definition extname (path : string) : string :=
  let chars := list_ascii_of_string path in
  let st := scan (rev chars) initial in
  match startDot st, end_ st with
  | Some dot, Some e =>
      if (preDotState st =? 0)%Z
         || ((preDotState st =? 1)%Z && (dot =? e - 1)%nat && (dot =? startPart st + 1)%nat)
      then ""
      else string_of_list_ascii (slice dot e chars)
  | _, _ => ""
  end.

(** ** The name of the stored file *)

(** [filename(req, file, cb)]: [now] is what [Date.now()] returns and
    [random] what [Math.round(Math.random() * 1e9)] comes to. *)
Definition filename (now random : N) (originalname : string) : string :=
  let uniqueSuffix := Number_toString now +:+ "-" +:+ Number_toString random in
  uniqueSuffix +:+ extname originalname.

(** ** Notions used to state what the scan finds *)

(** The scan has seen [suf], the end of the path, and has [pre] before
    it.  If it has met a character that is no separator, [end_] is where
    the run [mid] of such characters that it has seen so far ends, and
    [startDot], if set, is the place of a dot of that run. *)
Definition scanned (st : Scan) (pre suf : list ascii) : Prop :=
  match end_ st with
  | None => startDot st = None /\ matchedSlash st = true
  | Some e =>
      matchedSlash st = false
      /\ exists mid rest,
           suf = mid ++ rest
           /\ e = length pre + length mid
           /\ Forall (fun c => c <> "/"%char) mid
           /\ match startDot st with
              | None => True
              | Some dot =>
                  exists m1 m2, mid = m1 ++ "."%char :: m2 /\ dot = length pre + length m1
              end
  end.

(** What [startDot] and [end_] delimit at the end of the scan: a dot and
    a run of characters without a separator. *)
Definition found (st : Scan) (path : list ascii) : Prop :=
  match startDot st, end_ st with
  | Some dot, Some e =>
      exists a m b,
        path = a ++ "."%char :: m ++ b
        /\ dot = length a /\ e = length a + 1 + length m
        /\ Forall (fun c => c <> "/"%char) m
  | _, _ => True
  end.

(** A decimal digit. *)
Definition is_digit (c : ascii) : bool :=
  let n := N_of_ascii c in (48 <=? n)%N && (n <=? 57)%N.

(** The text is empty or begins with a character that is no digit. *)
Definition no_digit_ahead (s : list ascii) : Prop :=
  match s with
  | [] => True
  | c :: _ => is_digit c = false
  end.

End Storage.

(* ===================================================================== *)
(** * Properties of the base64 transport *)
(* ===================================================================== *)

Section Base64_roundtrip.
Import JS Base64 Client.
Local Open Scope N_scope.

Lemma div_pack (k r x : N) : k <> 0 -> x < k -> (r * k + x) / k = r.
Proof.
  intros Hk Hx. rewrite N.div_add_l by exact Hk.
  rewrite (N.div_small x k) by exact Hx. apply N.add_0_r.
Qed.

Lemma mod_pack (k r x : N) : k <> 0 -> x < k -> (r * k + x) mod k = x.
Proof.
  intros Hk Hx. rewrite N.add_comm, N.Div0.mod_add. apply N.mod_small, Hx.
Qed.

Lemma div_mod_join (k x : N) : k <> 0 -> x / k * k + x mod k = x.
Proof.
  intros Hk. rewrite (N.mul_comm (x / k) k). symmetry. apply N.div_mod, Hk.
Qed.

Lemma octet_bound (a : byte) : Byte.to_N a < 256.
Proof. pose proof (Byte.to_N_bounded a). lia. Qed.

(** Three octets survive the passage through four sextets. *)
Lemma group_roundtrip (x y z : N) :
  x < 256 -> y < 256 -> z < 256 ->
  x / 4 * 4 + (x mod 4 * 16 + y / 16) / 16 = x
  /\ (x mod 4 * 16 + y / 16) mod 16 * 16 + (y mod 16 * 4 + z / 64) / 4 = y
  /\ (y mod 16 * 4 + z / 64) mod 4 * 64 + z mod 64 = z.
Proof.
  intros Hx Hy Hz.
  assert (Hy16 : y / 16 < 16) by (apply N.Div0.div_lt_upper_bound; lia).
  assert (Hz64 : z / 64 < 4) by (apply N.Div0.div_lt_upper_bound; lia).
  rewrite !div_pack, !mod_pack by (assumption || discriminate).
  repeat split; apply div_mod_join; discriminate.
Qed.

(** Every sextet of a buffer is below 64. *)
Lemma sextet_bounds (x y z : N) :
  x < 256 -> y < 256 -> z < 256 ->
  x / 4 < 64 /\ x mod 4 * 16 + y / 16 < 64 /\ y mod 16 * 4 + z / 64 < 64 /\ z mod 64 < 64.
Proof.
  intros Hx Hy Hz.
  assert (x / 4 < 64) by (apply N.Div0.div_lt_upper_bound; lia).
  assert (y / 16 < 16) by (apply N.Div0.div_lt_upper_bound; lia).
  assert (z / 64 < 4) by (apply N.Div0.div_lt_upper_bound; lia).
  assert (x mod 4 < 4) by (apply N.mod_lt; discriminate).
  assert (y mod 16 < 16) by (apply N.mod_lt; discriminate).
  assert (z mod 64 < 64) by (apply N.mod_lt; discriminate).
  generalize dependent (x / 4). generalize dependent (y / 16).
  generalize dependent (z / 64). generalize dependent (x mod 4).
  generalize dependent (y mod 16). generalize dependent (z mod 64).
  intros. lia.
Qed.

(** Induction over a list three elements at a time. *)
Lemma list_ind3 {A} (P : list A -> Prop) :
  P [] -> (forall a, P [a]) -> (forall a b, P [a; b]) ->
  (forall a b c l, P l -> P (a :: b :: c :: l)) ->
  forall l, P l.
Proof.
  intros H0 H1 H2 H3. fix IH 1.
  intros [|a [|b [|c l]]]; [exact H0 | apply H1 | apply H2 | apply H3, IH].
Qed.

Lemma octets_sextets (buffer : Buffer) :
  octets (sextets buffer) = List.map Byte.to_N buffer.
Proof.
  induction buffer as [|a|a b|a b c rest IH] using list_ind3; simpl.
  - reflexivity.
  - pose proof (octet_bound a).
    rewrite N.div_mul by discriminate. rewrite div_mod_join by discriminate.
    reflexivity.
  - pose proof (octet_bound a). pose proof (octet_bound b).
    destruct (group_roundtrip (Byte.to_N a) (Byte.to_N b) 0) as (E1 & _ & _);
      [assumption | assumption | reflexivity |].
    rewrite E1.
    assert (Hb : Byte.to_N b / 16 < 16) by (apply N.Div0.div_lt_upper_bound; lia).
    rewrite mod_pack by (assumption || discriminate).
    rewrite N.div_mul by discriminate. rewrite div_mod_join by discriminate.
    reflexivity.
  - destruct (group_roundtrip (Byte.to_N a) (Byte.to_N b) (Byte.to_N c))
      as (E1 & E2 & E3); try apply octet_bound.
    rewrite E1, E2, E3, IH. reflexivity.
Qed.

Lemma sextets_below_64 (buffer : Buffer) :
  Forall (fun s => s < 64) (sextets buffer).
Proof.
  induction buffer as [|a|a b|a b c rest IH] using list_ind3; simpl.
  - constructor.
  - destruct (sextet_bounds (Byte.to_N a) 0 0) as (B1 & B2 & _);
      try apply octet_bound; try reflexivity.
    rewrite N.add_0_r in B2. repeat constructor; assumption.
  - destruct (sextet_bounds (Byte.to_N a) (Byte.to_N b) 0) as (B1 & B2 & B3 & _);
      try apply octet_bound; try reflexivity.
    rewrite N.add_0_r in B3. repeat constructor; assumption.
  - destruct (sextet_bounds (Byte.to_N a) (Byte.to_N b) (Byte.to_N c))
      as (B1 & B2 & B3 & B4); try apply octet_bound.
    repeat constructor; assumption.
Qed.

Lemma digits_ok (n : N) : n < 64 -> digit_ok n = true.
Proof.
  intros Hn.
  assert (Hall : forallb digit_ok (List.map N.of_nat (seq 0 64)) = true)
    by (vm_compute; reflexivity).
  rewrite forallb_forall in Hall. apply Hall.
  apply in_map_iff. exists (N.to_nat n). split; [apply N2Nat.id |].
  apply in_seq. lia.
Qed.

Lemma sextet_digit (n : N) : n < 64 -> sextet (digit n) = Some n.
Proof.
  intros Hn. pose proof (digits_ok n Hn) as H. unfold digit_ok in H.
  destruct (sextet (digit n)) as [m|]; simpl in H; [|discriminate].
  apply andb_prop in H as [H _]. apply andb_prop in H as [H _].
  apply N.eqb_eq in H. congruence.
Qed.

Lemma digit_not_whitespace (n : N) : n < 64 -> is_ascii_whitespace (digit n) = false.
Proof.
  intros Hn. pose proof (digits_ok n Hn) as H. unfold digit_ok in H.
  apply andb_prop in H as [H _]. apply andb_prop in H as [_ H].
  apply negb_true_iff in H. exact H.
Qed.

Lemma digit_not_padding (n : N) : n < 64 -> Ascii.eqb (digit n) "=" = false.
Proof.
  intros Hn. pose proof (digits_ok n Hn) as H. unfold digit_ok in H.
  apply andb_prop in H as [_ H]. apply negb_true_iff in H. exact H.
Qed.

(** The shape of an encoding: a multiple of four characters, of which the
    last none, one or two are padding. *)
Lemma encoding_shape (buffer : Buffer) :
  exists n : nat,
    (length (sextets buffer) = 4 * n /\ padding buffer = [])%nat
    \/ (length (sextets buffer) = 4 * n + 2 /\ padding buffer = ["="; "="]%char)%nat
    \/ (length (sextets buffer) = 4 * n + 3 /\ padding buffer = ["="%char])%nat.
Proof.
  induction buffer as [|a|a b|a b c rest IH] using list_ind3; simpl.
  - exists 0%nat. left. split; reflexivity.
  - exists 0%nat. right. left. split; reflexivity.
  - exists 0%nat. right. right. split; reflexivity.
  - destruct IH as [n [[E P]|[[E P]|[E P]]]]; exists (S n); rewrite E, P.
    + left. split; [lia | reflexivity].
    + right. left. split; [lia | reflexivity].
    + right. right. split; [lia | reflexivity].
Qed.

Lemma multiple_of_4 (n : nat) : N.of_nat (4 * n) mod 4 = 0.
Proof.
  rewrite Nat2N.inj_mul, N.mul_comm. apply N.Div0.mod_mul.
Qed.

Lemma not_1_mod_4 (n r : nat) :
  (r = 0 \/ r = 2 \/ r = 3)%nat -> (N.of_nat (4 * n + r) mod 4 =? 1) = false.
Proof.
  intros Hr. rewrite Nat2N.inj_add, Nat2N.inj_mul, N.add_comm, N.mul_comm.
  rewrite N.Div0.mod_add. destruct Hr as [->|[->| ->]]; reflexivity.
Qed.

(** A text that ends with a digit has no padding to remove. *)
Lemma rev_digits (l : list N) :
  Forall (fun s => s < 64) l ->
  match rev (List.map digit l) with
  | c :: _ => Ascii.eqb c "=" = false
  | [] => True
  end.
Proof.
  intros Hl. rewrite <- map_rev.
  apply Forall_rev in Hl. destruct Hl as [|s r Hs _]; simpl; [exact I |].
  apply digit_not_padding, Hs.
Qed.

Lemma remove_padding_encoding (buffer : Buffer) :
  remove_padding (List.map digit (sextets buffer) ++ padding buffer)
  = List.map digit (sextets buffer).
Proof.
  pose proof (rev_digits _ (sextets_below_64 buffer)) as Hlast.
  unfold remove_padding.
  destruct (encoding_shape buffer) as [n [[E P]|[[E P]|[E P]]]]; rewrite P.
  - rewrite app_nil_r, length_map, E, multiple_of_4. simpl.
    destruct (rev (List.map digit (sextets buffer))) as [|c r]; [reflexivity |].
    rewrite Hlast. reflexivity.
  - rewrite length_app, length_map, E. simpl length.
    replace (4 * n + 2 + 2)%nat with (4 * (S n))%nat by lia.
    rewrite multiple_of_4. simpl. rewrite rev_app_distr. simpl.
    apply rev_involutive.
  - rewrite length_app, length_map, E. simpl length.
    replace (4 * n + 3 + 1)%nat with (4 * (S n))%nat by lia.
    rewrite multiple_of_4. simpl. rewrite rev_app_distr. simpl.
    destruct (rev (List.map digit (sextets buffer))) as [|c r] eqn:Er.
    + rewrite <- (rev_involutive (List.map digit (sextets buffer))), Er. reflexivity.
    + rewrite Hlast. rewrite <- Er. apply rev_involutive.
Qed.

Lemma filter_all {A} (P : A -> Prop) `{forall x, Decision (P x)} (l : list A) :
  Forall P l -> filter P l = l.
Proof.
  induction 1 as [|x l Hx _ IH]; [reflexivity |].
  rewrite filter_cons_True by exact Hx. rewrite IH. reflexivity.
Qed.

Lemma encoding_has_no_whitespace (buffer : Buffer) :
  Forall (fun c => is_ascii_whitespace c = false)
    (List.map digit (sextets buffer) ++ padding buffer).
Proof.
  apply Forall_app. split.
  - apply Forall_map. eapply Forall_impl; [apply sextets_below_64 |].
    intros s Hs. apply digit_not_whitespace, Hs.
  - destruct (encoding_shape buffer) as [n [[_ P]|[[_ P]|[_ P]]]]; rewrite P;
      repeat constructor.
Qed.

(** [atob] gives back the octets that [toString("base64")] encoded. *)
Lemma atob_toString_base64 (buffer : Buffer) :
  atob (toString_base64 buffer) = Ok (List.map Byte.to_N buffer).
Proof.
  unfold atob, toString_base64.
  rewrite list_ascii_of_string_of_list_ascii.
  rewrite filter_all by apply encoding_has_no_whitespace.
  rewrite remove_padding_encoding, length_map.
  assert (Hlen : (N.of_nat (length (sextets buffer)) mod 4 =? 1) = false).
  { destruct (encoding_shape buffer) as [n [[E _]|[[E _]|[E _]]]]; rewrite E.
    - replace (4 * n)%nat with (4 * n + 0)%nat by lia. apply not_1_mod_4. auto.
    - apply not_1_mod_4. auto.
    - apply not_1_mod_4. auto. }
  rewrite Hlen.
  change (List.map digit (sextets buffer)) with (digit <$> sextets buffer).
  rewrite mapM_fmap_Forall_Some.
  - rewrite octets_sextets. reflexivity.
  - eapply Forall_impl; [apply sextets_below_64 |].
    intros s Hs. apply sextet_digit, Hs.
Qed.

Lemma ToUint8_to_N (a : byte) : ToUint8 (Byte.to_N a) = a.
Proof.
  unfold ToUint8. rewrite N.mod_small by apply octet_bound.
  rewrite Byte.of_to_N. reflexivity.
Qed.

(** The loop of [downloadFile] copies the code units one by one. *)
Lemma fill_copies (binaryString : list N) :
  forall (remaining i : nat) (bytes : list byte),
    length bytes = length binaryString ->
    (i + remaining = length binaryString)%nat ->
    fill remaining i binaryString bytes
    = take i bytes ++ List.map ToUint8 (drop i binaryString).
Proof.
  induction remaining as [|n IH]; intros i bytes Hlen Hi; simpl.
  - rewrite Nat.add_0_r in Hi. rewrite drop_ge by lia. rewrite take_ge by lia.
    simpl. rewrite app_nil_r. reflexivity.
  - rewrite IH by (rewrite ?length_insert; lia).
    assert (Hlt : (i < length binaryString)%nat) by lia.
    destruct (lookup_lt_is_Some_2 binaryString i Hlt) as [c Hc].
    rewrite (take_S_r _ _ (ToUint8 (charCodeAt binaryString i)))
      by (apply list_lookup_insert_eq; lia).
    rewrite take_insert_ge by lia.
    rewrite (drop_S _ _ _ Hc). unfold charCodeAt. rewrite Hc. simpl.
    rewrite <- app_assoc. reflexivity.
Qed.

Lemma base64_to_bytes_toString (buffer : Buffer) :
  base64_to_bytes (toString_base64 buffer) = Ok buffer.
Proof.
  unfold base64_to_bytes. rewrite atob_toString_base64. simpl.
  rewrite fill_copies by (rewrite ?length_replicate; reflexivity || lia).
  simpl. rewrite drop_0, map_map.
  f_equal. rewrite <- (map_id buffer) at 2. apply map_ext. apply ToUint8_to_N.
Qed.
End Base64_roundtrip.

(* ===================================================================== *)
(** * Facts about the run of a request *)
(* ===================================================================== *)

Section Run.
Import JS Base64 Server.
Variable env : Env.

Lemma grows_refl (st : State) : grows st st [].
Proof.
  unfold grows. rewrite app_nil_r. repeat split. constructor.
Qed.

Lemma grows_trans (st1 st2 st3 : State) (t1 t2 : list Event) :
  grows st1 st2 t1 -> grows st2 st3 t2 -> grows st1 st3 (t1 ++ t2).
Proof.
  intros (F1 & T1 & U1) (F2 & T2 & U2). repeat split.
  - congruence.
  - rewrite T2, T1, app_assoc. reflexivity.
  - apply Forall_app. split; assumption.
Qed.

Lemma grows_log (st : State) (e : Event) :
  is_removal e = false -> grows st (log e st) [e].
Proof. intros He. repeat split. repeat constructor. exact He. Qed.

Lemma grows_update (st : State) (f : Results -> Results) :
  grows st (update_results f st) [].
Proof. unfold grows. simpl. rewrite app_nil_r. repeat split. constructor. Qed.

Lemma quiet_app (t1 t2 : list Event) : quiet t1 -> quiet t2 -> quiet (t1 ++ t2).
Proof. intros H1 H2. apply Forall_app. split; assumption. Qed.

(** An awaited function adds events, touches no file, and reports every
    failure it meets by throwing. *)
Lemma await_grows {A} (c : Async A) :
  forall st, exists tail,
    grows st (await env c st).2 tail
    /\ (is_ok (await env c st).1 = true -> quiet tail).
Proof.
  induction c as [a|e|f k IH|r k IH|j k IH]; intros st; simpl.
  - exists []. split; [apply grows_refl | constructor].
  - exists []. split; [apply grows_refl | constructor].
  - destruct (IH (update_results f st)) as (tail & G & Q).
    exists tail. split; [|exact Q].
    replace tail with ([] ++ tail) by reflexivity.
    eapply grows_trans; [apply grows_update | exact G].
  - destruct (post env r) as [content|e].
    + destruct (IH content (log (Replied r true) (log (Sent r) st))) as (tail & G & Q).
      exists ([Sent r] ++ [Replied r true] ++ tail). split.
      * eapply grows_trans; [apply grows_log; reflexivity |].
        eapply grows_trans; [apply grows_log; reflexivity | exact G].
      * intros H. repeat constructor. apply Q, H.
    + exists ([Sent r] ++ [Replied r false]). split; [|discriminate].
      eapply grows_trans; apply grows_log; reflexivity.
  - destruct (render env j) as [buffer|e].
    + destruct (IH buffer (log (Rendered j true) (log (RenderStarted j) st))) as (tail & G & Q).
      exists ([RenderStarted j] ++ [Rendered j true] ++ tail). split.
      * eapply grows_trans; [apply grows_log; reflexivity |].
        eapply grows_trans; [apply grows_log; reflexivity | exact G].
      * intros H. repeat constructor. apply Q, H.
    + exists ([RenderStarted j] ++ [Rendered j false]). split; [|discriminate].
      eapply grows_trans; apply grows_log; reflexivity.
Qed.

(** Starting a task reports no failure. *)
Lemma start_grows (c : Async unit) :
  forall st, exists tail, grows st (start c st).2 tail /\ quiet tail.
Proof.
  induction c as [a|e|f k IH|r k IH|j k IH]; intros st; simpl.
  - exists []. split; [apply grows_refl | constructor].
  - exists []. split; [apply grows_refl | constructor].
  - destruct (IH (update_results f st)) as (tail & G & Q).
    exists tail. split; [|exact Q].
    replace tail with ([] ++ tail) by reflexivity.
    eapply grows_trans; [apply grows_update | exact G].
  - exists [Sent r]. split; [apply grows_log; reflexivity | repeat constructor].
  - exists [RenderStarted j]. split; [apply grows_log; reflexivity | repeat constructor].
Qed.

(** A failure met when a task is resumed rejects the task. *)
Lemma resume_grows (p : Promise) (st : State) :
  exists tail,
    grows st (resume env p st).2 tail
    /\ (quiet tail \/ exists e, (resume env p st).1 = Settled (Throw e)).
Proof.
  destruct p as [r|r k|j k]; simpl.
  - exists []. split; [apply grows_refl | left; constructor].
  - destruct (post env r) as [content|e].
    + destruct (start_grows (k content) (log (Replied r true) st)) as (tail & G & Q).
      exists ([Replied r true] ++ tail). split.
      * eapply grows_trans; [apply grows_log; reflexivity | exact G].
      * left. constructor; [reflexivity | exact Q].
    + exists [Replied r false]. split; [apply grows_log; reflexivity |].
      right. exists e. reflexivity.
  - destruct (render env j) as [buffer|e].
    + destruct (start_grows (k buffer) (log (Rendered j true) st)) as (tail & G & Q).
      exists ([Rendered j true] ++ tail). split.
      * eapply grows_trans; [apply grows_log; reflexivity | exact G].
      * left. constructor; [reflexivity | exact Q].
    + exists [Rendered j false]. split; [apply grows_log; reflexivity |].
      right. exists e. reflexivity.
Qed.

Lemma finish_grows (p : Promise) (st : State) :
  exists tail,
    grows st (finish env p st).2 tail
    /\ (is_ok (finish env p st).1 = true -> quiet tail).
Proof.
  destruct p as [r|r k|j k]; simpl.
  - exists []. split; [apply grows_refl | constructor].
  - destruct (post env r) as [content|e].
    + destruct (await_grows (k content) (log (Replied r true) st)) as (tail & G & Q).
      exists ([Replied r true] ++ tail). split.
      * eapply grows_trans; [apply grows_log; reflexivity | exact G].
      * intros H. constructor; [reflexivity | apply Q, H].
    + exists [Replied r false]. split; [apply grows_log; reflexivity | discriminate].
  - destruct (render env j) as [buffer|e].
    + destruct (await_grows (k buffer) (log (Rendered j true) st)) as (tail & G & Q).
      exists ([Rendered j true] ++ tail). split.
      * eapply grows_trans; [apply grows_log; reflexivity | exact G].
      * intros H. constructor; [reflexivity | apply Q, H].
    + exists [Rendered j false]. split; [apply grows_log; reflexivity | discriminate].
Qed.

Lemma first_rejection_cons (k : Kind) (p : Promise) (rest : list Task) :
  first_rejection ((k, p) :: rest)
  = match p with
    | Settled (Throw e) => Some e
    | _ => first_rejection rest
    end.
Proof. destruct p as [[u|e]|r c|j c]; reflexivity. Qed.

Lemma step_grows (k : Kind) (tasks : list Task) :
  forall st, exists tail,
    grows st (step env k tasks st).2 tail
    /\ (first_rejection tasks = None ->
        first_rejection (step env k tasks st).1 = None -> quiet tail).
Proof.
  induction tasks as [|[k' p] rest IH]; intros st; simpl.
  - exists []. split; [apply grows_refl | constructor].
  - destruct (decide (k = k')) as [->|Hne].
    + destruct (resume_grows p st) as (tail & G & Q).
      destruct (resume env p st) as [p' st'] eqn:E. simpl in *.
      exists tail. split; [exact G |].
      intros _ Hnone. destruct Q as [Q|[e ->]]; [exact Q |].
      simpl in Hnone. discriminate.
    + destruct (IH st) as (tail & G & Q).
      destruct (step env k rest st) as [rest' st'] eqn:E. simpl in *.
      exists tail. split; [exact G |].
      destruct p as [[u|e]|r c|j c]; try discriminate; exact Q.
Qed.

Lemma drain_grows (tasks : list Task) :
  forall st, exists tail,
    grows st (drain env tasks st).2 tail
    /\ (is_ok (drain env tasks st).1 = true -> quiet tail).
Proof.
  induction tasks as [|[k p] rest IH]; intros st.
  - exists []. split; [apply grows_refl | constructor].
  - simpl. unfold mbind, M_bind.
    destruct (finish_grows p st) as (t1 & G1 & Q1).
    destruct (finish env p st) as [[u|e] st1]; simpl in *.
    + destruct (IH st1) as (t2 & G2 & Q2).
      exists (t1 ++ t2). split; [eapply grows_trans; eassumption |].
      intros H. apply quiet_app; [apply Q1; reflexivity | apply Q2, H].
    + exists t1. split; [exact G1 | discriminate].
Qed.

(** Waiting for the tasks adds events and touches no file; when the wait
    ends without a rejection, no event reported a failure. *)
Lemma Promise_all_grows (schedule : list Kind) :
  forall tasks st, exists tail,
    grows st (Promise_all env schedule tasks st).2 tail
    /\ (is_ok (Promise_all env schedule tasks st).1 = true -> quiet tail).
Proof.
  induction schedule as [|k later IH]; intros tasks st; simpl.
  - destruct (first_rejection tasks) as [e|].
    + exists []. split; [apply grows_refl | discriminate].
    + apply drain_grows.
  - destruct (first_rejection tasks) as [e|] eqn:Efirst.
    + exists []. split; [apply grows_refl | discriminate].
    + destruct (step_grows k tasks st) as (t1 & G1 & Q1).
      destruct (step env k tasks st) as [tasks' st1] eqn:E. simpl in *.
      destruct (IH tasks' st1) as (t2 & G2 & Q2).
      exists (t1 ++ t2). split; [eapply grows_trans; eassumption |].
      intros H. apply quiet_app; [|apply Q2, H].
      apply Q1; [exact Efirst |].
      destruct later as [|k2 later2]; simpl in H;
        destruct (first_rejection tasks'); [discriminate | reflexivity
                                           | discriminate | reflexivity].
Qed.
End Run.

(* ===================================================================== *)
(** * Tasks keep to their own entry of [results] *)
(* ===================================================================== *)

Section Confinement.
Import JS Base64 Server.
Variable env : Env.

Lemma kept_refl (k : Kind) (r : Results) : kept k r r.
Proof. intros k' _. reflexivity. Qed.

Lemma kept_trans (k : Kind) (r1 r2 r3 : Results) :
  kept k r1 r2 -> kept k r2 r3 -> kept k r1 r3.
Proof. intros H1 H2 k' Hk. rewrite (H2 k' Hk). apply H1, Hk. Qed.

Section One_task.
Variable k : Kind.
Variable Q : Entry -> Prop.

Lemma start_confined (c : Async unit) (cur : option Entry) :
  Confined env k Q cur c ->
  forall st, cur = entry k (results st) ->
    Promise_confined env k Q (entry k (results (start c st).2)) (start c st).1
    /\ kept k (results st) (results (start c st).2).
Proof.
  induction 1 as [cur e u Hcur HQ|cur x|cur cur' f c Hf _ IH|cur r kont Hk _|cur j kont Hk _];
    intros st Hst; simpl.
  - split; [|apply kept_refl]. exists e. split; [congruence | exact HQ].
  - split; [exact I | apply kept_refl].
  - destruct (Hf (results st)) as [Hk Hothers]; [congruence |].
    destruct (IH (update_results f st)) as [HP Hkept]; [simpl; congruence |].
    split; [exact HP |].
    eapply kept_trans; [|exact Hkept]. intros k' Hk'. simpl. apply Hothers, Hk'.
  - split; [|apply kept_refl]. subst cur. exact Hk.
  - split; [|apply kept_refl]. subst cur. exact Hk.
Qed.

Lemma await_confined (c : Async unit) (cur : option Entry) :
  Confined env k Q cur c ->
  forall st, cur = entry k (results st) ->
    kept k (results st) (results (await env c st).2)
    /\ (is_ok (await env c st).1 = true ->
        exists e, entry k (results (await env c st).2) = Some e /\ Q e).
Proof.
  induction 1 as [cur e u Hcur HQ|cur x|cur cur' f c Hf _ IH|cur r kont _ IH|cur j kont _ IH];
    intros st Hst; simpl.
  - split; [apply kept_refl |]. intros _. exists e. split; [congruence | exact HQ].
  - split; [apply kept_refl | discriminate].
  - destruct (Hf (results st)) as [Hk Hothers]; [congruence |].
    destruct (IH (update_results f st)) as [Hkept HQ]; [simpl; congruence |].
    split; [|exact HQ].
    eapply kept_trans; [|exact Hkept]. intros k' Hk'. simpl. apply Hothers, Hk'.
  - destruct (post env r) as [content|e] eqn:E.
    + apply (IH content eq_refl (log (Replied r true) (log (Sent r) st))). exact Hst.
    + split; [apply kept_refl | discriminate].
  - destruct (render env j) as [buffer|e] eqn:E.
    + apply (IH buffer eq_refl (log (Rendered j true) (log (RenderStarted j) st))). exact Hst.
    + split; [apply kept_refl | discriminate].
Qed.

Lemma resume_confined (p : Promise) (st : State) :
  Promise_confined env k Q (entry k (results st)) p ->
  Promise_confined env k Q (entry k (results (resume env p st).2)) (resume env p st).1
  /\ kept k (results st) (results (resume env p st).2).
Proof.
  destruct p as [r|r kont|j kont]; simpl; intros H.
  - split; [exact H | apply kept_refl].
  - destruct (post env r) as [content|e] eqn:E.
    + apply (start_confined _ _ (H content eq_refl) (log (Replied r true) st)). reflexivity.
    + split; [exact I | apply kept_refl].
  - destruct (render env j) as [buffer|e] eqn:E.
    + apply (start_confined _ _ (H buffer eq_refl) (log (Rendered j true) st)). reflexivity.
    + split; [exact I | apply kept_refl].
Qed.

Lemma finish_confined (p : Promise) (st : State) :
  Promise_confined env k Q (entry k (results st)) p ->
  kept k (results st) (results (finish env p st).2)
  /\ (is_ok (finish env p st).1 = true ->
      exists e, entry k (results (finish env p st).2) = Some e /\ Q e).
Proof.
  destruct p as [[u|x]|r kont|j kont]; simpl; intros H.
  - split; [apply kept_refl |]. intros _. exact H.
  - split; [apply kept_refl | discriminate].
  - destruct (post env r) as [content|e] eqn:E.
    + apply (await_confined _ _ (H content eq_refl) (log (Replied r true) st)). reflexivity.
    + split; [apply kept_refl | discriminate].
  - destruct (render env j) as [buffer|e] eqn:E.
    + apply (await_confined _ _ (H buffer eq_refl) (log (Rendered j true) st)). reflexivity.
    + split; [apply kept_refl | discriminate].
Qed.
End One_task.

Variable Q : Kind -> Entry -> Prop.

(** What is known of a task holds on in any state that differs in the
    entries of other kinds only. *)
Lemma confined_elsewhere (k : Kind) (r r' : Results) (tasks : list Task) :
  kept k r r' -> k ∉ List.map fst tasks ->
  Forall (fun t : Task => Promise_confined env t.1 (Q t.1) (entry t.1 r) t.2) tasks ->
  Forall (fun t : Task => Promise_confined env t.1 (Q t.1) (entry t.1 r') t.2) tasks.
Proof.
  intros Hkept Hk. induction 1 as [|[k' p] rest Hp _ IH]; constructor.
  - simpl in *. apply not_elem_of_cons in Hk as [Hne _].
    rewrite Hkept; [exact Hp | exact (not_eq_sym Hne)].
  - apply IH. simpl in Hk. apply not_elem_of_cons in Hk as [_ Hk]. exact Hk.
Qed.

(** A step for a kind that has no task changes nothing. *)
Lemma step_absent (k : Kind) (tasks : list Task) :
  forall st, k ∉ List.map fst tasks -> (step env k tasks st).2 = st.
Proof.
  induction tasks as [|[k' p] rest IH]; intros st Hk; simpl; [reflexivity |].
  simpl in Hk. apply not_elem_of_cons in Hk as [Hne Hk].
  destruct (decide (k = k')) as [->|_]; [contradiction |].
  specialize (IH st Hk). destruct (step env k rest st) as [rest' st']. exact IH.
Qed.

Lemma step_confined (k : Kind) (tasks : list Task) :
  forall st,
    Tasks_confined env Q tasks (results st) ->
    Tasks_confined env Q (step env k tasks st).1 (results (step env k tasks st).2)
    /\ List.map fst (step env k tasks st).1 = List.map fst tasks
    /\ kept k (results st) (results (step env k tasks st).2).
Proof.
  induction tasks as [|[k' p] rest IH]; intros st [Hnd Hall]; simpl.
  - split; [split; constructor | split; [reflexivity | apply kept_refl]].
  - simpl in Hnd. apply NoDup_cons in Hnd as [Hk' Hnd'].
    inversion Hall as [|? ? Hp Hrest]; subst. simpl in Hp.
    destruct (decide (k = k')) as [->|Hne].
    + destruct (resume_confined k' (Q k') p st Hp) as [Hp' Hkept].
      destruct (resume env p st) as [p' st'] eqn:E. simpl in *.
      split; [split |split; [reflexivity | exact Hkept]].
      * apply NoDup_cons. split; assumption.
      * constructor; [exact Hp' |].
        eapply confined_elsewhere; eassumption.
    + destruct (IH st) as ([Hnd2 Hall2] & Hkinds & Hkept); [split; assumption |].
      destruct (step env k rest st) as [rest' st'] eqn:E. simpl in *.
      split; [split |split].
      * simpl. rewrite Hkinds. apply NoDup_cons. split; assumption.
      * constructor; [|exact Hall2]. simpl. rewrite Hkept; [exact Hp | exact (not_eq_sym Hne)].
      * simpl. rewrite Hkinds. reflexivity.
      * exact Hkept.
Qed.

Lemma drain_confined (tasks : list Task) :
  forall st,
    Tasks_confined env Q tasks (results st) ->
    (forall k, k ∉ List.map fst tasks ->
       entry k (results (drain env tasks st).2) = entry k (results st))
    /\ (is_ok (drain env tasks st).1 = true ->
        forall k, k ∈ List.map fst tasks ->
          exists e, entry k (results (drain env tasks st).2) = Some e /\ Q k e).
Proof.
  induction tasks as [|[k p] rest IH]; intros st [Hnd Hall].
  - split; [reflexivity |]. intros _ k Hk. apply elem_of_nil in Hk as [].
  - simpl in Hnd. apply NoDup_cons in Hnd as [Hk Hnd'].
    inversion Hall as [|? ? Hp Hrest]; subst.
    simpl in Hp. simpl. unfold mbind, M_bind.
    destruct (finish_confined k (Q k) p st Hp) as [Hkept Hdone].
    destruct (finish env p st) as [[u|x] st1]; simpl in *.
    + destruct (IH st1) as [Hout Hin].
      { split; [exact Hnd' |]. eapply confined_elsewhere; eassumption. }
      split.
      * intros k0 Hk0. apply not_elem_of_cons in Hk0 as [Hne Hk0].
        rewrite Hout by exact Hk0. apply Hkept, Hne.
      * intros Hok k0 Hk0. apply elem_of_cons in Hk0 as [->|Hk0].
        -- rewrite Hout by exact Hk. apply Hdone. reflexivity.
        -- apply Hin; assumption.
    + split; [|discriminate].
      intros k0 Hk0. apply not_elem_of_cons in Hk0 as [Hne _]. apply Hkept, Hne.
Qed.

(** When the wait ends without a rejection, every task has left in its
    entry what it was bound to leave, and the other entries are as they
    were. *)
Lemma Promise_all_confined (schedule : list Kind) :
  forall tasks st,
    Tasks_confined env Q tasks (results st) ->
    (forall k, k ∉ List.map fst tasks ->
       entry k (results (Promise_all env schedule tasks st).2) = entry k (results st))
    /\ (is_ok (Promise_all env schedule tasks st).1 = true ->
        forall k, k ∈ List.map fst tasks ->
          exists e, entry k (results (Promise_all env schedule tasks st).2) = Some e /\ Q k e).
Proof.
  induction schedule as [|k later IH]; intros tasks st Hinv; simpl.
  - destruct (first_rejection tasks) as [e|].
    + split; [reflexivity | discriminate].
    + apply drain_confined, Hinv.
  - destruct (first_rejection tasks) as [e|].
    + split; [reflexivity | discriminate].
    + destruct (step_confined k tasks st Hinv) as (Hinv' & Hkinds & Hkept).
      pose proof (step_absent k tasks st) as Habsent.
      destruct (step env k tasks st) as [tasks' st1] eqn:E. simpl in *.
      destruct (IH tasks' st1 Hinv') as [Hout Hin]. rewrite Hkinds in Hout, Hin.
      split; [|exact Hin].
      intros k0 Hk0. rewrite Hout by exact Hk0.
      destruct (decide (k0 = k)) as [->|Hne]; [|apply Hkept, Hne].
      rewrite Habsent by exact Hk0. reflexivity.
Qed.
End Confinement.

(* ===================================================================== *)
(** * The three tasks and the fan-out *)
(* ===================================================================== *)

Section Fan_out.
Import JS Base64 Server.
Variable env : Env.

Lemma set_entry_kept (k : Kind) (e : Entry) (r : Results) :
  entry k (set_entry k e r) = Some e
  /\ forall k', k' <> k -> entry k' (set_entry k e r) = entry k' r.
Proof.
  split; [destruct k; reflexivity |].
  intros k' Hk'. destruct k, k'; try reflexivity; contradiction.
Qed.

Lemma set_fileData_kept (k : Kind) (data : string) (e : Entry) (r : Results) :
  entry k r = Some e ->
  entry k (set_fileData k data r)
  = Some {| preview := preview e; fileName := fileName e; fileData := Some data |}
  /\ forall k', k' <> k -> entry k' (set_fileData k data r) = entry k' r.
Proof.
  intros He. unfold set_fileData. rewrite He. apply set_entry_kept.
Qed.

(** A rendering that is awaited and whose buffer goes, in base64, to the
    entry assigned before. *)
Lemma render_then_store (k : Kind) (Q : Entry -> Prop) (e : Entry) (c : Async Buffer) :
  (forall buffer,
      Q {| preview := preview e; fileName := fileName e;
           fileData := Some (toString_base64 buffer) |}) ->
  (exists j, c = AwaitRender j (fun buffer => Return buffer)) \/ (exists x, c = Raise x) ->
  Confined env k Q (Some e)
    (buffer ← c; Assign (set_fileData k (toString_base64 buffer)) (Return ())).
Proof.
  intros HQ [[j ->]|[x ->]]; simpl.
  - apply Confined_render. intros buffer _. simpl.
    eapply Confined_assign.
    + intros r Hr. apply set_fileData_kept, Hr.
    + eapply Confined_return; [reflexivity | apply HQ].
  - apply Confined_raise.
Qed.

Lemma generateCVPDF_shape (cvData : Value) :
  (exists j, generateCVPDF env cvData = AwaitRender j (fun buffer => Return buffer))
  \/ (exists x, generateCVPDF env cvData = Raise x).
Proof.
  unfold generateCVPDF. destruct (pdf_calls env cvData) as [calls|x]; simpl.
  - left. eexists. reflexivity.
  - right. eexists. reflexivity.
Qed.

Lemma generateCVDocx_shape (cvData : Value) :
  (exists j, generateCVDocx env cvData = AwaitRender j (fun buffer => Return buffer))
  \/ (exists x, generateCVDocx env cvData = Raise x).
Proof.
  unfold generateCVDocx. destruct (docx_children env cvData) as [children|x]; simpl.
  - left. eexists. reflexivity.
  - right. eexists. reflexivity.
Qed.

Variables (options candidateName format : Value) (raw : string).
Hypothesis Hformat : get options "format" = Ok format.

Lemma cv_task_confined (cvData : Value) :
  Confined env CV (produced env candidateName format raw CV) None
    (cv_task env options cvData candidateName raw).
Proof.
  unfold cv_task.
  destruct (tpl env candidateName) as [name|x] eqn:En; simpl; [|apply Confined_raise].
  rewrite Hformat. simpl.
  destruct (tpl env format) as [extension|x] eqn:Ef; simpl; [|apply Confined_raise].
  eapply Confined_assign; [intros r _; apply set_entry_kept |].
  apply render_then_store.
  - intros buffer. split; [|split]; simpl.
    + unfold file_name. rewrite En, Ef. reflexivity.
    + exists buffer. reflexivity.
    + reflexivity.
  - destruct (strict_eq_string format "pdf");
      [apply generateCVPDF_shape | apply generateCVDocx_shape].
Qed.

Lemma coverLetter_task_confined (cvContent jobDescription : string) :
  Confined env CoverLetter (produced env candidateName format raw CoverLetter) None
    (coverLetter_task env options candidateName cvContent jobDescription).
Proof.
  unfold coverLetter_task, generateCoverLetter.
  destruct (tpl env candidateName) as [name|x] eqn:En; simpl; [|apply Confined_raise].
  apply Confined_completion. intros text _. simpl. rewrite Hformat. simpl.
  destruct (tpl env format) as [extension|x] eqn:Ef; simpl; [|apply Confined_raise].
  eapply Confined_assign; [intros r _; apply set_entry_kept |].
  destruct (strict_eq_string format "pdf") eqn:Epdf.
  - apply render_then_store.
    + intros buffer. split; [|split]; simpl; [| |exact Epdf].
      * unfold file_name. rewrite En, Ef. reflexivity.
      * exists buffer. reflexivity.
    + left. eexists. reflexivity.
  - simpl. apply Confined_raise.
Qed.

Lemma email_task_confined (cvContent jobDescription : string) :
  Confined env Email (produced env candidateName format raw Email) None
    (email_task env options candidateName cvContent jobDescription).
Proof.
  unfold email_task, generateApplicationEmail.
  destruct (tpl env candidateName) as [name|x] eqn:En; simpl; [|apply Confined_raise].
  apply Confined_completion. intros text _. simpl. rewrite Hformat. simpl.
  destruct (tpl env format) as [extension|x] eqn:Ef; simpl; [|apply Confined_raise].
  eapply Confined_assign; [intros r _; apply set_entry_kept |].
  destruct (strict_eq_string format "pdf") eqn:Epdf.
  - apply render_then_store.
    + intros buffer. split; [|split]; simpl; [| |exact Epdf].
      * unfold file_name. rewrite En, Ef. reflexivity.
      * exists buffer. reflexivity.
    + left. eexists. reflexivity.
  - simpl. apply Confined_raise.
Qed.
End Fan_out.

(* ===================================================================== *)
(** * The run of the handler *)
(* ===================================================================== *)

(** A kind is not in a list of other kinds. *)
Ltac kind_absent :=
  simpl;
  repeat first [ apply not_elem_of_nil
               | apply not_elem_of_cons; split; [discriminate |] ].

Section Handler_run.
Import JS Base64 Server.
Variable env : Env.
Variable schedule : list Kind.

Lemma push_if_runs (selected : Value) (k : Kind) (c : Async unit)
    (promises : list Task) (st : State) :
  push_if env selected k c promises st
  = if ToBoolean (Number_toBoolean env) selected
    then (Ok (promises ++ [(k, (start c st).1)]), (start c st).2)
    else (Ok promises, st).
Proof.
  unfold push_if. destruct (ToBoolean (Number_toBoolean env) selected); [|reflexivity].
  destruct (start c st). reflexivity.
Qed.

(** Starting one more task keeps what is known of the tasks started
    before it. *)
Lemma push_if_confined (Q : Kind -> Entry -> Prop) (selected : Value) (k : Kind)
    (c : Async unit) (promises : list Task) (st : State) :
  Tasks_confined env Q promises (results st) ->
  k ∉ List.map fst promises ->
  (forall k', k' ∉ List.map fst promises -> entry k' (results st) = None) ->
  Confined env k (Q k) None c ->
  exists promises' st' tail,
    push_if env selected k c promises st = (Ok promises', st')
    /\ Tasks_confined env Q promises' (results st')
    /\ grows st st' tail /\ quiet tail
    /\ List.map fst promises'
       = List.map fst promises
         ++ (if ToBoolean (Number_toBoolean env) selected then [k] else [])
    /\ (forall k', k' ∉ List.map fst promises' -> entry k' (results st') = None).
Proof.
  intros [Hnd Hall] Hk Hnone Hc. rewrite push_if_runs.
  destruct (ToBoolean (Number_toBoolean env) selected).
  - destruct (start_grows c st) as (tail & G & Qt).
    destruct (start_confined env k (Q k) c None Hc st) as [Hp Hkept];
      [symmetry; apply Hnone, Hk |].
    exists (promises ++ [(k, (start c st).1)]), (start c st).2, tail.
    rewrite map_app. simpl.
    split; [reflexivity |]. split; [|split; [exact G |split; [exact Qt |split; [reflexivity |]]]].
    + split.
      * rewrite map_app. simpl. apply NoDup_app. split; [exact Hnd |]. split.
        -- intros x Hx Hx'. apply list_elem_of_singleton in Hx'. subst x. contradiction.
        -- apply NoDup_singleton.
      * apply Forall_app. split.
        -- eapply confined_elsewhere; eassumption.
        -- constructor; [exact Hp | constructor].
    + intros k' Hk'. apply not_elem_of_app in Hk' as [Hk1 Hk2].
      rewrite Hkept; [apply Hnone, Hk1 |].
      intros ->. apply Hk2. apply list_elem_of_singleton. reflexivity.
  - exists promises, st, []. rewrite app_nil_r.
    split; [reflexivity |]. split; [split; assumption |].
    split; [apply grows_refl |]. split; [constructor |]. split; [reflexivity | exact Hnone].
Qed.

Lemma bind_lift_ok {A B} (r : Res A) (a : A) (f : A -> M B) (st : State) :
  r = Ok a -> (lift r ≫= f) st = f a st.
Proof. intros ->. reflexivity. Qed.

Lemma bind_lift_throw {A B} (r : Res A) (x : Exn) (f : A -> M B) (st : State) :
  r = Throw x -> (lift r ≫= f) st = (Throw x, st).
Proof. intros ->. reflexivity. Qed.

Lemma bind_ok {A B} (m : M A) (a : A) (f : A -> M B) (st st1 : State) :
  m st = (Ok a, st1) -> (m ≫= f) st = f a st1.
Proof. intros H. unfold mbind, M_bind. rewrite H. reflexivity. Qed.

Lemma bind_throw {A B} (m : M A) (x : Exn) (f : A -> M B) (st st1 : State) :
  m st = (Throw x, st1) -> (m ≫= f) st = (Throw x, st1).
Proof. intros H. unfold mbind, M_bind. rewrite H. reflexivity. Qed.

(** An object that has one property readable has them all readable. *)
Lemma get_other (j : JSON) (p p' : string) (v : Value) :
  get (Some j) p = Ok v -> exists w, get (Some j) p' = Ok w.
Proof.
  destruct j; simpl; try discriminate; intros _; eexists; reflexivity.
Qed.

Lemma selects_get (options : JSON) (k : Kind) (v : Value) :
  get (Some options) (key k) = Ok v ->
  selects env options k = ToBoolean (Number_toBoolean env) v.
Proof. intros H. unfold selects. rewrite H. reflexivity. Qed.

Lemma unlinkSync_runs (path : string) (st : State) :
  (exists buffer, files st !! path = Some buffer
      /\ unlinkSync path st
         = (Ok (), {| files := delete path (files st);
                      trace := trace st ++ [Unlinked path true];
                      results := results st |}))
  \/ (files st !! path = None
      /\ exists x, unlinkSync path st
                   = (Throw x, {| files := files st;
                                  trace := trace st ++ [Unlinked path false];
                                  results := results st |})).
Proof.
  unfold unlinkSync. destruct (files st !! path) as [buffer|].
  - left. exists buffer. split; reflexivity.
  - right. split; [reflexivity |]. eexists. reflexivity.
Qed.

(** The fan-out, from the read of the candidate's name to the answer.
    If it returns, every selected kind has its entry, no other kind has
    one, no event reported a failure and the upload was removed, once
    and last.  If it throws, the upload is where it was. *)
Lemma fan_out_spec (options cvData : JSON) (cvFile : File)
    (cvContent jobDescription raw : string) (st st' : State) (r : Res Response) :
  results st = no_results ->
  fan_out env schedule options cvData cvFile cvContent jobDescription raw st = (r, st') ->
  match r with
  | Ok res =>
      exists candidateName format tail,
        candidate_name cvData = Ok candidateName
        /\ get (Some options) "format" = Ok format
        /\ res = {| status := 200; body := Success (results st') |}
        /\ (forall k,
              if selects env options k
              then exists e, entry k (results st') = Some e
                             /\ produced env candidateName format raw k e
              else entry k (results st') = None)
        /\ is_Some (files st !! path cvFile)
        /\ files st' = delete (path cvFile) (files st)
        /\ trace st' = trace st ++ tail ++ [Unlinked (path cvFile) true]
        /\ quiet tail
        /\ Forall (fun e => is_removal e = false) tail
  | Throw _ =>
      files st' = files st
      /\ exists tail, trace st' = trace st ++ tail
                      /\ Forall (fun e => is_removal e = false) tail
  end.
Proof.
  intros Hres Hrun. unfold fan_out in Hrun.
  assert (Hstop : forall x, (Throw x, st) = (r, st') ->
            match r with
            | Ok _ => False
            | Throw _ => files st' = files st
                         /\ exists tail, trace st' = trace st ++ tail
                              /\ Forall (fun e => is_removal e = false) tail
            end).
  { intros x Hx. inversion Hx; subst. split; [reflexivity |].
    exists []. rewrite app_nil_r. split; [reflexivity | constructor]. }
  destruct (get (Some cvData) "personalInfo") as [personalInfo|x] eqn:E1;
    [rewrite (bind_lift_ok _ _ _ _ eq_refl) in Hrun
    |rewrite (bind_lift_throw _ _ _ _ eq_refl) in Hrun;
     specialize (Hstop _ Hrun); destruct r; [contradiction | exact Hstop]].
  destruct (get personalInfo "fullName") as [candidateName|x] eqn:E2;
    [rewrite (bind_lift_ok _ _ _ _ eq_refl) in Hrun
    |rewrite (bind_lift_throw _ _ _ _ eq_refl) in Hrun;
     specialize (Hstop _ Hrun); destruct r; [contradiction | exact Hstop]].
  cbv zeta in Hrun.
  destruct (get (Some options) "cv") as [wants_cv|x] eqn:Ecv;
    [rewrite (bind_lift_ok _ _ _ _ eq_refl) in Hrun
    |rewrite (bind_lift_throw _ _ _ _ eq_refl) in Hrun;
     specialize (Hstop _ Hrun); destruct r; [contradiction | exact Hstop]].
  clear Hstop.
  destruct (get_other options "cv" "coverLetter" _ Ecv) as [wants_coverLetter Ecl].
  destruct (get_other options "cv" "email" _ Ecv) as [wants_email Eem].
  destruct (get_other options "cv" "format" _ Ecv) as [format Efmt].
  set (Q := produced env candidateName format raw).
  (* the three starts *)
  destruct (push_if_confined Q wants_cv CV
              (cv_task env (Some options) (Some cvData) candidateName raw) [] st)
    as (p1 & st1 & t1 & R1 & C1 & G1 & Q1 & K1 & N1).
  { split; [constructor | constructor]. }
  { apply not_elem_of_nil. }
  { intros k' _. rewrite Hres. destruct k'; reflexivity. }
  { apply cv_task_confined, Efmt. }
  rewrite (bind_ok _ _ _ _ _ R1) in Hrun.
  rewrite (bind_lift_ok _ _ _ _ Ecl) in Hrun.
  destruct (push_if_confined Q wants_coverLetter CoverLetter
              (coverLetter_task env (Some options) candidateName cvContent jobDescription)
              p1 st1)
    as (p2 & st2 & t2 & R2 & C2 & G2 & Q2 & K2 & N2).
  { exact C1. }
  { rewrite K1. simpl. destruct (ToBoolean _ wants_cv); kind_absent. }
  { exact N1. }
  { apply coverLetter_task_confined, Efmt. }
  rewrite (bind_ok _ _ _ _ _ R2) in Hrun.
  rewrite (bind_lift_ok _ _ _ _ Eem) in Hrun.
  destruct (push_if_confined Q wants_email Email
              (email_task env (Some options) candidateName cvContent jobDescription)
              p2 st2)
    as (p3 & st3 & t3 & R3 & C3 & G3 & Q3 & K3 & N3).
  { exact C2. }
  { rewrite K2, K1. simpl.
    destruct (ToBoolean _ wants_cv), (ToBoolean _ wants_coverLetter); kind_absent. }
  { exact N2. }
  { apply email_task_confined, Efmt. }
  rewrite (bind_ok _ _ _ _ _ R3) in Hrun.
  pose proof (grows_trans _ _ _ _ _ (grows_trans _ _ _ _ _ G1 G2) G3) as G123.
  (* the wait *)
  destruct (Promise_all_grows env schedule p3 st3) as (t4 & G4 & Q4).
  destruct (Promise_all_confined env Q schedule p3 st3 C3) as [Hout Hin].
  destruct (Promise_all env schedule p3 st3) as [[u|x] st4] eqn:E4;
    simpl in G4, Q4, Hout, Hin.
  2:{ rewrite (bind_throw _ _ _ _ _ E4) in Hrun. inversion Hrun; subst.
      destruct (grows_trans _ _ _ _ _ G123 G4) as (F & T & U).
      split; [exact F |]. eexists. split; [exact T | exact U]. }
  rewrite (bind_ok _ _ _ _ _ E4) in Hrun.
  pose proof (grows_trans _ _ _ _ _ G123 G4) as (F & T & U).
  (* the removal *)
  destruct (unlinkSync_runs (path cvFile) st4) as [(buffer & Hfile & R5)|(Hfile & x & R5)].
  2:{ rewrite (bind_throw _ _ _ _ _ R5) in Hrun. inversion Hrun; subst. simpl.
      split; [exact F |]. exists (((t1 ++ t2) ++ t3) ++ t4 ++ [Unlinked (path cvFile) false]).
      split.
      - rewrite T. rewrite <- !app_assoc. reflexivity.
      - rewrite app_assoc. apply Forall_app. split; [exact U | repeat constructor]. }
  rewrite (bind_ok _ _ _ _ _ R5) in Hrun. unfold res_json in Hrun.
  inversion Hrun; subst. simpl.
  exists candidateName, format, (((t1 ++ t2) ++ t3) ++ t4).
  split; [unfold candidate_name; rewrite E1; exact E2 |].
  split; [exact Efmt |]. split; [reflexivity |]. split.
  { intros k.
    assert (Hsel : selects env options k
                   = ToBoolean (Number_toBoolean env)
                       match k with
                       | CV => wants_cv
                       | CoverLetter => wants_coverLetter
                       | Email => wants_email
                       end).
    { destruct k; apply selects_get; assumption. }
    rewrite Hsel. clear Hsel.
    remember (ToBoolean (Number_toBoolean env) wants_cv) as b1.
    remember (ToBoolean (Number_toBoolean env) wants_coverLetter) as b2.
    remember (ToBoolean (Number_toBoolean env) wants_email) as b3.
    assert (Hkinds : List.map fst p3
                     = (if b1 then [CV] else []) ++ (if b2 then [CoverLetter] else [])
                       ++ (if b3 then [Email] else [])).
    { rewrite K3, K2, K1. simpl. rewrite <- app_assoc. reflexivity. }
    rewrite Hkinds in Hin, Hout, N3. specialize (Hin eq_refl).
    specialize (Hin k). specialize (Hout k). specialize (N3 k).
    clear -Hin Hout N3 Heqb1 Heqb2 Heqb3.
    destruct k; rewrite <- ?Heqb1, <- ?Heqb2, <- ?Heqb3; clear Heqb1 Heqb2 Heqb3;
      destruct b1, b2, b3; simpl in *;
      first [ apply Hin; repeat constructor
            | rewrite Hout by kind_absent; apply N3; kind_absent ]. }
  split; [rewrite <- F; eexists; exact Hfile |].
  split; [rewrite F; reflexivity |].
  split; [rewrite T, <- !app_assoc; reflexivity |].
  split; [|exact U].
  repeat apply quiet_app; try assumption. apply Q4. reflexivity.
Qed.

Lemma call_JSON_parse_runs (text : string) (st : State) :
  call_JSON_parse env text st
  = match JSON_parse env text with
    | inr v => (Ok v, log (JSONParse text (Some v)) st)
    | inl msg => (Throw (SyntaxError msg), log (JSONParse text None) st)
    end.
Proof. reflexivity. Qed.

Lemma parseCVContent_runs (filePath mimeType : string) (st : State) :
  parseCVContent env filePath mimeType st
  = match files st !! filePath with
    | Some buffer =>
        (extraction env mimeType buffer,
         log (Extracted mimeType (is_ok (extraction env mimeType buffer)))
           (log (ReadFile filePath true) st))
    | None =>
        (Throw (Error ("ENOENT: no such file or directory, open '" +:+ filePath +:+ "'")),
         log (ReadFile filePath false) st)
    end.
Proof.
  unfold parseCVContent, readFileSync, extraction, extract, mbind, M_bind.
  destruct (files st !! filePath) as [buffer|]; [|reflexivity].
  destruct (String.eqb mimeType "application/pdf"); simpl.
  - destruct (pdfParse env buffer); reflexivity.
  - destruct (extractRawText env buffer); reflexivity.
Qed.

Lemma generateTailoredCV_runs (cvContent jobDescription : string) (st : State) :
  await env (generateTailoredCV env cvContent jobDescription) st
  = let r := tailoredCV_request env cvContent jobDescription in
    match post env r with
    | Ok raw => (Ok raw, log (Replied r true) (log (Sent r) st))
    | Throw x => (Throw x, log (Replied r false) (log (Sent r) st))
    end.
Proof.
  unfold generateTailoredCV, callDeepSeek, tailoredCV_request. simpl.
  destruct (post env _); reflexivity.
Qed.

Variable req : Request.
Variable uploads : gmap string Buffer.

(** Up to the model's answer the handler goes one way. *)
Lemma tailor_cv_answered (options : JSON) (cvFile : File) (cvContent raw : string) :
  Answered env req uploads options cvFile cvContent raw ->
  tailor_cv env schedule req (entered uploads)
  = (cvData ← call_JSON_parse env (trim (replace_all fences raw));
     fan_out env schedule options cvData cvFile cvContent
       (field_text (body_jobDescription req)) raw)
      {| files := uploads;
         trace := answered_trace env req options cvFile cvContent;
         results := no_results |}.
Proof.
  intros [Ho Hf (buffer & Hb & He) Hr]. unfold tailor_cv.
  erewrite bind_ok by (rewrite call_JSON_parse_runs, Ho; reflexivity).
  rewrite Hf. erewrite bind_lift_ok by reflexivity.
  erewrite bind_ok
    by (rewrite parseCVContent_runs; simpl; rewrite Hb, He; reflexivity).
  erewrite bind_ok
    by (rewrite generateTailoredCV_runs; simpl; rewrite Hr; reflexivity).
  reflexivity.
Qed.

Lemma tailor_cv_cases :
  (exists options cvFile cvContent raw,
      Answered env req uploads options cvFile cvContent raw)
  \/ (exists x tr,
        tailor_cv env schedule req (entered uploads)
        = (Throw x, {| files := uploads; trace := tr; results := no_results |})
        /\ Forall early tr).
Proof.
  unfold tailor_cv.
  destruct (JSON_parse env (field_text (body_options req))) as [msg|options] eqn:Ho.
  { right. erewrite bind_throw by (rewrite call_JSON_parse_runs, Ho; reflexivity).
    do 2 eexists. split; [reflexivity |]. repeat constructor; discriminate. }
  erewrite bind_ok by (rewrite call_JSON_parse_runs, Ho; reflexivity).
  destruct (file req) as [cvFile|] eqn:Hf.
  2:{ right. erewrite bind_lift_throw by reflexivity.
      do 2 eexists. split; [reflexivity |]. repeat constructor; discriminate. }
  erewrite bind_lift_ok by reflexivity.
  destruct (uploads !! path cvFile) as [buffer|] eqn:Hb.
  2:{ right. erewrite bind_throw
        by (rewrite parseCVContent_runs; simpl; rewrite Hb; reflexivity).
      do 2 eexists. split; [reflexivity |]. repeat constructor; discriminate. }
  destruct (extraction env (mimetype cvFile) buffer) as [cvContent|x] eqn:He.
  2:{ right. erewrite bind_throw
        by (rewrite parseCVContent_runs; simpl; rewrite Hb, He; reflexivity).
      do 2 eexists. split; [reflexivity |]. repeat constructor; discriminate. }
  erewrite bind_ok
    by (rewrite parseCVContent_runs; simpl; rewrite Hb, He; reflexivity).
  destruct (post env (tailoredCV_request env cvContent
                        (field_text (body_jobDescription req)))) as [raw|x] eqn:Hr.
  2:{ right. erewrite bind_throw
        by (rewrite generateTailoredCV_runs; simpl; rewrite Hr; reflexivity).
      do 2 eexists. split; [reflexivity |].
      repeat constructor; try discriminate. intros r Er. inversion Er. reflexivity. }
  left. exists options, cvFile, cvContent, raw. split; eauto.
Qed.
End Handler_run.

(* ===================================================================== *)
(** * The two ways a request ends *)
(* ===================================================================== *)

Section Outcomes.
Import JS Base64 Server.
Variable env : Env.
Variable schedule : list Kind.
Variable req : Request.
Variable uploads : gmap string Buffer.


Lemma early_no_removal (tr : list Event) :
  Forall early tr -> Forall (fun e => is_removal e = false) tr.
Proof. intros H. eapply Forall_impl; [exact H |]. intros e [He _]. exact He. Qed.

(** Either the handler answers 200 with the documents of [results], each
    selected kind and no other having its entry, after a run without a
    failure that ended with the one removal of the upload; or it answers
    500 with a message and nothing else, and the upload has not been
    removed. *)
Lemma handler_spec :
  let o := handler env schedule req uploads in
  (exists options cvFile cvContent raw cvData candidateName format tail,
      Answered env req uploads options cvFile cvContent raw
      /\ JSON_parse env (trim (replace_all fences raw)) = inr cvData
      /\ candidate_name cvData = Ok candidateName
      /\ get (Some options) "format" = Ok format
      /\ response o = {| status := 200; body := Success (results (final o)) |}
      /\ (forall k,
            if selects env options k
            then exists e, entry k (results (final o)) = Some e
                           /\ produced env candidateName format raw k e
            else entry k (results (final o)) = None)
      /\ is_Some (uploads !! path cvFile)
      /\ files (final o) = delete (path cvFile) uploads
      /\ trace (final o)
         = answered_trace env req options cvFile cvContent
           ++ [JSONParse (trim (replace_all fences raw)) (Some cvData)]
           ++ tail ++ [Unlinked (path cvFile) true]
      /\ quiet tail
      /\ Forall (fun e => is_removal e = false) tail)
  \/ (exists x,
        tailor_cv env schedule req (entered uploads) = (Throw x, final o)
        /\ response o = {| status := 500; body := Failure (message x) |}
        /\ files (final o) = uploads
        /\ Forall (fun e => is_removal e = false) (trace (final o))).
Proof.
  unfold handler.
  destruct (tailor_cv_cases env schedule req uploads)
    as [(options & cvFile & cvContent & raw & Ha)|(x & tr & Hrun & Htr)].
  2:{ right. exists x. rewrite Hrun. simpl.
      repeat split. apply early_no_removal, Htr. }
  rewrite (tailor_cv_answered env schedule req uploads _ _ _ _ Ha).
  destruct (JSON_parse env (trim (replace_all fences raw))) as [msg|cvData] eqn:Hp.
  { right. exists (SyntaxError msg).
    erewrite bind_throw by (rewrite call_JSON_parse_runs, Hp; reflexivity). simpl.
    repeat split. repeat constructor. }
  erewrite bind_ok by (rewrite call_JSON_parse_runs, Hp; reflexivity).
  match goal with
  | |- context [fan_out _ _ _ _ _ _ _ _ ?st] => set (st6 := st)
  end.
  destruct (fan_out env schedule options cvData cvFile cvContent
              (field_text (body_jobDescription req)) raw st6) as [r st'] eqn:Hrun.
  pose proof (fan_out_spec env schedule _ _ _ _ _ _ st6 st' r eq_refl Hrun) as Hspec.
  destruct r as [res|x]; simpl.
  - left. destruct Hspec as (name & format & tail & Hn & Hf & -> & Hk & Hfile & Hdel & Htr & Hq & Hu).
    exists options, cvFile, cvContent, raw, cvData, name, format, tail.
    split; [exact Ha |]. split; [exact Hp |]. split; [exact Hn |].
    split; [exact Hf |]. split; [reflexivity |]. split; [exact Hk |].
    split; [exact Hfile |]. split; [exact Hdel |].
    split; [|split; [exact Hq | exact Hu]].
    rewrite Htr. unfold st6. simpl. rewrite <- ?app_assoc. reflexivity.
  - right. exists x. destruct Hspec as (Hfiles & tail & Htr & Hu).
    repeat split; [exact Hfiles |].
    rewrite Htr. simpl. repeat (constructor; [reflexivity |]). exact Hu.
Qed.
End Outcomes.

(* ===================================================================== *)
(** * The order in which the tasks begin *)
(* ===================================================================== *)

Section Beginning.
Import JS Base64 Server.
Variable env : Env.
Variable schedule : list Kind.


Lemma start_coverLetter_task (options candidateName : Value)
    (cvContent jobDescription name : string) (st : State) :
  tpl env candidateName = Ok name ->
  (start (coverLetter_task env options candidateName cvContent jobDescription) st).2
  = log (Sent (coverLetter_request env cvContent jobDescription name)) st.
Proof. intros H. unfold coverLetter_task, generateCoverLetter. rewrite H. reflexivity. Qed.

Lemma start_email_task (options candidateName : Value)
    (cvContent jobDescription name : string) (st : State) :
  tpl env candidateName = Ok name ->
  (start (email_task env options candidateName cvContent jobDescription) st).2
  = log (Sent (email_request env jobDescription name)) st.
Proof. intros H. unfold email_task, generateApplicationEmail. rewrite H. reflexivity. Qed.


Lemma selects_true (options : JSON) (k : Kind) :
  selects env options k = true ->
  exists v, get (Some options) (key k) = Ok v
            /\ ToBoolean (Number_toBoolean env) v = true.
Proof.
  unfold selects. destruct (get (Some options) (key k)) as [v|x]; [|discriminate].
  intros H. exists v. split; [reflexivity | exact H].
Qed.



(** A wait that finds a task rejected ends at once. *)
Lemma Promise_all_rejected (tasks : list Task) (e : Exn) (st : State) :
  first_rejection tasks = Some e ->
  Promise_all env schedule tasks st = (Throw e, st).
Proof. intros H. destruct schedule; simpl; rewrite H; reflexivity. Qed.

End Beginning.

(* ===================================================================== *)
(** * The properties of the specification *)
(* ===================================================================== *)

Section Transport.
Import JS Base64 Client.

(** A non-empty buffer has a non-empty encoding, so [downloadFile] does
    not take it for missing data: it saves exactly the bytes that were
    rendered. *)
Lemma downloadFile_saves (buffer : Buffer) (fileName format : string) :
  buffer <> [] ->
  exists mimeType,
    downloadFile (Some (toString_base64 buffer)) fileName format
    = [ SaveAs buffer mimeType fileName;
        ShowToast (fileName +:+ " downloaded!") true 3000 ].
Proof.
  intros Hne. unfold downloadFile.
  destruct (toString_base64 buffer) as [|c rest] eqn:E.
  - exfalso. apply Hne. unfold toString_base64 in E.
    destruct buffer as [|a [|b [|c l]]]; [reflexivity | discriminate E ..].
  - rewrite <- E, base64_to_bytes_toString. eexists. reflexivity.
Qed.

(** C9. For every buffer, encoding it to base64 as the handler does for
    [fileData] and decoding the text as [downloadFile] does gives back
    exactly the bytes of the buffer. *)
Theorem base64_roundtrip (buffer : Buffer) :
  base64_to_bytes (toString_base64 buffer) = Ok buffer.
Proof. apply base64_to_bytes_toString. Qed.
End Transport.

Section Upload.
Import JS Base64 Server.

Lemma fileFilter_accepts (mimetype : string) :
  fileFilter mimetype = Ok true
  <-> mimetype = "application/pdf"
      \/ mimetype = "application/vnd.openxmlformats-officedocument.wordprocessingml.document".
Proof.
  unfold fileFilter, allowedTypes. simpl.
  destruct (String.eqb_spec mimetype "application/pdf") as [->|Hpdf]; simpl.
  - split; [left; reflexivity | reflexivity].
  - destruct (String.eqb_spec mimetype
      "application/vnd.openxmlformats-officedocument.wordprocessingml.document")
      as [->|Hdocx]; simpl.
    + split; [right; reflexivity | reflexivity].
    + split; [discriminate | intros [?|?]; contradiction].
Qed.

(** An upload is accepted exactly when its declared type is one of the
    two and it is shorter than the limit: a file of exactly the limit is
    refused. *)
Lemma upload_accepts (mimetype : string) (length : Z) :
  upload mimetype length = Ok ()
  <-> (mimetype = "application/pdf"
       \/ mimetype = "application/vnd.openxmlformats-officedocument.wordprocessingml.document")
      /\ (length < 10 * 1024 * 1024)%Z.
Proof.
  rewrite <- fileFilter_accepts. unfold upload, mbind, Res_bind.
  destruct (fileFilter mimetype) as [[]|x] eqn:E.
  - unfold fileSize. destruct (Z.geb_spec length (10 * 1024 * 1024)) as [H|H].
    + split; [discriminate | intros [_ ?]; lia].
    + split; [intros _; split; [reflexivity | exact H] | reflexivity].
  - exfalso. unfold fileFilter in E.
    destruct (existsb _ _); discriminate.
  - split; [discriminate | intros [? _]; discriminate].
Qed.

(** C8. An upload that the filter and the size limit let through has
    declared type PDF or DOCX and at most 10 MB; from the stored file
    the extractor returns what the PDF library reads as text when the
    declared type is PDF, and the raw text the DOCX library extracts
    for the other accepted type. *)
Theorem upload_filter_then_extraction (env : Env) (filePath mimetype : string)
    (length : Z) (buffer : Buffer) (st : State) :
  upload mimetype length = Ok () ->
  files st !! filePath = Some buffer ->
  (length <= 10 * 1024 * 1024)%Z
  /\ ((mimetype = "application/pdf"
       /\ (parseCVContent env filePath mimetype st).1 = pdfParse env buffer)
      \/ (mimetype = "application/vnd.openxmlformats-officedocument.wordprocessingml.document"
          /\ (parseCVContent env filePath mimetype st).1 = extractRawText env buffer)).
Proof.
  intros Hup Hfile. apply upload_accepts in Hup as [Htype Hlen].
  split; [lia |].
  rewrite parseCVContent_runs, Hfile. unfold extraction. simpl.
  destruct Htype as [->| ->]; [left | right]; split; reflexivity.
Qed.

Lemma upload_filter_then_extraction_witness :
  upload Scenario.docx_type 38 = Ok ()
  /\ files (entered Scenario.uploads) !! Scenario.upload_path = Some Scenario.upload_bytes
  /\ (38 <= 10 * 1024 * 1024)%Z
  /\ ((Scenario.docx_type = "application/pdf"
       /\ (parseCVContent Scenario.all_well Scenario.upload_path Scenario.docx_type
             (entered Scenario.uploads)).1
          = pdfParse Scenario.all_well Scenario.upload_bytes)
      \/ (Scenario.docx_type
          = "application/vnd.openxmlformats-officedocument.wordprocessingml.document"
          /\ (parseCVContent Scenario.all_well Scenario.upload_path Scenario.docx_type
                (entered Scenario.uploads)).1
             = extractRawText Scenario.all_well Scenario.upload_bytes)).
Proof.
  split; [reflexivity |]. split; [vm_compute; reflexivity |].
  apply (upload_filter_then_extraction Scenario.all_well Scenario.upload_path
           Scenario.docx_type 38 Scenario.upload_bytes (entered Scenario.uploads)).
  - reflexivity.
  - vm_compute. reflexivity.
Defined.
End Upload.

Section Requests.
Import JS Base64 Server.

(** The answer is a success only if the [try] block returned. *)
Lemma success_inv (env : Env) (schedule : list Kind) (req : Request)
    (uploads : gmap string Buffer) (docs : Results) :
  response (handler env schedule req uploads) = {| status := 200; body := Success docs |} ->
  exists options cvFile cvContent raw cvData candidateName format tail,
    Answered env req uploads options cvFile cvContent raw
    /\ JSON_parse env (trim (replace_all fences raw)) = inr cvData
    /\ candidate_name cvData = Ok candidateName
    /\ get (Some options) "format" = Ok format
    /\ (forall k,
          if selects env options k
          then exists e, entry k docs = Some e
                         /\ produced env candidateName format raw k e
          else entry k docs = None)
    /\ files (final (handler env schedule req uploads)) = delete (path cvFile) uploads
    /\ trace (final (handler env schedule req uploads))
       = answered_trace env req options cvFile cvContent
         ++ [JSONParse (trim (replace_all fences raw)) (Some cvData)]
         ++ tail ++ [Unlinked (path cvFile) true]
    /\ quiet tail
    /\ Forall (fun e => is_removal e = false) tail.
Proof.
  intros Hres.
  destruct (handler_spec env schedule req uploads)
    as [(options & cvFile & cvContent & raw & cvData & name & format & tail
         & Ha & Hp & Hn & Hf & Hr & Hk & _ & Hdel & Htr & Hq & Hu)
       |(x & _ & Hr & _)].
  - rewrite Hr in Hres. injection Hres as <-.
    exists options, cvFile, cvContent, raw, cvData, name, format, tail.
    split; [exact Ha |]. split; [exact Hp |]. split; [exact Hn |]. split; [exact Hf |].
    split; [exact Hk |]. split; [exact Hdel |]. split; [exact Htr |].
    split; [exact Hq | exact Hu].
  - rewrite Hr in Hres. discriminate.
Qed.

(** No request for a cover letter or an email in a format other than
    PDF is answered with a success: the task of that kind ends at the
    call of the function that the module does not define. *)
Lemma text_docx_never_succeeds (env : Env) (schedule : list Kind) (req : Request)
    (uploads : gmap string Buffer) (options : JSON) (format : Value) (k : Kind) :
  JSON_parse env (field_text (body_options req)) = inr options ->
  get (Some options) "format" = Ok format ->
  strict_eq_string format "pdf" = false ->
  k <> CV ->
  selects env options k = true ->
  status (response (handler env schedule req uploads)) = 500%Z.
Proof.
  intros Ho Hf Hpdf Hk Hsel.
  destruct (handler_spec env schedule req uploads)
    as [(options' & cvFile & cvContent & raw & cvData & name & format' & tail
         & Ha & _ & _ & Hf' & _ & Hdocs & _)
       |(x & _ & Hr & _)]; [exfalso | rewrite Hr; reflexivity].
  destruct Ha as [Ho' _ _ _]. rewrite Ho in Ho'. injection Ho' as <-.
  rewrite Hf in Hf'. injection Hf' as <-.
  specialize (Hdocs k). rewrite Hsel in Hdocs.
  destruct Hdocs as (e & _ & _ & _ & Hkind).
  destruct k; [contradiction | congruence | congruence].
Qed.

(** C1 (the code departs from it). A request for a cover letter in DOCX,
    with every collaborator answering: the task reaches the call of
    [generateTextDocx], which nothing defines, and the request is
    answered 500 with the message of the [ReferenceError]. *)
Theorem text_docx_request_fails :
  response (handler Scenario.all_well []
              (Scenario.request Scenario.job Scenario.letter_docx) Scenario.uploads)
  = {| status := 500; body := Failure "generateTextDocx is not defined" |}.
Proof. vm_compute. reflexivity. Qed.

(** A request that is answered 500 has left the upload where it was;
    one that is answered 200 has removed it, once. *)
Lemma cleanup_only_on_success (env : Env) (schedule : list Kind) (req : Request)
    (uploads : gmap string Buffer) :
  let o := handler env schedule req uploads in
  (status (response o) = 500%Z ->
     files (final o) = uploads
     /\ Forall (fun e => is_removal e = false) (trace (final o)))
  /\ (status (response o) = 200%Z ->
      exists cvFile before,
        file req = Some cvFile
        /\ files (final o) = delete (path cvFile) uploads
        /\ trace (final o) = before ++ [Unlinked (path cvFile) true]
        /\ Forall (fun e => is_removal e = false) before).
Proof.
  intros o. subst o.
  destruct (handler_spec env schedule req uploads)
    as [(options & cvFile & cvContent & raw & cvData & name & format & tail
         & Ha & _ & _ & _ & Hr & _ & _ & Hdel & Htr & _ & Hu)
       |(x & _ & Hr & Hfiles & Hu)]; rewrite Hr; simpl.
  - split; [discriminate |]. intros _.
    exists cvFile. eexists. split; [apply Ha |]. split; [exact Hdel |].
    split; [rewrite Htr, !app_assoc; reflexivity |].
    repeat (apply Forall_app; split); try exact Hu; repeat constructor.
  - split; [intros _; split; assumption | discriminate].
Qed.

(** C3 (the code departs from it). The model answers the résumé prompt
    in prose: the request got past extraction, the parse of the answer
    throws, the handler answers 500, and the upload is still in the
    upload directory; no removal was attempted. *)
Theorem failed_request_leaves_upload :
  let o := handler Scenario.prose_answer []
             (Scenario.request Scenario.job Scenario.cv_docx) Scenario.uploads in
  status (response o) = 500%Z
  /\ trace (final o) !! 2%nat = Some (Extracted Scenario.docx_type true)
  /\ files (final o) !! Scenario.upload_path = Some Scenario.upload_bytes
  /\ Forall (fun e => forall p ok, e <> Unlinked p ok) (trace (final o)).
Proof.
  vm_compute. repeat split; repeat constructor; discriminate.
Qed.
End Requests.

Section Validation.
Import JS Base64 Server.

(** C2, as stated, fails. A request with an upload, an empty job
    description and no kind selected is not refused: the handler reads
    the upload, asks the model for the résumé and answers 200 with no
    document. *)
Lemma unvalidated_request_is_served :
  let req := Scenario.request "" Scenario.nothing_docx in
  let o := handler Scenario.all_well [] req Scenario.uploads in
  body_jobDescription req = Some ""
  /\ (forall k, selects Scenario.all_well (Scenario.parsed Scenario.nothing_docx) k = false)
  /\ response o = {| status := 200; body := Success no_results |}
  /\ trace (final o) !! 1%nat = Some (ReadFile Scenario.upload_path true)
  /\ trace (final o) !! 3%nat
     = Some (Sent (tailoredCV_request Scenario.all_well
                     "Jane Doe, jane@x.com, 555-1234, Boston" "")).
Proof.
  split; [reflexivity |]. split; [intros []; vm_compute; reflexivity |].
  vm_compute. repeat split.
Qed.

(** Without a file the handler stops at the read of the file's path:
    the only thing it has done is to parse [options]. *)
Lemma no_file_stops (env : Env) (schedule : list Kind) (req : Request)
    (uploads : gmap string Buffer) :
  file req = None ->
  let o := handler env schedule req uploads in
  status (response o) = 500%Z
  /\ files (final o) = uploads
  /\ exists value, trace (final o) = [JSONParse (field_text (body_options req)) value].
Proof.
  intros Hfile. unfold handler, tailor_cv. simpl.
  destruct (JSON_parse env (field_text (body_options req))) as [msg|options] eqn:Ho.
  - erewrite bind_throw by (rewrite call_JSON_parse_runs, Ho; reflexivity).
    simpl. repeat split. eexists. reflexivity.
  - erewrite bind_ok by (rewrite call_JSON_parse_runs, Ho; reflexivity).
    rewrite Hfile. erewrite bind_lift_throw by reflexivity.
    simpl. repeat split. eexists. reflexivity.
Qed.

(** The form refuses to send what the claim lists. *)
Lemma submit_validates (form : Client.Form) :
  trim (Client.jobDescription_value form) = ""
  \/ Client.cvFile_files form = []
  \/ (Client.generateCV_checked form = false
      /\ Client.generateCoverLetter_checked form = false
      /\ Client.generateEmail_checked form = false) ->
  exists message, Client.submit form = Client.Toast message.
Proof.
  unfold Client.submit. intros H.
  destruct (String.eqb_spec (trim (Client.jobDescription_value form)) "") as [E|E];
    [eexists; reflexivity |].
  destruct (Client.cvFile_files form) as [|file0 rest]; [eexists; reflexivity |].
  destruct H as [H|[H|(H1 & H2 & H3)]]; [contradiction | discriminate |].
  simpl. rewrite H1, H2, H3. simpl. eexists. reflexivity.
Qed.

(** C2, amended. A request that carries no file is answered 500 before
    the extractor or the completion client is called: nothing is read
    and nothing is sent.  A blank job description, a missing file and an
    empty selection are refused by the submit handler of the form, which
    shows a message and sends nothing; the handler of the server does
    not check them. *)
Theorem validation_is_in_the_form (env : Env) (schedule : list Kind) (req : Request)
    (uploads : gmap string Buffer) (form : Client.Form) :
  file req = None ->
  trim (Client.jobDescription_value form) = ""
  \/ Client.cvFile_files form = []
  \/ (Client.generateCV_checked form = false
      /\ Client.generateCoverLetter_checked form = false
      /\ Client.generateEmail_checked form = false) ->
  (status (response (handler env schedule req uploads)) = 500%Z
   /\ files (final (handler env schedule req uploads)) = uploads
   /\ Forall (fun e => (forall p ok, e <> ReadFile p ok) /\ (forall r, e <> Sent r))
        (trace (final (handler env schedule req uploads))))
  /\ exists message, Client.submit form = Client.Toast message.
Proof.
  intros Hfile Hform. split; [|apply submit_validates, Hform].
  destruct (no_file_stops env schedule req uploads Hfile) as (Hs & Hf & value & Ht).
  split; [exact Hs |]. split; [exact Hf |].
  rewrite Ht. repeat constructor; discriminate.
Qed.

Lemma validation_is_in_the_form_witness :
  file Scenario.no_upload = None
  /\ (trim (Client.jobDescription_value Scenario.blank_form) = ""
      \/ Client.cvFile_files Scenario.blank_form = []
      \/ (Client.generateCV_checked Scenario.blank_form = false
          /\ Client.generateCoverLetter_checked Scenario.blank_form = false
          /\ Client.generateEmail_checked Scenario.blank_form = false))
  /\ (status (response (handler Scenario.all_well [] Scenario.no_upload Scenario.uploads))
      = 500%Z
      /\ files (final (handler Scenario.all_well [] Scenario.no_upload Scenario.uploads))
         = Scenario.uploads
      /\ Forall (fun e => (forall p ok, e <> ReadFile p ok) /\ (forall r, e <> Sent r))
           (trace (final (handler Scenario.all_well [] Scenario.no_upload
                            Scenario.uploads))))
  /\ exists message, Client.submit Scenario.blank_form = Client.Toast message.
Proof.
  split; [reflexivity |].
  split; [left; vm_compute; reflexivity |].
  apply (validation_is_in_the_form Scenario.all_well [] Scenario.no_upload
           Scenario.uploads Scenario.blank_form).
  - reflexivity.
  - left. vm_compute. reflexivity.
Defined.
End Validation.

Section Cleaning.
Import JS Base64 Server.

(** Where the markers lead and trail and nowhere else, the cleaning of
    the handler and the cleaning the specification describes agree. *)
Example cleaning_of_a_fenced_answer :
  trim (replace_all fences Scenario.fenced_resume) = Scenario.resume_json
  /\ strip_leading_trailing_fences Scenario.fenced_resume = Scenario.resume_json.
Proof. split; vm_compute; reflexivity. Qed.

(** C4, as stated, fails. The model's answer is JSON without fences
    around it, and its summary contains a code-fence marker.  Stripping
    leading and trailing markers leaves the answer as it is; the handler
    removes the marker inside the summary and uses a résumé whose
    summary is not the one the model wrote. *)
Lemma inner_fence_is_removed :
  let raw := Scenario.resume_about_fences in
  let o := handler Scenario.fences_inside []
             (Scenario.request Scenario.job Scenario.cv_pdf) Scenario.uploads in
  strip_leading_trailing_fences raw = raw
  /\ get (Some (Scenario.parsed raw)) "summary"
     = Ok (str "Documents APIs in Markdown, examples in ``` blocks.")
  /\ status (response o) = 200%Z
  /\ exists cvData,
       trace (final o) !! 5%nat = Some (JSONParse (trim (replace_all fences raw)) (Some cvData))
       /\ get (Some cvData) "summary"
          = Ok (str "Documents APIs in Markdown, examples in  blocks.").
Proof.
  split; [vm_compute; reflexivity |].
  split; [vm_compute; reflexivity |].
  split; [vm_compute; reflexivity |].
  eexists. split; vm_compute; reflexivity.
Qed.

(** C4, amended. The handler removes every occurrence of the markers
    [```json] and [```] from the model's answer, wherever it stands,
    trims the result and hands it to [JSON.parse].  If the parser
    throws, the request is answered 500 with the parser's message and
    nothing stands in for the résumé: no task is started and [results]
    is empty.  If the parser returns, the rest of the handler runs on
    the value it returned. *)
Theorem resume_answer_is_cleaned_then_parsed (env : Env) (schedule : list Kind)
    (req : Request) (uploads : gmap string Buffer)
    (options : JSON) (cvFile : File) (cvContent raw : string) :
  Answered env req uploads options cvFile cvContent raw ->
  match JSON_parse env (trim (replace_all fences raw)) with
  | inl msg =>
      response (handler env schedule req uploads)
      = {| status := 500; body := Failure msg |}
      /\ trace (final (handler env schedule req uploads))
         = answered_trace env req options cvFile cvContent
           ++ [JSONParse (trim (replace_all fences raw)) None]
      /\ results (final (handler env schedule req uploads)) = no_results
  | inr cvData =>
      handler env schedule req uploads
      = answer
          (fan_out env schedule options cvData cvFile cvContent
             (field_text (body_jobDescription req)) raw
             {| files := uploads;
                trace := answered_trace env req options cvFile cvContent
                         ++ [JSONParse (trim (replace_all fences raw)) (Some cvData)];
                results := no_results |})
  end.
Proof.
  intros Ha. unfold handler.
  rewrite (tailor_cv_answered env schedule req uploads _ _ _ _ Ha).
  destruct (JSON_parse env (trim (replace_all fences raw))) as [msg|cvData] eqn:Hp.
  - erewrite bind_throw by (rewrite call_JSON_parse_runs, Hp; reflexivity).
    simpl. repeat split.
  - erewrite bind_ok by (rewrite call_JSON_parse_runs, Hp; reflexivity).
    reflexivity.
Qed.

(** The run in which the model answers in prose got as far as the
    model's answer. *)
Lemma prose_answer_answered :
  Answered Scenario.prose_answer (Scenario.request Scenario.job Scenario.cv_docx)
    Scenario.uploads (Scenario.parsed Scenario.cv_docx) Scenario.jane_upload
    "Jane Doe, jane@x.com, 555-1234, Boston" "I am sorry, I cannot help with that.".
Proof.
  constructor.
  - vm_compute. reflexivity.
  - reflexivity.
  - exists Scenario.upload_bytes. split; vm_compute; reflexivity.
  - vm_compute. reflexivity.
Defined.

Lemma resume_answer_is_cleaned_then_parsed_witness :
  response (handler Scenario.prose_answer []
              (Scenario.request Scenario.job Scenario.cv_docx) Scenario.uploads)
  = {| status := 500;
       body := Failure (q "~I am sorry, I cannot help with that.~ is not valid JSON") |}.
Proof.
  pose proof (resume_answer_is_cleaned_then_parsed Scenario.prose_answer []
                (Scenario.request Scenario.job Scenario.cv_docx) Scenario.uploads
                _ _ _ _ prose_answer_answered) as H.
  vm_compute in H. destruct H as (H & _). vm_compute. exact H.
Defined.
End Cleaning.

Section Answers.
Import JS Base64 Server.

Lemma answered_trace_quiet (env : Env) (req : Request) (options : JSON) (cvFile : File)
    (cvContent : string) :
  quiet (answered_trace env req options cvFile cvContent).
Proof. repeat constructor. Qed.

(** Whatever is thrown in the [try] block, and whatever failure the
    trace of a request records (of the read of the upload, of the
    extraction, of a parse, of a completion call, of a rendering, of the
    removal), the answer is one body of status 500 that holds a message
    and nothing else. *)
Lemma recorded_failure_is_answered_500 (env : Env) (schedule : list Kind) (req : Request)
    (uploads : gmap string Buffer) :
  (exists x st, tailor_cv env schedule req (entered uploads) = (Throw x, st))
  \/ (exists ev, ev ∈ trace (final (handler env schedule req uploads))
                 /\ failed ev = true) ->
  exists msg,
    response (handler env schedule req uploads)
    = {| status := 500; body := Failure msg |}.
Proof.
  intros Hfail.
  destruct (handler_spec env schedule req uploads)
    as [(options & cvFile & cvContent & raw & cvData & name & format & tail
         & Ha & _ & _ & _ & Hr & _ & _ & _ & Htr & Hq & _)
       |(x & _ & Hr & _)]; [exfalso | eexists; exact Hr].
  destruct Hfail as [(x & st & Hthrow)|(ev & Hev & Hbad)].
  - unfold handler in Hr. rewrite Hthrow in Hr. discriminate.
  - rewrite Htr in Hev.
    assert (Hall : quiet (answered_trace env req options cvFile cvContent
                          ++ [JSONParse (trim (replace_all fences raw)) (Some cvData)]
                          ++ tail ++ [Unlinked (path cvFile) true])).
    { repeat apply quiet_app; try assumption; repeat constructor. }
    unfold quiet in Hall. rewrite Forall_forall in Hall.
    rewrite (Hall ev Hev) in Hbad. discriminate.
Qed.

(** C7. The documents of a successful answer are those of the kinds
    that [options] selects and of no other kind, and the file name of
    each is the candidate's full name, then the suffix of its kind,
    then the format asked for, the name and the format as the template
    literal converts them to strings. *)
Theorem documents_match_selection (env : Env) (schedule : list Kind) (req : Request)
    (uploads : gmap string Buffer) (docs : Results) :
  response (handler env schedule req uploads) = {| status := 200; body := Success docs |} ->
  exists options cvFile cvContent raw cvData candidateName format,
    Answered env req uploads options cvFile cvContent raw
    /\ JSON_parse env (trim (replace_all fences raw)) = inr cvData
    /\ candidate_name cvData = Ok candidateName
    /\ get (Some options) "format" = Ok format
    /\ forall k,
         if selects env options k
         then exists e,
                entry k docs = Some e
                /\ file_name env candidateName format k = Ok (fileName e)
         else entry k docs = None.
Proof.
  intros Hres.
  destruct (success_inv env schedule req uploads docs Hres)
    as (options & cvFile & cvContent & raw & cvData & name & format & tail
        & Ha & Hp & Hn & Hf & Hk & _).
  exists options, cvFile, cvContent, raw, cvData, name, format.
  split; [exact Ha |]. split; [exact Hp |]. split; [exact Hn |]. split; [exact Hf |].
  intros k. specialize (Hk k). destruct (selects env options k); [|exact Hk].
  destruct Hk as (e & He & Hname & _). exists e. split; assumption.
Qed.

(** Where the name and the format are strings, they stand in the file
    name as they are. *)
Lemma tpl_str (env : Env) (s : string) : tpl env (str s) = Ok s.
Proof. reflexivity. Qed.

Lemma documents_match_selection_witness :
  let o := handler Scenario.all_well [Email; CV]
             (Scenario.request Scenario.job Scenario.all_pdf) Scenario.uploads in
  response o = {| status := 200; body := Success (results (final o)) |}
  /\ option_map fileName (cv (results (final o))) = Some "Jane Doe_CV.pdf"
  /\ option_map fileName (coverLetter (results (final o)))
     = Some "Jane Doe_Cover_Letter.pdf"
  /\ option_map fileName (email (results (final o))) = Some "Jane Doe_Email.pdf"
  /\ exists options cvFile cvContent raw cvData candidateName format,
       Answered Scenario.all_well (Scenario.request Scenario.job Scenario.all_pdf)
         Scenario.uploads options cvFile cvContent raw
       /\ JSON_parse Scenario.all_well (trim (replace_all fences raw)) = inr cvData
       /\ candidate_name cvData = Ok candidateName
       /\ get (Some options) "format" = Ok format
       /\ forall k,
            if selects Scenario.all_well options k
            then exists e,
                   entry k (results (final o)) = Some e
                   /\ file_name Scenario.all_well candidateName format k
                      = Ok (fileName e)
            else entry k (results (final o)) = None.
Proof.
  intros o.
  split; [vm_compute; reflexivity |].
  split; [vm_compute; reflexivity |].
  split; [vm_compute; reflexivity |].
  split; [vm_compute; reflexivity |].
  apply (documents_match_selection Scenario.all_well [Email; CV]
           (Scenario.request Scenario.job Scenario.all_pdf) Scenario.uploads).
  vm_compute. reflexivity.
Defined.

(** C10. In a successful answer with the CV selected, the preview of the
    CV is the text the model sent in answer to the résumé prompt,
    character for character: not the text that was parsed, and not a
    rendering of the parsed value. *)
Theorem cv_preview_is_raw_answer (env : Env) (schedule : list Kind) (req : Request)
    (uploads : gmap string Buffer) (docs : Results) :
  response (handler env schedule req uploads) = {| status := 200; body := Success docs |} ->
  exists options cvFile cvContent raw,
    Answered env req uploads options cvFile cvContent raw
    /\ (selects env options CV = true ->
        exists e, cv docs = Some e /\ preview e = raw).
Proof.
  intros Hres.
  destruct (success_inv env schedule req uploads docs Hres)
    as (options & cvFile & cvContent & raw & cvData & name & format & tail
        & Ha & _ & _ & _ & Hk & _).
  exists options, cvFile, cvContent, raw. split; [exact Ha |].
  intros Hsel. specialize (Hk CV). rewrite Hsel in Hk.
  destruct Hk as (e & He & _ & _ & Hpreview). exists e. split; assumption.
Qed.

Lemma cv_preview_is_raw_answer_witness :
  let o := handler Scenario.all_well []
             (Scenario.request Scenario.job Scenario.cv_docx) Scenario.uploads in
  response o = {| status := 200; body := Success (results (final o)) |}
  /\ option_map preview (cv (results (final o))) = Some Scenario.fenced_resume
  /\ Scenario.fenced_resume <> trim (replace_all fences Scenario.fenced_resume)
  /\ exists options cvFile cvContent raw,
       Answered Scenario.all_well (Scenario.request Scenario.job Scenario.cv_docx)
         Scenario.uploads options cvFile cvContent raw
       /\ (selects Scenario.all_well options CV = true ->
           exists e, cv (results (final o)) = Some e /\ preview e = raw).
Proof.
  intros o.
  split; [vm_compute; reflexivity |].
  split; [vm_compute; reflexivity |].
  split; [vm_compute; discriminate |].
  apply (cv_preview_is_raw_answer Scenario.all_well []
           (Scenario.request Scenario.job Scenario.cv_docx) Scenario.uploads).
  vm_compute. reflexivity.
Defined.
End Answers.

Section Order.
Import JS Base64 Server.
Variable env : Env.
Variable schedule : list Kind.
Variable req : Request.
Variable uploads : gmap string Buffer.




End Order.

Section Order_witness.
Import JS Base64 Server.



(** A candidate whose name no template literal can convert: the prompts
    of the cover letter and of the email are never built, the model is
    asked for the résumé and for nothing else, and the answer is the
    message of the conversion. *)
Example unnameable_candidate_is_asked_nothing_more :
  let o := handler Scenario.unnameable [CV; CoverLetter; Email]
             (Scenario.request Scenario.job Scenario.all_pdf) Scenario.uploads in
  response o
  = {| status := 500; body := Failure "Cannot convert object to primitive value" |}
  /\ Notions.sent (trace (final o))
     = [tailoredCV_request Scenario.unnameable
          "Jane Doe, jane@x.com, 555-1234, Boston" Scenario.job].
Proof. vm_compute. split; reflexivity. Qed.
End Order_witness.

(* ===================================================================== *)
(** * The cleaning of the model's answer *)
(* ===================================================================== *)

Section Strings.
Import JS.

Lemma append_cons (c : ascii) (s t : string) : String c s +:+ t = String c (s +:+ t).
Proof. reflexivity. Qed.

Lemma append_nil_l (s : string) : "" +:+ s = s.
Proof. reflexivity. Qed.

Lemma append_nil_r (s : string) : s +:+ "" = s.
Proof.
  induction s as [|c s IH]; [reflexivity |]. rewrite append_cons, IH. reflexivity.
Qed.

Lemma append_assoc (s t u : string) : (s +:+ t) +:+ u = s +:+ (t +:+ u).
Proof.
  induction s as [|c s IH]; [reflexivity |]. rewrite !append_cons, IH. reflexivity.
Qed.

Lemma string_rev_append (s t : string) :
  string_rev (s +:+ t) = string_rev t +:+ string_rev s.
Proof.
  induction s as [|c s IH].
  - rewrite append_nil_l. simpl. rewrite append_nil_r. reflexivity.
  - rewrite append_cons. simpl. rewrite IH, append_assoc. reflexivity.
Qed.

Lemma string_rev_involutive (s : string) : string_rev (string_rev s) = s.
Proof.
  induction s as [|c s IH]; simpl; [reflexivity |].
  rewrite string_rev_append, IH. reflexivity.
Qed.

Lemma length_append (s t : string) :
  String.length (s +:+ t) = String.length s + String.length t.
Proof.
  induction s as [|c s IH]; [reflexivity |]. rewrite append_cons. simpl.
  rewrite IH. reflexivity.
Qed.

(** [drop_leading] removes a prefix. *)
Lemma drop_leading_suffix (units : list string) (s : string) :
  forall skip, exists p, s = p +:+ drop_leading units skip s.
Proof.
  induction s as [|c s IH]; intros skip; simpl.
  - exists "". reflexivity.
  - destruct skip as [|n].
    + destruct (first_match units (String c s)) as [[|n]|].
      * exists "". reflexivity.
      * destruct (IH n) as [p Hp]. exists (String c p). rewrite append_cons, <- Hp. reflexivity.
      * exists "". reflexivity.
    + destruct (IH n) as [p Hp]. exists (String c p). rewrite append_cons, <- Hp. reflexivity.
Qed.

(** What [drop_leading] returns has nothing left to drop. *)
Lemma drop_leading_idempotent (units : list string) (s : string) :
  forall skip,
    drop_leading units 0 (drop_leading units skip s) = drop_leading units skip s.
Proof.
  induction s as [|c s IH]; intros skip; [reflexivity |].
  destruct skip as [|n]; [|apply IH].
  simpl. destruct (first_match units (String c s)) as [[|n]|] eqn:E.
  - simpl. rewrite E. reflexivity.
  - apply IH.
  - simpl. rewrite E. reflexivity.
Qed.

(** [trim] keeps a part of the text, in one piece. *)
Lemma trim_substring (s : string) : exists p q, s = p +:+ trim s +:+ q.
Proof.
  unfold trim, trimEnd.
  destruct (drop_leading_suffix white_space s 0) as [p Hp]. fold (trimStart s) in Hp.
  destruct (drop_leading_suffix (List.map string_rev white_space) (string_rev (trimStart s)) 0)
    as [q Hq].
  exists p, (string_rev q).
  rewrite <- string_rev_append, <- Hq, string_rev_involutive. exact Hp.
Qed.
End Strings.

Section Fences.
Import JS Server Notions.

Lemma prefix_cons (a b : ascii) (p s : string) :
  String.prefix (String a p) (String b s)
  = if Ascii.eqb a b then String.prefix p s else false.
Proof.
  simpl. destruct (ascii_dec a b) as [->|Hne].
  - rewrite Ascii.eqb_refl. reflexivity.
  - apply Ascii.eqb_neq in Hne. rewrite Hne. reflexivity.
Qed.

Lemma prefix_nil (s : string) : String.prefix "" s = true.
Proof. destruct s; reflexivity. Qed.

(** Both markers begin with three backticks. *)
Lemma first_match_fences (s : string) :
  first_match fences s
  = if String.prefix "```json" s then Some 7
    else if String.prefix "```" s then Some 3 else None.
Proof. reflexivity. Qed.

Lemma prefix_json_fence (s : string) :
  String.prefix "```json" s = true -> String.prefix "```" s = true.
Proof.
  destruct s as [|c1 [|c2 [|c3 s]]]; rewrite ?prefix_cons;
    try (destruct (Ascii.eqb "`" c1)); try (destruct (Ascii.eqb "`" c2));
    try (destruct (Ascii.eqb "`" c3)); try (simpl; discriminate).
  intros _. apply prefix_nil.
Qed.

Lemma no_fence_no_match (s : string) :
  String.prefix "```" s = false -> first_match fences s = None.
Proof.
  intros H. rewrite first_match_fences, H.
  destruct (String.prefix "```json" s) eqn:E; [|reflexivity].
  apply prefix_json_fence in E. congruence.
Qed.

Lemma match_is_fence (s : string) :
  String.prefix "```" s = true ->
  exists n, first_match fences s = Some (S n).
Proof.
  intros H. rewrite first_match_fences, H.
  destruct (String.prefix "```json" s); eexists; reflexivity.
Qed.

Lemma remove_matches_cons (alternatives : list string) (c : ascii) (rest : string) :
  remove_matches alternatives 0 (String c rest)
  = match first_match alternatives (String c rest) with
    | Some (S n) => remove_matches alternatives n rest
    | _ => String c (remove_matches alternatives 0 rest)
    end.
Proof. reflexivity. Qed.

(** Where the text does not go on with two backticks, neither does what is
    left of it. *)
Lemma remove_matches_two_backticks (t : string) :
  String.prefix "``" t = false ->
  String.prefix "``" (remove_matches fences 0 t) = false.
Proof.
  destruct t as [|c r]; [reflexivity |].
  rewrite prefix_cons. destruct (Ascii.eqb "`" c) eqn:Ec.
  - intros Hr.
    assert (H3 : String.prefix "```" (String c r) = false).
    { rewrite prefix_cons, Ec. destruct r as [|d r']; [reflexivity |].
      rewrite prefix_cons. rewrite prefix_cons, prefix_nil in Hr.
      destruct (Ascii.eqb "`" d); [discriminate | reflexivity]. }
    rewrite remove_matches_cons, (no_fence_no_match _ H3).
    rewrite prefix_cons, Ec.
    destruct r as [|d r']; [reflexivity |].
    rewrite prefix_cons, prefix_nil in Hr.
    destruct (Ascii.eqb "`" d) eqn:Ed; [discriminate |].
    assert (H3' : String.prefix "```" (String d r') = false)
      by (rewrite prefix_cons, Ed; reflexivity).
    rewrite remove_matches_cons, (no_fence_no_match _ H3').
    rewrite prefix_cons, Ed. reflexivity.
  - intros _.
    assert (H3 : String.prefix "```" (String c r) = false)
      by (rewrite prefix_cons, Ec; reflexivity).
    rewrite remove_matches_cons, (no_fence_no_match _ H3).
    rewrite prefix_cons, Ec. reflexivity.
Qed.

(** Removing the markers from left to right leaves no marker behind:
    what remains of backticks around a removed marker never adds up to
    three. *)
Lemma remove_matches_no_fence (s : string) :
  forall skip, has_fence (remove_matches fences skip s) = false.
Proof.
  induction s as [|c s IH]; intros skip; [reflexivity |].
  destruct skip as [|n]; [|apply IH].
  rewrite remove_matches_cons.
  destruct (String.prefix "```" (String c s)) eqn:E.
  - destruct (match_is_fence _ E) as [n ->]. apply IH.
  - rewrite (no_fence_no_match _ E).
    change (String.prefix "```" (String c (remove_matches fences 0 s))
            || has_fence (remove_matches fences 0 s) = false).
    rewrite IH, orb_false_r.
    rewrite prefix_cons in E. rewrite prefix_cons.
    destruct (Ascii.eqb "`" c); [|reflexivity].
    apply remove_matches_two_backticks, E.
Qed.

Lemma has_fence_occurrence (s : string) :
  has_fence s = false -> forall a b, s <> a +:+ "```" +:+ b.
Proof.
  intros H a. revert s H. induction a as [|c a IH]; intros s H b E.
  - rewrite append_nil_l in E. subst s.
    change (String.prefix "```" ("```" +:+ b) || has_fence ("``" +:+ b) = false) in H.
    apply orb_false_elim in H as [H _].
    change (String.prefix "" b = false) in H. rewrite prefix_nil in H. discriminate.
  - rewrite append_cons in E. subst s.
    change (String.prefix "```" (String c (a +:+ "```" +:+ b))
            || has_fence (a +:+ "```" +:+ b) = false) in H.
    apply orb_false_elim in H as [_ H]. exact (IH _ H b eq_refl).
Qed.

Lemma occurrence_has_fence (s : string) :
  (forall a b, s <> a +:+ "```" +:+ b) -> has_fence s = false.
Proof.
  induction s as [|c s IH]; intros H; [reflexivity |].
  change (String.prefix "```" (String c s) || has_fence s = false).
  apply orb_false_intro.
  - destruct (String.prefix "```" (String c s)) eqn:E; [|reflexivity].
    exfalso. rewrite prefix_cons in E.
    destruct (Ascii.eqb_spec "`" c) as [<-|]; [|discriminate].
    destruct s as [|c2 s]; [discriminate E |]. rewrite prefix_cons in E.
    destruct (Ascii.eqb_spec "`" c2) as [<-|]; [|discriminate].
    destruct s as [|c3 s]; [discriminate E |]. rewrite prefix_cons in E.
    destruct (Ascii.eqb_spec "`" c3) as [<-|]; [|discriminate].
    apply (H "" s). reflexivity.
  - apply IH. intros a b E. apply (H (String c a) b). rewrite append_cons, E. reflexivity.
Qed.

Lemma fence_free_substring (s p t q : string) :
  has_fence s = false -> s = p +:+ t +:+ q -> has_fence t = false.
Proof.
  intros H Hs. apply occurrence_has_fence. intros a b E. subst t.
  apply (has_fence_occurrence _ H (p +:+ a) (b +:+ q)).
  rewrite Hs, !append_assoc. reflexivity.
Qed.
End Fences.

Section Trimming.
Import JS Server Notions.

Lemma length_drop_leading (units : list string) (s : string) (skip : nat) :
  String.length (drop_leading units skip s) <= String.length s.
Proof.
  destruct (drop_leading_suffix units s skip) as [p Hp].
  rewrite Hp at 2. rewrite length_append. lia.
Qed.

Lemma prefix_append (u p r : string) :
  String.prefix u p = true -> String.prefix u (p +:+ r) = true.
Proof.
  revert p. induction u as [|a u IH]; intros p H; [apply prefix_nil |].
  destruct p as [|b p]; [discriminate H |].
  rewrite append_cons, prefix_cons. rewrite prefix_cons in H.
  destruct (Ascii.eqb a b); [apply IH, H | discriminate H].
Qed.

(** A unit that matches at the head of a text still does when the text
    goes on. *)
Lemma first_match_append (units : list string) (p r : string) (n : nat) :
  Forall (fun u => u <> "") units ->
  first_match units p = Some n ->
  exists m, first_match units (p +:+ r) = Some (S m).
Proof.
  intros Hne. induction units as [|u units IH]; [discriminate |].
  inversion Hne as [|? ? Hu Hrest]; subst. simpl.
  destruct (String.prefix u (p +:+ r)) eqn:E.
  - intros _. destruct u as [|a u]; [contradiction |]. eexists. reflexivity.
  - destruct (String.prefix u p) eqn:E'; [|apply IH, Hrest].
    rewrite (prefix_append _ _ r E') in E. discriminate E.
Qed.

Lemma drop_leading_cons (units : list string) (c : ascii) (rest : string) :
  drop_leading units 0 (String c rest)
  = match first_match units (String c rest) with
    | Some (S n) => drop_leading units n rest
    | _ => String c rest
    end.
Proof. reflexivity. Qed.

Lemma white_space_units : Forall (fun u => u <> "") white_space.
Proof. repeat constructor; discriminate. Qed.

Lemma trimStart_idempotent (s : string) : trimStart (trimStart s) = trimStart s.
Proof. apply drop_leading_idempotent. Qed.

Lemma trimEnd_idempotent (s : string) : trimEnd (trimEnd s) = trimEnd s.
Proof.
  unfold trimEnd. rewrite string_rev_involutive, drop_leading_idempotent. reflexivity.
Qed.

Lemma trimEnd_prefix (s : string) : exists r, s = trimEnd s +:+ r.
Proof.
  unfold trimEnd.
  destruct (drop_leading_suffix (List.map string_rev white_space) (string_rev s) 0) as [p Hp].
  exists (string_rev p).
  rewrite <- string_rev_append, <- Hp, string_rev_involutive. reflexivity.
Qed.

(** A text that does not begin with white space has no prefix that
    does. *)
Lemma trimStart_prefix (p r : string) :
  trimStart (p +:+ r) = p +:+ r -> trimStart p = p.
Proof.
  intros H. destruct p as [|c p]; [reflexivity |].
  unfold trimStart in *. rewrite append_cons, drop_leading_cons in H.
  rewrite drop_leading_cons.
  destruct (first_match white_space (String c p)) as [[|n]|] eqn:E; try reflexivity.
  exfalso.
  destruct (first_match_append white_space (String c p) r _ white_space_units E) as [m Hm].
  rewrite append_cons in Hm. rewrite Hm in H.
  pose proof (length_drop_leading white_space (p +:+ r) m) as Hlen.
  rewrite H in Hlen. simpl in Hlen. lia.
Qed.

Lemma trim_idempotent (s : string) : trim (trim s) = trim s.
Proof.
  unfold trim.
  destruct (trimEnd_prefix (trimStart s)) as [r Hr].
  assert (H : trimStart (trimEnd (trimStart s)) = trimEnd (trimStart s)).
  { apply (trimStart_prefix _ r). rewrite <- Hr. apply trimStart_idempotent. }
  rewrite H. apply trimEnd_idempotent.
Qed.
End Trimming.

Section Cleaning_twice.
Import JS Server Notions.

(** Where no marker occurs nothing is removed. *)
Lemma replace_all_no_fence (s : string) :
  has_fence s = false -> replace_all fences s = s.
Proof.
  unfold replace_all. induction s as [|c s IH]; intros H; [reflexivity |].
  change (String.prefix "```" (String c s) || has_fence s = false) in H.
  apply orb_false_elim in H as [H1 H2].
  rewrite remove_matches_cons, (no_fence_no_match _ H1), (IH H2). reflexivity.
Qed.

Lemma cleaned_no_fence (raw : string) : has_fence (cleaned raw) = false.
Proof.
  unfold cleaned.
  destruct (trim_substring (replace_all fences raw)) as (p & q & Hs).
  exact (fence_free_substring _ _ _ _ (remove_matches_no_fence raw 0) Hs).
Qed.

(** X1. Whatever the model answered, the text the handler passes to
    [JSON.parse] holds no code-fence marker: three backticks in a row
    occur nowhere in it. *)
Theorem cleaned_answer_has_no_fence (raw a b : string) :
  cleaned raw <> a +:+ "```" +:+ b.
Proof. apply has_fence_occurrence, cleaned_no_fence. Qed.

(** X2. Cleaning is idempotent: a text that has been cleaned is left as it
    is by a second cleaning. *)
Theorem cleaning_twice_is_cleaning_once (raw : string) :
  cleaned (cleaned raw) = cleaned raw.
Proof.
  unfold cleaned at 1.
  rewrite (replace_all_no_fence _ (cleaned_no_fence raw)).
  unfold cleaned. apply trim_idempotent.
Qed.
End Cleaning_twice.

Section Fenced_answer.
Import JS Server Notions.

(** A text without a backtick goes through the removal as it is. *)
Lemma remove_matches_plain (j rest : string) :
  has_backtick j = false ->
  remove_matches fences 0 (j +:+ rest) = j +:+ remove_matches fences 0 rest.
Proof.
  induction j as [|c j IH]; intros H; [reflexivity |].
  simpl in H. apply orb_false_elim in H as [Hc Hj].
  rewrite !append_cons, remove_matches_cons.
  assert (E : String.prefix "```" (String c (j +:+ rest)) = false).
  { rewrite prefix_cons, Ascii.eqb_sym, Hc. reflexivity. }
  rewrite (no_fence_no_match _ E), (IH Hj). reflexivity.
Qed.

Ltac bits x := destruct x as [[] [] [] [] [] [] [] []].

(** No unit of white space goes on with a line feed: whether a unit
    matches at a character does not depend on a line feed put after the
    text. *)
Lemma first_match_before_line_feed (a : ascii) (y : string) :
  first_match white_space (String a (y +:+ nl))
  = first_match white_space (String a y).
Proof.
  destruct y as [|b [|c [|d y]]].
  - bits a; vm_compute; reflexivity.
  - bits a; try (vm_compute; reflexivity); bits b; vm_compute; reflexivity.
  - bits a; try (vm_compute; reflexivity);
      bits b; try (vm_compute; reflexivity);
      bits c; vm_compute; reflexivity.
  - rewrite !append_cons.
    bits a; try (vm_compute; reflexivity);
      bits b; try (vm_compute; reflexivity);
      bits c; vm_compute; reflexivity.
Qed.

(** Dropping the leading white space of a text followed by a line feed:
    either the line feed stays behind the rest of the text, or the whole
    was white space. *)
Lemma drop_leading_line_feed (y : string) :
  forall skip,
    drop_leading white_space skip (y +:+ nl) = drop_leading white_space skip y +:+ nl
    \/ (drop_leading white_space skip y = ""
        /\ drop_leading white_space skip (y +:+ nl) = "").
Proof.
  induction y as [|a y IH]; intros skip.
  - right. destruct skip; split; reflexivity.
  - rewrite append_cons. destruct skip as [|n]; [|apply IH].
    rewrite !drop_leading_cons, first_match_before_line_feed.
    destruct (first_match white_space (String a y)) as [[|n]|].
    + left. reflexivity.
    + apply IH.
    + left. reflexivity.
Qed.

Lemma trimEnd_line_feed (z : string) : trimEnd (z +:+ nl) = trimEnd z.
Proof.
  unfold trimEnd. rewrite string_rev_append.
  set (w := string_rev z). change (string_rev nl +:+ w) with (String "010" w).
  rewrite drop_leading_cons.
  replace (first_match (List.map string_rev white_space) (String "010" w)) with (Some 1)
    by (destruct w; reflexivity).
  reflexivity.
Qed.

Lemma trimStart_line_feed (z : string) : trimStart (nl +:+ z) = trimStart z.
Proof.
  unfold trimStart. change (nl +:+ z) with (String "010" z).
  rewrite drop_leading_cons.
  replace (first_match white_space (String "010" z)) with (Some 1)
    by (destruct z; reflexivity).
  reflexivity.
Qed.

(** A line feed before and one after a text do not change what [trim]
    makes of it. *)
Lemma trim_between_line_feeds (j : string) : trim (nl +:+ j +:+ nl) = trim j.
Proof.
  unfold trim. rewrite trimStart_line_feed. unfold trimStart.
  destruct (drop_leading_line_feed j 0) as [->|[-> ->]].
  - apply trimEnd_line_feed.
  - reflexivity.
Qed.

(** X3. The three forms in which a model sends JSON that holds no backtick
    (in a block fenced with the marker that names the language, in a
    block fenced with the plain marker, or bare) are cleaned to the same
    text: the JSON itself, trimmed. *)
Theorem fenced_answer_is_unwrapped (j : string) :
  has_backtick j = false ->
  cleaned ("```json" +:+ nl +:+ j +:+ nl +:+ "```") = trim j
  /\ cleaned ("```" +:+ nl +:+ j +:+ nl +:+ "```") = trim j
  /\ cleaned j = trim j.
Proof.
  intros H. unfold cleaned, replace_all.
  assert (Hbody : remove_matches fences 0 (nl +:+ j +:+ nl +:+ "```") = nl +:+ j +:+ nl).
  { change (String "010" (remove_matches fences 0 (j +:+ nl +:+ "```")) = nl +:+ j +:+ nl).
    rewrite (remove_matches_plain _ _ H). reflexivity. }
  split; [|split].
  - change (trim (remove_matches fences 0 (nl +:+ j +:+ nl +:+ "```")) = trim j).
    rewrite Hbody. apply trim_between_line_feeds.
  - change (trim (remove_matches fences 0 (nl +:+ j +:+ nl +:+ "```")) = trim j).
    rewrite Hbody. apply trim_between_line_feeds.
  - rewrite <- (append_nil_r j) at 1. rewrite (remove_matches_plain _ _ H).
    change (remove_matches fences 0 "") with "". rewrite append_nil_r. reflexivity.
Qed.

Lemma fenced_answer_is_unwrapped_witness :
  has_backtick Scenario.resume_json = false
  /\ cleaned ("```json" +:+ nl +:+ Scenario.resume_json +:+ nl +:+ "```")
     = trim Scenario.resume_json
  /\ cleaned ("```" +:+ nl +:+ Scenario.resume_json +:+ nl +:+ "```")
     = trim Scenario.resume_json
  /\ cleaned Scenario.resume_json = trim Scenario.resume_json.
Proof.
  split; [vm_compute; reflexivity |].
  apply (fenced_answer_is_unwrapped Scenario.resume_json). vm_compute. reflexivity.
Defined.
End Fenced_answer.

(* ===================================================================== *)
(** * The two renderers of the résumé *)
(* ===================================================================== *)

Section Renderers_agree.
Import JS Base64 Server Notions.
Variable env : Env.

Lemma docx_texts_app (ps qs : list Paragraph) :
  docx_texts (ps ++ qs) = docx_texts ps ++ docx_texts qs.
Proof. unfold docx_texts. rewrite map_app, concat_app. reflexivity. Qed.

Lemma pdf_texts_app (cs ds : list PdfCall) :
  pdf_texts (cs ++ ds) = pdf_texts cs ++ pdf_texts ds.
Proof. unfold pdf_texts. apply omap_app. Qed.

(** The steps of an executor. *)
Lemma bind_eval {A B} (r : Res A) (f : A -> Executor B) (calls : list PdfCall) :
  (eval r ≫= f) calls
  = match r with
    | Ok a => f a calls
    | Throw e => (Throw e, calls)
    end.
Proof. destruct r; reflexivity. Qed.

Lemma bind_doc_calls {B} (cs : list PdfCall) (f : unit -> Executor B) (calls : list PdfCall) :
  (doc_calls cs ≫= f) calls = f () (calls ++ cs).
Proof. reflexivity. Qed.

Lemma bind_doc_text {B} (t : Value) (options : TextOptions) (f : unit -> Executor B)
    (calls : list PdfCall) :
  (doc_text env t options ≫= f) calls
  = match (match t with
           | Some (JStr _) => Ok ()
           | _ => PDFDocument_text env t options
           end) with
    | Ok u => f u (calls ++ [Text t options])
    | Throw e => (Throw e, calls ++ [Text t options])
    end.
Proof.
  unfold doc_text, mbind, Executor_bind.
  destruct (match t with Some (JStr _) => Ok () | _ => PDFDocument_text env t options end);
    reflexivity.
Qed.

Lemma bind_executor {A B} (m : Executor A) (f : A -> Executor B) (calls : list PdfCall) :
  (m ≫= f) calls
  = match m calls with
    | (Ok a, calls') => f a calls'
    | (Throw e, calls') => (Throw e, calls')
    end.
Proof. reflexivity. Qed.

(** The run that a constructor returns has the text it was given. *)
Lemma new_TextRun_text (options r : TextRun) :
  new_TextRun env options = Ok r -> r = options.
Proof.
  unfold new_TextRun.
  destruct (text options) as [[]|]; simpl;
    try (destruct (TextRun_new env options); simpl; [|discriminate]);
    intros H; injection H as <-; reflexivity.
Qed.

(** Element by element over an array: [texts] gives the texts of what
    the DOCX renderer builds for one element. *)
Lemma loops_agree {P} (texts : P -> list Value) (f : Value -> Res P)
    (g : Value -> Executor unit) (items : list Value) :
  (forall v calls0 p calls1,
      f v = Ok p -> g v calls0 = (Ok (), calls1) ->
      pdf_texts calls1 = pdf_texts calls0 ++ texts p) ->
  forall calls0 ps calls1,
    mapM f items = Ok ps ->
    for_each g items calls0 = (Ok (), calls1) ->
    pdf_texts calls1 = pdf_texts calls0 ++ concat (List.map texts ps).
Proof.
  intros Hfg. induction items as [|v items IH]; intros calls0 ps calls1 Hd Hp.
  - injection Hd as <-. injection Hp as <-. symmetry. apply app_nil_r.
  - change (mapM f (v :: items)) with (y ← f v; k ← mapM f items; Ok (y :: k)) in Hd.
    change (for_each g (v :: items)) with (_ ← g v; for_each g items) in Hp.
    rewrite bind_executor in Hp.
    destruct (f v) as [p|x] eqn:Ef; [|discriminate Hd].
    destruct (g v calls0) as [[[]|x] calls2] eqn:Eg; [|discriminate Hp].
    change (Ok p ≫= _) with (k ← mapM f items; Ok (p :: k)) in Hd.
    destruct (mapM f items) as [rest|x]; [|discriminate Hd].
    injection Hd as <-.
    rewrite (IH _ _ _ eq_refl Hp), (Hfg _ _ _ _ Ef Eg).
    simpl. rewrite <- app_assoc. reflexivity.
Qed.

Lemma docx_texts_concat (pss : list (list Paragraph)) :
  docx_texts (concat pss) = concat (List.map docx_texts pss).
Proof.
  induction pss as [|ps pss IH]; [reflexivity |].
  simpl. rewrite docx_texts_app, IH. reflexivity.
Qed.

Lemma achievement_agree (ach : Value) (calls0 : list PdfCall) (p : Paragraph)
    (calls1 : list PdfCall) :
  docx_achievement env ach = Ok p ->
  pdf_achievement env ach calls0 = (Ok (), calls1) ->
  pdf_texts calls1 = pdf_texts calls0 ++ List.map text (children p).
Proof.
  unfold docx_achievement, pdf_achievement. rewrite bind_eval.
  destruct (tpl env ach) as [bullet|x]; [|discriminate].
  intros Hd Hp. injection Hd as <-. injection Hp as <-.
  apply pdf_texts_app.
Qed.

(** One step of the two renderers on an expression they share. *)
Local Tactic Notation "shared" hyp(Hd) hyp(Hp) constr(e) "as" ident(n) :=
  rewrite ?bind_doc_calls, bind_eval in Hp;
  destruct e as [n|?]; [|discriminate Hd];
  cbn [mbind Res_bind] in Hd.

(** One step on a value of the résumé that goes to the library as it
    is. *)
Ltac handed Hd Hp :=
  match type of Hd with
  | context [new_TextRun env ?o] =>
      let E := fresh "E" in
      let r := fresh "r" in
      destruct (new_TextRun env o) as [r|?] eqn:E; [|discriminate Hd];
      apply new_TextRun_text in E; subst r; cbn [mbind Res_bind] in Hd
  end;
  rewrite bind_doc_text in Hp;
  match type of Hp with
  | context [match ?c with Ok _ => _ | Throw _ => _ end] =>
      destruct c as [[]|?]; [|discriminate Hp]
  end.

Lemma jobs_agree_one (job : Value) (calls0 : list PdfCall) (ps : list Paragraph)
    (calls1 : list PdfCall) :
  docx_job env job = Ok ps ->
  pdf_job env job calls0 = (Ok (), calls1) ->
  pdf_texts calls1 = pdf_texts calls0 ++ docx_texts ps.
Proof.
  intros Hd Hp. unfold docx_job in Hd. unfold pdf_job in Hp.
  shared Hd Hp (get job "title") as title.
  handed Hd Hp.
  shared Hd Hp (get job "company") as company.
  handed Hd Hp.
  shared Hd Hp (get job "location") as location.
  shared Hd Hp (tpl env location) as location_text.
  shared Hd Hp (get job "dates") as dates.
  shared Hd Hp (tpl env dates) as dates_text.
  shared Hd Hp (get job "achievements") as achievements.
  shared Hd Hp (iterate "job.achievements" achievements) as achs.
  rewrite bind_executor in Hp.
  destruct (mapM (docx_achievement env) achs) as [bullets|x] eqn:Eb; [|discriminate Hd].
  injection Hd as <-.
  match type of Hp with
  | context [for_each _ achs ?c] =>
      destruct (for_each (pdf_achievement env) achs c) as [[[]|x] calls2] eqn:Ea;
      [|discriminate Hp]
  end.
  unfold doc_calls in Hp. injection Hp as <-.
  rewrite pdf_texts_app, (loops_agree _ _ _ _ achievement_agree _ _ _ Eb Ea).
  rewrite !pdf_texts_app. unfold docx_texts. simpl.
  rewrite ?app_nil_r, <- ?app_assoc. reflexivity.
Qed.

Lemma edus_agree_one (edu : Value) (calls0 : list PdfCall) (ps : list Paragraph)
    (calls1 : list PdfCall) :
  docx_edu env edu = Ok ps ->
  pdf_edu env edu calls0 = (Ok (), calls1) ->
  pdf_texts calls1 = pdf_texts calls0 ++ docx_texts ps.
Proof.
  intros Hd Hp. unfold docx_edu in Hd. unfold pdf_edu in Hp.
  shared Hd Hp (get edu "degree") as degree.
  handed Hd Hp.
  shared Hd Hp (get edu "institution") as institution.
  shared Hd Hp (tpl env institution) as institution_text.
  shared Hd Hp (get edu "dates") as dates.
  shared Hd Hp (tpl env dates) as dates_text.
  injection Hd as <-. unfold doc_calls in Hp. injection Hp as <-.
  rewrite !pdf_texts_app. unfold docx_texts. simpl.
  rewrite ?app_nil_r, <- ?app_assoc. reflexivity.
Qed.

(** X4. Whenever [generateCVDocx] and [generateCVPDF] both build their
    document from a value taken for the résumé, the texts of the runs of
    the DOCX document are the texts the PDF document is asked to draw, in
    the same order. *)
Theorem docx_and_pdf_carry_the_same_texts (cvData : Value)
    (paragraphs : list Paragraph) (calls : list PdfCall) :
  docx_children env cvData = Ok paragraphs ->
  pdf_calls env cvData = Ok calls ->
  docx_texts paragraphs = pdf_texts calls.
Proof.
  intros Hd Hp. unfold docx_children in Hd. unfold pdf_calls in Hp.
  destruct (executor env cvData []) as [[[]|x] made] eqn:He; [|discriminate Hp].
  injection Hp as <-. rename He into Hp. unfold executor, renderSectionHeader in Hp.
  shared Hd Hp (get cvData "personalInfo") as personalInfo.
  shared Hd Hp (get personalInfo "fullName") as fullName.
  shared Hd Hp (call_toUpperCase env "cvData.personalInfo.fullName" fullName) as name.
  shared Hd Hp (get personalInfo "email") as email.
  shared Hd Hp (tpl env email) as email_text.
  shared Hd Hp (get personalInfo "phone") as phone.
  shared Hd Hp (tpl env phone) as phone_text.
  shared Hd Hp (get personalInfo "location") as location.
  shared Hd Hp (tpl env location) as location_text.
  shared Hd Hp (get cvData "summary") as summary.
  handed Hd Hp.
  shared Hd Hp (get cvData "experience") as experience.
  shared Hd Hp (iterate "cvData.experience" experience) as jobs.
  rewrite bind_executor in Hp.
  destruct (mapM (docx_job env) jobs) as [job_paragraphs|x] eqn:Ej; [|discriminate Hd].
  cbn [mbind Res_bind] in Hd.
  match type of Hp with
  | context [for_each _ jobs ?c] =>
      destruct (for_each (pdf_job env) jobs c) as [[[]|x] calls2] eqn:Ejp;
      [|discriminate Hp]
  end.
  pose proof (loops_agree _ _ _ _ jobs_agree_one _ _ _ Ej Ejp) as Hjobs.
  shared Hd Hp (get cvData "skills") as skills.
  shared Hd Hp (call_join env "cvData.skills" skills "  •  ") as skill_line.
  shared Hd Hp (get cvData "education") as education.
  shared Hd Hp (iterate "cvData.education" education) as edus.
  rewrite bind_executor in Hp.
  destruct (mapM (docx_edu env) edus) as [edu_paragraphs|x] eqn:Ee; [|discriminate Hd].
  cbn [mbind Res_bind] in Hd.
  match type of Hp with
  | context [for_each _ edus ?c] =>
      destruct (for_each (pdf_edu env) edus c) as [[[]|x] calls3] eqn:Eep;
      [|discriminate Hp]
  end.
  pose proof (loops_agree _ _ _ _ edus_agree_one _ _ _ Ee Eep) as Hedus.
  unfold doc_calls in Hp. injection Hp as <-. injection Hd as <-.
  rewrite pdf_texts_app, Hedus, !pdf_texts_app, Hjobs, !pdf_texts_app.
  rewrite <- !docx_texts_concat.
  change (docx_texts (?a :: ?b :: ?c :: ?d :: ?e :: ?f :: ?l))
    with (docx_texts [a; b; c; d; e; f] ++ docx_texts l).
  rewrite !docx_texts_app. simpl. rewrite ?app_nil_r, <- ?app_assoc. reflexivity.
Qed.
End Renderers_agree.

Section Renderers_agree_witness.
Import JS Base64 Server Notions.

Lemma docx_and_pdf_carry_the_same_texts_witness :
  exists paragraphs calls,
    docx_children Scenario.all_well (Some (Scenario.parsed Scenario.resume_json))
    = Ok paragraphs
    /\ pdf_calls Scenario.all_well (Some (Scenario.parsed Scenario.resume_json)) = Ok calls
    /\ length (docx_texts paragraphs) = 15
    /\ docx_texts paragraphs = pdf_texts calls.
Proof.
  destruct (docx_children Scenario.all_well (Some (Scenario.parsed Scenario.resume_json)))
    as [paragraphs|x] eqn:Ed; [|vm_compute in Ed; discriminate Ed].
  destruct (pdf_calls Scenario.all_well (Some (Scenario.parsed Scenario.resume_json)))
    as [calls|x] eqn:Ep; [|vm_compute in Ep; discriminate Ep].
  exists paragraphs, calls. split; [reflexivity |]. split; [reflexivity |].
  split; [vm_compute in Ed; injection Ed as <-; reflexivity |].
  exact (docx_and_pdf_carry_the_same_texts Scenario.all_well _ _ _ Ed Ep).
Defined.

(** The two renderers do not fail alike.  With [null] for the summary
    and the libraries of the stand-in, the DOCX renderer is stopped by the
    constructor of the run while the PDF renderer goes through. *)
Example null_summary_is_rendered_in_PDF_only :
  let cvData := Some (Scenario.parsed
                        (q "{~personalInfo~:{~fullName~:~Jane Doe~},~summary~:null,~experience~:[],~skills~:[],~education~:[]}")) in
  docx_children Scenario.all_well cvData
  = Throw (TypeError "Cannot read properties of null (reading 'space')")
  /\ is_ok (pdf_calls Scenario.all_well cvData) = true.
Proof. split; vm_compute; reflexivity. Qed.
End Renderers_agree_witness.

Section Prompted_shape.
Import JS Base64 Server Notions Resume.
Variable env : Env.

Lemma mapM_sized {A B C} (h : A -> C) (f : C -> Res (list B)) (n : A -> nat) (l : list A) :
  (forall a, exists bs, f (h a) = Ok bs /\ length bs = n a) ->
  exists bss, mapM f (List.map h l) = Ok bss
              /\ length (concat bss) = list_sum (List.map n l).
Proof.
  intros H. induction l as [|a l (bss & E & L)].
  - exists []. split; reflexivity.
  - destruct (H a) as (bs & Ea & La). exists (bs :: bss). simpl.
    rewrite Ea. simpl. rewrite E. simpl. split; [reflexivity |].
    rewrite length_app, La, L. reflexivity.
Qed.

(** A loop of the executor over the elements of a list, each of which
    adds calls that satisfy [P]. *)
Lemma for_each_adds {A} (h : A -> Value) (g : Value -> Executor unit)
    (P : PdfCall -> Prop) (l : list A) :
  (forall a calls0, exists cs, g (h a) calls0 = (Ok (), calls0 ++ cs) /\ Forall P cs) ->
  forall calls0,
    exists cs, for_each g (List.map h l) calls0 = (Ok (), calls0 ++ cs) /\ Forall P cs.
Proof.
  intros H. induction l as [|a l IH]; intros calls0.
  - exists []. rewrite app_nil_r. split; [reflexivity | constructor].
  - destruct (H a calls0) as (cs & Ea & Pa).
    destruct (IH (calls0 ++ cs)) as (ds & El & Pl).
    exists (cs ++ ds). split; [|apply Forall_app; split; assumption].
    change (for_each g (List.map h (a :: l)))
      with (_ ← g (h a); for_each g (List.map h l)).
    rewrite bind_executor, Ea, El, <- app_assoc. reflexivity.
Qed.

(** An array of strings is joined as it is. *)
Lemma array_join_strings (Number_toString : string -> string) (sep : string)
    (l : list string) :
  array_join Number_toString sep (List.map JStr l) = Ok (String.concat sep l).
Proof.
  unfold array_join.
  assert (H : mapM (fun x => match x with
                             | JNull => Ok ""
                             | _ => JSON_toString Number_toString x
                             end) (List.map JStr l) = Ok l).
  { induction l as [|s l IH]; [reflexivity |]. simpl. rewrite IH. reflexivity. }
  rewrite H. reflexivity.
Qed.

Lemma docx_achievements_of_strings (achs : list string) :
  exists bullets,
    mapM (docx_achievement env) (List.map Some (List.map JStr achs)) = Ok bullets
    /\ length bullets = length achs.
Proof.
  induction achs as [|ach achs (bullets & E & L)].
  - exists []. split; reflexivity.
  - eexists. simpl. rewrite E. simpl. split; [reflexivity |]. simpl. rewrite L. reflexivity.
Qed.

Lemma docx_job_of_Job (j : Job) :
  exists ps, docx_job env (Some (of_Job j)) = Ok ps
             /\ length ps = 2 + length (achievements j).
Proof.
  destruct (docx_achievements_of_strings (achievements j)) as (bullets & E & L).
  unfold docx_job. simpl.
  match goal with
  | |- context [mapM (docx_achievement env) ?l] =>
      replace (mapM (docx_achievement env) l) with (Ok bullets) by (symmetry; exact E)
  end.
  simpl. eexists. split; [reflexivity |]. simpl. rewrite L. reflexivity.
Qed.

Lemma docx_edu_of_Education (e : Education) :
  exists ps, docx_edu env (Some (of_Education e)) = Ok ps /\ length ps = 2.
Proof. eexists. split; reflexivity. Qed.

Lemma pdf_achievement_of_string (ach : string) (calls0 : list PdfCall) :
  exists cs, pdf_achievement env (Some (JStr ach)) calls0 = (Ok (), calls0 ++ cs)
             /\ Forall (fun c => c <> End_) cs.
Proof. eexists. split; [reflexivity |]. repeat constructor. discriminate. Qed.

Lemma pdf_job_of_Job (j : Job) (calls0 : list PdfCall) :
  exists cs, pdf_job env (Some (of_Job j)) calls0 = (Ok (), calls0 ++ cs)
             /\ Forall (fun c => c <> End_) cs.
Proof.
  unfold pdf_job, mbind, Executor_bind, doc_calls, doc_text, eval. simpl.
  match goal with
  | |- context [for_each ?g ?l ?made] =>
      destruct (for_each_adds (fun s => Some (JStr s)) (pdf_achievement env)
                  (fun c => c <> End_) (achievements j) pdf_achievement_of_string made)
        as (cs & E & F);
      rewrite <- map_map in E;
      change (for_each g l made)
        with (for_each (pdf_achievement env)
                (List.map Some (List.map JStr (achievements j))) made)
  end.
  eexists. split.
  - unfold Value in E |- *. rewrite E, <- !app_assoc. reflexivity.
  - repeat (first [ apply Forall_app; split
                  | apply Forall_cons; split; [discriminate |]
                  | apply List.Forall_nil
                  | assumption ]).
Qed.

Lemma pdf_edu_of_Education (e : Education) (calls0 : list PdfCall) :
  exists cs, pdf_edu env (Some (of_Education e)) calls0 = (Ok (), calls0 ++ cs)
             /\ Forall (fun c => c <> End_) cs.
Proof.
  eexists. unfold pdf_edu, mbind, Executor_bind, doc_calls, doc_text, eval. simpl.
  rewrite <- !app_assoc. split; [reflexivity |].
  repeat (first [ apply Forall_app; split
                | apply Forall_cons; split; [discriminate |]
                | apply List.Forall_nil ]).
Qed.

(** X5. A résumé of the shape the prompt asks for is always rendered:
    [generateCVDocx] hands the library one document with 720 margins and
    nine paragraphs, two more for each job, one more for each achievement
    and two more for each education entry; [generateCVPDF] makes its calls
    on a document with margin 40 and ends the document once, as the last
    call. *)
Theorem prompted_shape_is_rendered (r : ResumeData) :
  (exists paragraphs,
      generateCVDocx env (Some (of_ResumeData r))
      = AwaitRender
          (Docx {| margin := {| top := 720; right := 720; bottom := 720; left := 720 |};
                   paragraphs := paragraphs |})
          (fun buffer => Return buffer)
      /\ length paragraphs
         = 9 + 2 * length (experience r) + achievement_count r
           + 2 * length (education r))
  /\ (exists calls,
        generateCVPDF env (Some (of_ResumeData r))
        = AwaitRender (Pdf {| pdf_margin := 40; calls := calls ++ [End_] |})
            (fun buffer => Return buffer)
        /\ Forall (fun c => c <> End_) calls).
Proof.
  split.
  - destruct (mapM_sized (fun j => Some (of_Job j)) (docx_job env)
                (fun j => 2 + length (achievements j)) (experience r) docx_job_of_Job)
      as (jps & Ej & Lj).
    destruct (mapM_sized (fun e => Some (of_Education e)) (docx_edu env)
                (fun _ => 2) (education r) docx_edu_of_Education)
      as (eps & Ee & Le).
    rewrite <- map_map in Ej, Ee.
    unfold generateCVDocx, docx_children. simpl.
    match goal with
    | |- context [mapM (docx_job env) ?l] =>
        replace (mapM (docx_job env) l) with (Ok jps) by (symmetry; exact Ej)
    end.
    simpl. rewrite array_join_strings. simpl.
    match goal with
    | |- context [mapM (docx_edu env) ?l] =>
        replace (mapM (docx_edu env) l) with (Ok eps) by (symmetry; exact Ee)
    end.
    simpl.
    eexists. split; [reflexivity |].
    simpl. rewrite !length_app. simpl. rewrite Lj, Le. unfold achievement_count.
    assert (Hj : forall l : list Job,
               list_sum (List.map (fun j => S (S (length (achievements j)))) l)
               = 2 * length l + list_sum (List.map (fun j => length (achievements j)) l)).
    { induction l as [|j l IH]; simpl; [reflexivity | rewrite IH; lia]. }
    assert (He : forall l : list Education,
               list_sum (List.map (fun _ => 2) l) = 2 * length l).
    { induction l as [|e l IH]; simpl; [reflexivity | rewrite IH; lia]. }
    rewrite Hj, He. lia.
  - assert (Hrun : exists calls,
               executor env (Some (of_ResumeData r)) [] = (Ok (), calls ++ [End_])
               /\ Forall (fun c => c <> End_) calls).
    { unfold executor, renderSectionHeader, mbind, Executor_bind, doc_calls, doc_text, eval.
      simpl.
      match goal with
      | |- context [for_each ?g (List.map ?h (List.map of_Job ?l)) ?made] =>
          destruct (for_each_adds (fun j => Some (of_Job j)) (pdf_job env)
                      (fun c => c <> End_) (experience r) pdf_job_of_Job made)
            as (jcs & Ej & Fj);
          rewrite <- map_map in Ej;
          change (for_each g (List.map h (List.map of_Job l)) made)
            with (for_each (pdf_job env)
                    (List.map Some (List.map of_Job (experience r))) made);
          unfold Value in Ej |- *; rewrite Ej
      end.
      rewrite array_join_strings.
      match goal with
      | |- context [for_each ?g (List.map ?h (List.map of_Education ?l)) ?made] =>
          destruct (for_each_adds (fun e => Some (of_Education e)) (pdf_edu env)
                      (fun c => c <> End_) (education r) pdf_edu_of_Education made)
            as (ecs & Ee & Fe);
          rewrite <- map_map in Ee;
          change (for_each g (List.map h (List.map of_Education l)) made)
            with (for_each (pdf_edu env)
                    (List.map Some (List.map of_Education (education r))) made);
          unfold Value in Ee |- *; rewrite Ee
      end.
      eexists. split.
      - reflexivity.
      - repeat (first [ apply Forall_app; split
                      | apply Forall_cons; split; [discriminate |]
                      | apply List.Forall_nil
                      | assumption ]). }
    destruct Hrun as (calls & Hrun & Hcalls).
    exists calls. split; [|exact Hcalls].
    unfold generateCVPDF, pdf_calls. rewrite Hrun. reflexivity.
Qed.
End Prompted_shape.

Section Missing_name.
Import JS Base64 Server Notions.

(** X6. Unless [cvData.personalInfo.fullName] is a string, both
    renderers of the résumé reject with one and the same [TypeError],
    raised at the first dereference that fails, and no collaborator has a
    say in it.  [generateCVDocx] throws in the first expression it
    evaluates.  [generateCVPDF] throws after it has created the document
    and set the colour and the size of the name: these two calls have been
    made on the document, no text has been drawn and the document is never
    ended. *)
Theorem name_must_be_a_string (cvData : JSON) :
  (forall s, candidate_name cvData <> Ok (str s)) ->
  exists msg,
    forall env : Env,
      generateCVDocx env (Some cvData) = Raise (TypeError msg)
      /\ generateCVPDF env (Some cvData) = Raise (TypeError msg)
      /\ executor env (Some cvData) []
         = (Throw (TypeError msg), [ FillColor "#1a365d"; FontSize 22 ]).
Proof.
  unfold candidate_name. intros H.
  assert (Hstop : forall msg,
             (personalInfo ← get (Some cvData) "personalInfo";
              get personalInfo "fullName" ≫= fun fullName =>
                match fullName with
                | Some (JStr s) => Ok s
                | None => nullish_read "undefined" "toUpperCase"
                | Some JNull => nullish_read "null" "toUpperCase"
                | Some _ =>
                    Throw (TypeError ("cvData.personalInfo.fullName"
                                      +:+ ".toUpperCase is not a function"))
                end) = Throw (TypeError msg) ->
             forall env : Env,
               generateCVDocx env (Some cvData) = Raise (TypeError msg)
               /\ generateCVPDF env (Some cvData) = Raise (TypeError msg)
               /\ executor env (Some cvData) []
                  = (Throw (TypeError msg), [ FillColor "#1a365d"; FontSize 22 ])).
  { intros msg Hmsg env.
    assert (He : executor env (Some cvData) []
                 = (Throw (TypeError msg), [ FillColor "#1a365d"; FontSize 22 ])).
    { unfold executor. rewrite bind_doc_calls, bind_eval.
      destruct (get (Some cvData) "personalInfo") as [personalInfo|x];
        [|injection Hmsg as ->; reflexivity].
      cbn [mbind Res_bind] in Hmsg. rewrite bind_eval.
      destruct (get personalInfo "fullName") as [fullName|x];
        [|injection Hmsg as ->; reflexivity].
      cbn [mbind Res_bind] in Hmsg. rewrite bind_eval.
      destruct fullName as [[]|]; try discriminate Hmsg;
        injection Hmsg as <-; reflexivity. }
    split; [|split; [|exact He]].
    - unfold generateCVDocx, docx_children.
      destruct (get (Some cvData) "personalInfo") as [personalInfo|x];
        [|injection Hmsg as ->; reflexivity].
      cbn [mbind Res_bind] in Hmsg |- *.
      destruct (get personalInfo "fullName") as [fullName|x];
        [|injection Hmsg as ->; reflexivity].
      cbn [mbind Res_bind] in Hmsg |- *.
      destruct fullName as [[]|]; try discriminate Hmsg;
        injection Hmsg as <-; reflexivity.
    - unfold generateCVPDF, pdf_calls. rewrite He. reflexivity. }
  destruct (get (Some cvData) "personalInfo") as [personalInfo|x] eqn:E1.
  2:{ destruct cvData; try discriminate E1; injection E1 as <-;
        eexists; apply Hstop; reflexivity. }
  cbn [mbind Res_bind] in H, Hstop.
  destruct (get personalInfo "fullName") as [fullName|x] eqn:E2.
  2:{ destruct personalInfo as [[]|]; try discriminate E2; injection E2 as <-;
        eexists; apply Hstop; reflexivity. }
  cbn [mbind Res_bind] in Hstop.
  destruct fullName as [[]|]; try (eexists; apply Hstop; reflexivity).
  exfalso. apply (H s). reflexivity.
Qed.

Lemma name_must_be_a_string_witness :
  (forall s, candidate_name (JObj []) <> Ok (str s))
  /\ exists msg,
       forall env : Env,
         generateCVDocx env (Some (JObj [])) = Raise (TypeError msg)
         /\ generateCVPDF env (Some (JObj [])) = Raise (TypeError msg)
         /\ executor env (Some (JObj [])) []
            = (Throw (TypeError msg), [ FillColor "#1a365d"; FontSize 22 ]).
Proof.
  assert (H : forall s, candidate_name (JObj []) <> Ok (str s))
    by (intros s; vm_compute; discriminate).
  split; [exact H |].
  exact (name_must_be_a_string (JObj []) H).
Defined.
End Missing_name.

(* ===================================================================== *)
(** * The wait for the tasks does not depend on the order of settling *)
(* ===================================================================== *)

Section Verdict.
Import JS Base64 Server Notions.
Variable env : Env.

Lemma await_verdict {A} (c : Async A) :
  forall st, (await env c st).1 = verdict env c.
Proof.
  induction c as [a|e|f k IH|r k IH|j k IH]; intros st; simpl; try reflexivity.
  - apply IH.
  - destruct (post env r); [apply IH | reflexivity].
  - destruct (render env j); [apply IH | reflexivity].
Qed.

Lemma start_verdict (c : Async unit) :
  forall st, promise_verdict env (start c st).1 = verdict env c.
Proof.
  induction c as [[]|e|f k IH|r k IH|j k IH]; intros st; simpl; try reflexivity.
  apply IH.
Qed.

Lemma resume_verdict (p : Promise) (st : State) :
  promise_verdict env (resume env p st).1 = promise_verdict env p.
Proof.
  destruct p as [r|r k|j k]; simpl; [reflexivity | |].
  - destruct (post env r); [apply start_verdict | reflexivity].
  - destruct (render env j); [apply start_verdict | reflexivity].
Qed.

Lemma finish_verdict (p : Promise) (st : State) :
  (finish env p st).1 = promise_verdict env p.
Proof.
  destruct p as [r|r k|j k]; simpl; [reflexivity | |].
  - destruct (post env r); [apply await_verdict | reflexivity].
  - destruct (render env j); [apply await_verdict | reflexivity].
Qed.

Lemma step_verdict (k : Kind) (tasks : list Task) :
  forall st, all_fulfil env (step env k tasks st).1 = all_fulfil env tasks.
Proof.
  induction tasks as [|[k' p] rest IH]; intros st; [reflexivity |].
  simpl. destruct (decide (k = k')).
  - pose proof (resume_verdict p st) as H.
    destruct (resume env p st) as [p' st']. simpl in *. rewrite H. reflexivity.
  - specialize (IH st). destruct (step env k rest st) as [rest' st']. simpl in *.
    rewrite IH. reflexivity.
Qed.

Lemma first_rejection_verdict (tasks : list Task) (e : Exn) :
  first_rejection tasks = Some e -> all_fulfil env tasks = false.
Proof.
  induction tasks as [|[k p] rest IH]; [discriminate |].
  rewrite first_rejection_cons. simpl.
  destruct p as [[u|x]|r kont|j kont]; simpl.
  - intros H. apply IH, H.
  - reflexivity.
  - intros H. rewrite (IH H). apply andb_false_r.
  - intros H. rewrite (IH H). apply andb_false_r.
Qed.

Lemma drain_verdict (tasks : list Task) :
  forall st, is_ok (drain env tasks st).1 = all_fulfil env tasks.
Proof.
  induction tasks as [|[k p] rest IH]; intros st; [reflexivity |].
  simpl. unfold mbind, M_bind.
  pose proof (finish_verdict p st) as H.
  destruct (finish env p st) as [[u|x] st']; simpl in H; rewrite <- H; simpl.
  - apply IH.
  - reflexivity.
Qed.

(** Whether the wait ends well is decided by the tasks alone: it does
    when each of them, run to its end, comes to a good end. *)
Lemma Promise_all_verdict (schedule : list Kind) :
  forall tasks st,
    is_ok (Promise_all env schedule tasks st).1 = all_fulfil env tasks.
Proof.
  induction schedule as [|k later IH]; intros tasks st; simpl.
  - destruct (first_rejection tasks) as [e|] eqn:E.
    + simpl. symmetry. apply (first_rejection_verdict _ _ E).
    + apply drain_verdict.
  - destruct (first_rejection tasks) as [e|] eqn:E.
    + simpl. symmetry. apply (first_rejection_verdict _ _ E).
    + pose proof (step_verdict k tasks st) as H.
      destruct (step env k tasks st) as [tasks' st']. simpl in H.
      rewrite IH. exact H.
Qed.
End Verdict.

Section Effects.
Import JS Base64 Server Notions.
Variable env : Env.

(** What a confined task leaves in its entry is what it leaves there when
    it runs alone. *)
Lemma Confined_effect (k : Kind) (Q : Entry -> Prop) (cur : option Entry)
    (c : Async unit) :
  Confined env k Q cur c ->
  forall r0 target,
    entry k r0 = cur -> effect env c r0 = target ->
    Confined env k (fun e => Q e /\ Some e = entry k target) cur c.
Proof.
  induction 1 as [cur e u Hcur HQ|cur x|cur cur' f c Hf Hc IH|cur r kont Hk IH|cur j kont Hk IH];
    intros r0 target Hr0 Ht; simpl in Ht.
  - apply (Confined_return _ _ _ _ e); [exact Hcur |]. split; [exact HQ |].
    subst target. rewrite Hr0. symmetry. exact Hcur.
  - apply Confined_raise.
  - apply (Confined_assign _ _ _ _ cur'); [exact Hf |].
    apply (IH (f r0)); [apply (Hf r0 Hr0) | exact Ht].
  - apply Confined_completion. intros x Hx. rewrite Hx in Ht.
    apply (IH x Hx r0); assumption.
  - apply Confined_render. intros x Hx. rewrite Hx in Ht.
    apply (IH x Hx r0); assumption.
Qed.

Variable schedule : list Kind.

(** The fan-out with each task bound to leave in its entry something
    that satisfies [Q]: when the fan-out returns, every selected kind has
    such an entry and no other kind has one. *)
Lemma fan_out_entries (Q : Kind -> Entry -> Prop) (options cvData : JSON) (cvFile : File)
    (cvContent jobDescription raw : string) (candidateName : Value)
    (st st' : State) (res : Response) :
  results st = no_results ->
  candidate_name cvData = Ok candidateName ->
  (forall k, Confined env k (Q k) None
               (task env options cvData candidateName cvContent jobDescription raw k)) ->
  fan_out env schedule options cvData cvFile cvContent jobDescription raw st = (Ok res, st') ->
  res = {| status := 200; body := Success (results st') |}
  /\ forall k,
       if selects env options k
       then exists e, entry k (results st') = Some e /\ Q k e
       else entry k (results st') = None.
Proof.
  intros Hres Hname Htask Hrun. unfold fan_out in Hrun.
  unfold candidate_name in Hname.
  destruct (get (Some cvData) "personalInfo") as [personalInfo|x] eqn:E1; [|discriminate].
  simpl in Hname.
  rewrite (bind_lift_ok _ _ _ _ eq_refl) in Hrun.
  rewrite (bind_lift_ok _ _ _ _ Hname) in Hrun. cbv zeta in Hrun.
  destruct (get (Some options) "cv") as [wants_cv|x] eqn:Ecv;
    [rewrite (bind_lift_ok _ _ _ _ eq_refl) in Hrun
    |rewrite (bind_lift_throw _ _ _ _ eq_refl) in Hrun; discriminate Hrun].
  destruct (get_other options "cv" "coverLetter" _ Ecv) as [wants_coverLetter Ecl].
  destruct (get_other options "cv" "email" _ Ecv) as [wants_email Eem].
  destruct (push_if_confined env Q wants_cv CV
              (cv_task env (Some options) (Some cvData) candidateName raw) [] st)
    as (p1 & st1 & t1 & R1 & C1 & G1 & Q1 & K1 & N1).
  { split; [constructor | constructor]. }
  { apply not_elem_of_nil. }
  { intros k' _. rewrite Hres. destruct k'; reflexivity. }
  { apply (Htask CV). }
  rewrite (bind_ok _ _ _ _ _ R1) in Hrun.
  rewrite (bind_lift_ok _ _ _ _ Ecl) in Hrun.
  destruct (push_if_confined env Q wants_coverLetter CoverLetter
              (coverLetter_task env (Some options) candidateName cvContent jobDescription)
              p1 st1)
    as (p2 & st2 & t2 & R2 & C2 & G2 & Q2 & K2 & N2).
  { exact C1. }
  { rewrite K1. simpl. destruct (ToBoolean _ wants_cv); kind_absent. }
  { exact N1. }
  { apply (Htask CoverLetter). }
  rewrite (bind_ok _ _ _ _ _ R2) in Hrun.
  rewrite (bind_lift_ok _ _ _ _ Eem) in Hrun.
  destruct (push_if_confined env Q wants_email Email
              (email_task env (Some options) candidateName cvContent jobDescription)
              p2 st2)
    as (p3 & st3 & t3 & R3 & C3 & G3 & Q3 & K3 & N3).
  { exact C2. }
  { rewrite K2, K1. simpl.
    destruct (ToBoolean _ wants_cv), (ToBoolean _ wants_coverLetter); kind_absent. }
  { exact N2. }
  { apply (Htask Email). }
  rewrite (bind_ok _ _ _ _ _ R3) in Hrun.
  destruct (Promise_all_confined env Q schedule p3 st3 C3) as [Hout Hin].
  destruct (Promise_all env schedule p3 st3) as [[u|x] st4] eqn:E4;
    simpl in Hout, Hin;
    [|rewrite (bind_throw _ _ _ _ _ E4) in Hrun; discriminate Hrun].
  rewrite (bind_ok _ _ _ _ _ E4) in Hrun.
  destruct (unlinkSync_runs (path cvFile) st4) as [(buffer & Hfile & R5)|(Hfile & x & R5)];
    [|rewrite (bind_throw _ _ _ _ _ R5) in Hrun; discriminate Hrun].
  rewrite (bind_ok _ _ _ _ _ R5) in Hrun. unfold res_json in Hrun.
  injection Hrun as <- <-. simpl. split; [reflexivity |].
  intros k.
  assert (Hsel : selects env options k
                 = ToBoolean (Number_toBoolean env)
                     match k with
                     | CV => wants_cv
                     | CoverLetter => wants_coverLetter
                     | Email => wants_email
                     end).
  { destruct k; apply selects_get; assumption. }
  rewrite Hsel. clear Hsel.
  remember (ToBoolean (Number_toBoolean env) wants_cv) as b1.
  remember (ToBoolean (Number_toBoolean env) wants_coverLetter) as b2.
  remember (ToBoolean (Number_toBoolean env) wants_email) as b3.
  assert (Hkinds : List.map fst p3
                   = (if b1 then [CV] else []) ++ (if b2 then [CoverLetter] else [])
                     ++ (if b3 then [Email] else [])).
  { rewrite K3, K2, K1. simpl. rewrite <- app_assoc. reflexivity. }
  rewrite Hkinds in Hin, Hout, N3. specialize (Hin eq_refl).
  specialize (Hin k). specialize (Hout k). specialize (N3 k).
  clear -Hin Hout N3 Heqb1 Heqb2 Heqb3.
  destruct k; rewrite <- ?Heqb1, <- ?Heqb2, <- ?Heqb3; clear Heqb1 Heqb2 Heqb3;
    destruct b1, b2, b3; simpl in *;
    first [ apply Hin; repeat constructor
          | rewrite Hout by kind_absent; apply N3; kind_absent ].
Qed.
End Effects.

Section Documents.
Import JS Base64 Server Notions.
Variable env : Env.
Variable schedule : list Kind.
Variable req : Request.
Variable uploads : gmap string Buffer.

(** The three tasks are confined to their entries and leave there what
    they leave when run alone. *)
Lemma task_confined (options cvData : JSON) (candidateName format : Value)
    (cvContent jobDescription raw : string) (k : Kind) :
  get (Some options) "format" = Ok format ->
  Confined env k
    (fun e => produced env candidateName format raw k e
              /\ Some e
                 = entry k (effect env (task env options cvData candidateName cvContent
                                          jobDescription raw k) no_results))
    None
    (task env options cvData candidateName cvContent jobDescription raw k).
Proof.
  intros Hf. apply (Confined_effect env k _ None _) with (r0 := no_results).
  - destruct k; simpl.
    + apply cv_task_confined, Hf.
    + apply coverLetter_task_confined, Hf.
    + apply email_task_confined, Hf.
  - destruct k; reflexivity.
  - reflexivity.
Qed.

(** A request answered 200: how far it got, and what each selected kind
    has in the response. *)
Lemma handler_documents :
  let o := handler env schedule req uploads in
  status (response o) = 200%Z ->
  exists options cvFile cvContent raw cvData candidateName format,
    Answered env req uploads options cvFile cvContent raw
    /\ JSON_parse env (cleaned raw) = inr cvData
    /\ candidate_name cvData = Ok candidateName
    /\ get (Some options) "format" = Ok format
    /\ response o = {| status := 200; body := Success (results (final o)) |}
    /\ forall k,
         if selects env options k
         then exists e,
                entry k (results (final o)) = Some e
                /\ produced env candidateName format raw k e
                /\ Some e
                   = entry k (effect env
                                (task env options cvData candidateName cvContent
                                   (field_text (body_jobDescription req)) raw k)
                                no_results)
         else entry k (results (final o)) = None.
Proof.
  cbv zeta. unfold handler. intros Hstatus.
  destruct (tailor_cv_cases env schedule req uploads)
    as [(options & cvFile & cvContent & raw & Ha)|(x & tr & Hrun & Htr)].
  2:{ rewrite Hrun in Hstatus. discriminate Hstatus. }
  revert Hstatus.
  rewrite (tailor_cv_answered env schedule req uploads _ _ _ _ Ha).
  unfold cleaned.
  destruct (JSON_parse env (trim (replace_all fences raw))) as [msg|cvData] eqn:Hp.
  { erewrite bind_throw by (rewrite call_JSON_parse_runs, Hp; reflexivity).
    discriminate. }
  erewrite bind_ok by (rewrite call_JSON_parse_runs, Hp; reflexivity).
  match goal with
  | |- context [fan_out _ _ _ _ _ _ _ _ ?st] => set (st6 := st)
  end.
  destruct (fan_out env schedule options cvData cvFile cvContent
              (field_text (body_jobDescription req)) raw st6) as [[res|x] st'] eqn:Hrun;
    [|discriminate].
  intros _. simpl.
  pose proof (fan_out_spec env schedule _ _ _ _ _ _ st6 st' _ eq_refl Hrun)
    as (name & format & tail & Hn & Hf & _).
  destruct (fan_out_entries env schedule
              (fun k e => produced env name format raw k e
                          /\ Some e
                             = entry k (effect env
                                          (task env options cvData name cvContent
                                             (field_text (body_jobDescription req)) raw k)
                                          no_results))
              options cvData cvFile cvContent _ raw name st6 st' res eq_refl Hn
              (fun k => task_confined options cvData name format cvContent _ raw k Hf) Hrun)
    as [-> Hk].
  exists options, cvFile, cvContent, raw, cvData, name, format.
  repeat (split; [first [assumption | reflexivity] |]).
  intros k. specialize (Hk k). destruct (selects env options k); [|exact Hk].
  destruct Hk as (e & He & Hp' & Hq). exists e.
  split; [exact He | split; [exact Hp' | exact Hq]].
Qed.
End Documents.

Section Any_order.
Import JS Base64 Server Notions.
Variable env : Env.
Variable req : Request.
Variable uploads : gmap string Buffer.

Lemma Answered_unique (options options' : JSON) (cvFile cvFile' : File)
    (cvContent cvContent' raw raw' : string) :
  Answered env req uploads options cvFile cvContent raw ->
  Answered env req uploads options' cvFile' cvContent' raw' ->
  options = options' /\ cvFile = cvFile' /\ cvContent = cvContent' /\ raw = raw'.
Proof.
  intros [Ho Hf (b & Hb & He) Hr] [Ho' Hf' (b' & Hb' & He') Hr'].
  assert (options = options') by congruence. subst options'.
  assert (cvFile = cvFile') by congruence. subst cvFile'.
  assert (b = b') by congruence. subst b'.
  assert (cvContent = cvContent') by congruence. subst cvContent'.
  assert (raw = raw') by congruence. subst raw'.
  repeat split.
Qed.

Lemma results_ext (r r' : Results) :
  (forall k, entry k r = entry k r') -> r = r'.
Proof.
  intros H. destruct r as [a b c], r' as [a' b' c'].
  pose proof (H CV) as H1. pose proof (H CoverLetter) as H2. pose proof (H Email) as H3.
  simpl in *. subst. reflexivity.
Qed.

Lemma push_if_returns (selected : Value) (k : Kind) (c : Async unit)
    (promises : list Task) (st : State) :
  exists promises' st', push_if env selected k c promises st = (Ok promises', st').
Proof.
  rewrite push_if_runs. destruct (ToBoolean _ selected); do 2 eexists; reflexivity.
Qed.

(** Whether the end of the fan-out (the wait, the removal, the answer) goes
    through does not depend on the order in which the operations settle. *)
Lemma wait_and_answer (s1 s2 : list Kind) (tasks : list Task) (path : string) (st : State) :
  is_ok ((_ ← Promise_all env s1 tasks; _ ← unlinkSync path; res_json) st).1
  = is_ok ((_ ← Promise_all env s2 tasks; _ ← unlinkSync path; res_json) st).1.
Proof.
  pose proof (Promise_all_verdict env s1 tasks st) as V1.
  pose proof (Promise_all_verdict env s2 tasks st) as V2.
  destruct (Promise_all_grows env s1 tasks st) as (t1 & (F1 & _) & _).
  destruct (Promise_all_grows env s2 tasks st) as (t2 & (F2 & _) & _).
  destruct (Promise_all env s1 tasks st) as [[u1|x1] st1] eqn:E1,
           (Promise_all env s2 tasks st) as [[u2|x2] st2] eqn:E2;
    simpl in V1, V2, F1, F2; try congruence.
  - rewrite (bind_ok _ _ _ _ _ E1), (bind_ok _ _ _ _ _ E2).
    destruct (unlinkSync_runs path st1) as [(b1 & H1 & R1)|(H1 & x1 & R1)],
             (unlinkSync_runs path st2) as [(b2 & H2 & R2)|(H2 & x2 & R2)];
      try congruence.
    + rewrite (bind_ok _ _ _ _ _ R1), (bind_ok _ _ _ _ _ R2). reflexivity.
    + rewrite (bind_throw _ _ _ _ _ R1), (bind_throw _ _ _ _ _ R2). reflexivity.
  - rewrite (bind_throw _ _ _ _ _ E1), (bind_throw _ _ _ _ _ E2). reflexivity.
Qed.

Lemma fan_out_any_order (s1 s2 : list Kind) (options cvData : JSON) (cvFile : File)
    (cvContent jobDescription raw : string) (st : State) :
  is_ok (fan_out env s1 options cvData cvFile cvContent jobDescription raw st).1
  = is_ok (fan_out env s2 options cvData cvFile cvContent jobDescription raw st).1.
Proof.
  unfold fan_out.
  destruct (get (Some cvData) "personalInfo") as [personalInfo|x] eqn:E1;
    [rewrite !(bind_lift_ok _ _ _ _ eq_refl)
    |rewrite !(bind_lift_throw _ _ _ _ eq_refl); reflexivity].
  destruct (get personalInfo "fullName") as [candidateName|x] eqn:E2;
    [rewrite !(bind_lift_ok _ _ _ _ eq_refl)
    |rewrite !(bind_lift_throw _ _ _ _ eq_refl); reflexivity].
  cbv zeta.
  destruct (get (Some options) "cv") as [wants_cv|x] eqn:Ecv;
    [rewrite !(bind_lift_ok _ _ _ _ eq_refl)
    |rewrite !(bind_lift_throw _ _ _ _ eq_refl); reflexivity].
  destruct (get_other options "cv" "coverLetter" _ Ecv) as [wants_coverLetter Ecl].
  destruct (get_other options "cv" "email" _ Ecv) as [wants_email Eem].
  destruct (push_if_returns wants_cv CV
              (cv_task env (Some options) (Some cvData) candidateName raw) [] st)
    as (p1 & st1 & R1).
  rewrite !(bind_ok _ _ _ _ _ R1), !(bind_lift_ok _ _ _ _ Ecl).
  destruct (push_if_returns wants_coverLetter CoverLetter
              (coverLetter_task env (Some options) candidateName cvContent jobDescription)
              p1 st1)
    as (p2 & st2 & R2).
  rewrite !(bind_ok _ _ _ _ _ R2), !(bind_lift_ok _ _ _ _ Eem).
  destruct (push_if_returns wants_email Email
              (email_task env (Some options) candidateName cvContent jobDescription)
              p2 st2)
    as (p3 & st3 & R3).
  rewrite !(bind_ok _ _ _ _ _ R3).
  apply wait_and_answer.
Qed.

Lemma handler_status (schedule : list Kind) :
  status (response (handler env schedule req uploads))
  = if is_ok (tailor_cv env schedule req (entered uploads)).1 then 200%Z else 500%Z.
Proof.
  destruct (handler_spec env schedule req uploads)
    as [(options & cvFile & cvContent & raw & cvData & name & format & tail & _ & _ & _ & _
         & Hres & _)
       |(x & Hrun & Hres & _)].
  - rewrite Hres. unfold handler in Hres.
    destruct (tailor_cv env schedule req (entered uploads)) as [[res|x] st];
      [reflexivity | discriminate Hres].
  - rewrite Hres, Hrun. reflexivity.
Qed.

Lemma status_any_order (s1 s2 : list Kind) :
  status (response (handler env s1 req uploads))
  = status (response (handler env s2 req uploads)).
Proof.
  rewrite !handler_status.
  cut (is_ok (tailor_cv env s1 req (entered uploads)).1
       = is_ok (tailor_cv env s2 req (entered uploads)).1); [intros ->; reflexivity |].
  assert (Hearly : forall s x tr,
             tailor_cv env s req (entered uploads)
             = (Throw x, {| files := uploads; trace := tr; results := no_results |}) ->
             is_ok (tailor_cv env s req (entered uploads)).1 = false)
    by (intros s x tr ->; reflexivity).
  assert (Hanswered : forall options cvFile cvContent raw,
             Answered env req uploads options cvFile cvContent raw ->
             is_ok (tailor_cv env s1 req (entered uploads)).1
             = is_ok (tailor_cv env s2 req (entered uploads)).1).
  { intros options cvFile cvContent raw Ha.
    rewrite !(tailor_cv_answered env _ req uploads _ _ _ _ Ha).
    destruct (JSON_parse env (trim (replace_all fences raw))) as [msg|cvData] eqn:Hp.
    - erewrite !bind_throw by (rewrite call_JSON_parse_runs, Hp; reflexivity).
      reflexivity.
    - erewrite !bind_ok by (rewrite call_JSON_parse_runs, Hp; reflexivity).
      apply fan_out_any_order. }
  destruct (tailor_cv_cases env s1 req uploads)
    as [(options & cvFile & cvContent & raw & Ha)|(x1 & tr1 & Hrun1 & _)];
    [exact (Hanswered _ _ _ _ Ha) |].
  destruct (tailor_cv_cases env s2 req uploads)
    as [(options & cvFile & cvContent & raw & Ha)|(x2 & tr2 & Hrun2 & _)];
    [exact (Hanswered _ _ _ _ Ha) |].
  rewrite (Hearly _ _ _ Hrun1), (Hearly _ _ _ Hrun2). reflexivity.
Qed.

(** X7. The order in which the pending completions and renderings settle
    does not decide how a request ends: under any two orders the status is
    the same and so is what is left in the upload directory, and a request
    answered 200 gets the same response, document for document. *)
Theorem outcome_does_not_depend_on_the_order (s1 s2 : list Kind) :
  let o1 := handler env s1 req uploads in
  let o2 := handler env s2 req uploads in
  status (response o1) = status (response o2)
  /\ files (final o1) = files (final o2)
  /\ (status (response o1) = 200%Z -> response o1 = response o2).
Proof.
  cbv zeta. pose proof (status_any_order s1 s2) as Hs.
  split; [exact Hs |]. split.
  - destruct (handler_spec env s1 req uploads)
      as [(o & f & c & r & d & n & fmt & tl & Ha & _ & _ & _ & Hr & _ & _ & Hf & _)
         |(x & _ & Hr & Hf & _)];
    destruct (handler_spec env s2 req uploads)
      as [(o' & f' & c' & r' & d' & n' & fmt' & tl' & Ha' & _ & _ & _ & Hr' & _ & _ & Hf' & _)
         |(x' & _ & Hr' & Hf' & _)];
    rewrite Hr, Hr' in Hs; try discriminate Hs.
    + destruct (Answered_unique _ _ _ _ _ _ _ _ Ha Ha') as (_ & <- & _).
      rewrite Hf, Hf'. reflexivity.
    + rewrite Hf, Hf'. reflexivity.
  - intros H1. assert (H2 := H1). rewrite Hs in H2.
    destruct (handler_documents env s1 req uploads H1)
      as (o & f & c & r & d & n & fmt & Ha & Hp & Hn & Hfmt & Hr & Hk).
    destruct (handler_documents env s2 req uploads H2)
      as (o' & f' & c' & r' & d' & n' & fmt' & Ha' & Hp' & Hn' & Hfmt' & Hr' & Hk').
    destruct (Answered_unique _ _ _ _ _ _ _ _ Ha Ha') as (<- & <- & <- & <-).
    assert (d = d') by congruence. subst d'.
    assert (n = n') by congruence. subst n'.
    rewrite Hr, Hr'. do 2 f_equal. apply results_ext. intros k.
    specialize (Hk k). specialize (Hk' k).
    destruct (selects env o k).
    + destruct Hk as (e & -> & _ & He), Hk' as (e' & -> & _ & He'). congruence.
    + congruence.
Qed.
End Any_order.

Section All_or_nothing.
Import JS Base64 Server Notions.
Variable env : Env.

Lemma all_fulfil_app (ts us : list Task) :
  all_fulfil env (ts ++ us) = all_fulfil env ts && all_fulfil env us.
Proof. apply forallb_app. Qed.

(** Starting one more task: the tasks all come to a good end when those
    started before do and the new one does. *)
Lemma push_if_verdict (selected : Value) (k : Kind) (c : Async unit)
    (promises : list Task) (st : State) :
  exists promises' st',
    push_if env selected k c promises st = (Ok promises', st')
    /\ all_fulfil env promises'
       = all_fulfil env promises
         && (if ToBoolean (Number_toBoolean env) selected then is_ok (verdict env c)
             else true).
Proof.
  rewrite push_if_runs. destruct (ToBoolean (Number_toBoolean env) selected).
  - do 2 eexists. split; [reflexivity |].
    rewrite all_fulfil_app. simpl. rewrite start_verdict, andb_true_r. reflexivity.
  - do 2 eexists. split; [reflexivity |]. rewrite andb_true_r. reflexivity.
Qed.

(** A step of its task that fails makes the task, run to its end,
    throw. *)
Lemma task_fails_verdict (options cvData : JSON) (candidateName : Value)
    (cvContent jobDescription raw : string) (k : Kind) :
  Task_fails env options cvData candidateName cvContent jobDescription k ->
  is_ok (verdict env (task env options cvData candidateName cvContent jobDescription raw k))
  = false.
Proof.
  assert (Htail : forall (k : Kind) (name title text : string) (x : Exn),
             render env (text_document title text) = Throw x ->
             is_ok (verdict env
                      (format ← now (get (Some options) "format");
                       extension ← now (tpl env format);
                       Assign (set_entry k {| preview := text;
                                              fileName := name +:+ suffix k +:+ extension;
                                              fileData := None |})
                         (buffer ← (if strict_eq_string format "pdf"
                                    then generateTextPDF title text
                                    else generateTextDocx title text);
                          Assign (set_fileData k (toString_base64 buffer)) (Return ()))))
             = false).
  { intros k0 name title text x Hrender.
    destruct (get (Some options) "format") as [format|y]; [|reflexivity].
    cbn [now mbind Async_mbind Async_bind].
    destruct (tpl env format) as [extension|y]; [|reflexivity].
    cbn [now mbind Async_mbind Async_bind verdict].
    destruct (strict_eq_string format "pdf"); [|reflexivity].
    unfold generateTextPDF. cbn [mbind Async_mbind Async_bind verdict].
    unfold text_document in Hrender. rewrite Hrender. reflexivity. }
  intros [k0 request x Hk Hreq Hpost|k0 request text x Hk Hreq Hpost Hrender
         |format x Hf Hdoc|format job x Hf Hdoc Hrender].
  - destruct k0; [contradiction | |]; unfold task, text_request in *.
    + unfold coverLetter_task, generateCoverLetter.
      destruct (tpl env candidateName) as [name|y]; [|reflexivity].
      injection Hreq as <-. simpl. unfold coverLetter_request in Hpost.
      rewrite Hpost. reflexivity.
    + unfold email_task, generateApplicationEmail.
      destruct (tpl env candidateName) as [name|y]; [|reflexivity].
      injection Hreq as <-. simpl. unfold email_request in Hpost.
      rewrite Hpost. reflexivity.
  - destruct k0; [contradiction | |]; unfold task, text_request in *.
    + unfold coverLetter_task, generateCoverLetter.
      destruct (tpl env candidateName) as [name|y] eqn:Htpl; [|reflexivity].
      injection Hreq as <-. unfold coverLetter_request in Hpost.
      cbn [now mbind Async_mbind Async_bind callDeepSeek verdict].
      rewrite Hpost. cbn [now mbind Async_mbind Async_bind].
      apply (Htail CoverLetter name "Cover Letter" text x Hrender).
    + unfold email_task, generateApplicationEmail.
      destruct (tpl env candidateName) as [name|y] eqn:Htpl; [|reflexivity].
      injection Hreq as <-. unfold email_request in Hpost.
      cbn [now mbind Async_mbind Async_bind callDeepSeek verdict].
      rewrite Hpost. cbn [now mbind Async_mbind Async_bind].
      apply (Htail Email name "Application Email" text x Hrender).
  - unfold task, cv_task. rewrite Hf.
    destruct (tpl env candidateName) as [name|y]; [|reflexivity].
    cbn [now mbind Async_mbind Async_bind].
    destruct (tpl env format) as [extension|y]; [|reflexivity].
    cbn [now mbind Async_mbind Async_bind verdict].
    unfold cv_document in Hdoc. unfold generateCVPDF, generateCVDocx.
    destruct (strict_eq_string format "pdf").
    + destruct (pdf_calls env (Some cvData)) as [calls|y]; [discriminate Hdoc |].
      reflexivity.
    + destruct (docx_children env (Some cvData)) as [children|y]; [discriminate Hdoc |].
      reflexivity.
  - unfold task, cv_task. rewrite Hf.
    destruct (tpl env candidateName) as [name|y]; [|reflexivity].
    cbn [now mbind Async_mbind Async_bind].
    destruct (tpl env format) as [extension|y]; [|reflexivity].
    cbn [now mbind Async_mbind Async_bind verdict].
    unfold cv_document in Hdoc. unfold generateCVPDF, generateCVDocx.
    destruct (strict_eq_string format "pdf").
    + destruct (pdf_calls env (Some cvData)) as [calls|y]; [|discriminate Hdoc].
      injection Hdoc as <-. cbn [now mbind Async_mbind Async_bind verdict].
      rewrite Hrender. reflexivity.
    + destruct (docx_children env (Some cvData)) as [children|y]; [|discriminate Hdoc].
      injection Hdoc as <-. cbn [now mbind Async_mbind Async_bind verdict].
      rewrite Hrender. reflexivity.
Qed.

Variable schedule : list Kind.

(** A selected task that throws when run to its end makes the fan-out
    throw, in whatever order the operations settle. *)
Lemma fan_out_rejected (options cvData : JSON) (cvFile : File)
    (cvContent jobDescription raw : string) (candidateName : Value) (k : Kind) (st : State) :
  candidate_name cvData = Ok candidateName ->
  selects env options k = true ->
  is_ok (verdict env (task env options cvData candidateName cvContent jobDescription raw k))
  = false ->
  is_ok (fan_out env schedule options cvData cvFile cvContent jobDescription raw st).1
  = false.
Proof.
  intros Hname Hsel Hverdict.
  unfold candidate_name in Hname.
  destruct (get (Some cvData) "personalInfo") as [personalInfo|y] eqn:E1;
    [|discriminate]. simpl in Hname.
  apply selects_true in Hsel as (v & Ek & Bk).
  destruct (get_other options (key k) "cv" _ Ek) as [wants_cv Ecv].
  destruct (get_other options (key k) "coverLetter" _ Ek) as [wants_cl Ecl].
  destruct (get_other options (key k) "email" _ Ek) as [wants_em Eem].
  unfold fan_out.
  rewrite (bind_lift_ok _ _ _ _ E1), (bind_lift_ok _ _ _ _ Hname). cbv zeta.
  rewrite (bind_lift_ok _ _ _ _ Ecv).
  destruct (push_if_verdict wants_cv CV
              (cv_task env (Some options) (Some cvData) candidateName raw) [] st)
    as (p1 & st1 & R1 & V1).
  rewrite (bind_ok _ _ _ _ _ R1), (bind_lift_ok _ _ _ _ Ecl).
  destruct (push_if_verdict wants_cl CoverLetter
              (coverLetter_task env (Some options) candidateName cvContent jobDescription)
              p1 st1)
    as (p2 & st2 & R2 & V2).
  rewrite (bind_ok _ _ _ _ _ R2), (bind_lift_ok _ _ _ _ Eem).
  destruct (push_if_verdict wants_em Email
              (email_task env (Some options) candidateName cvContent jobDescription)
              p2 st2)
    as (p3 & st3 & R3 & V3).
  rewrite (bind_ok _ _ _ _ _ R3).
  assert (Hall : all_fulfil env p3 = false).
  { rewrite V3, V2, V1.
    destruct k; unfold key in Ek; unfold task in Hverdict;
      [rewrite Ecv in Ek | rewrite Ecl in Ek | rewrite Eem in Ek];
      injection Ek as <-; rewrite Bk, Hverdict;
      rewrite ?andb_false_r; reflexivity. }
  pose proof (Promise_all_verdict env schedule p3 st3) as Hwait. rewrite Hall in Hwait.
  destruct (Promise_all env schedule p3 st3) as [[u|x] st4] eqn:E4; [discriminate Hwait |].
  rewrite (bind_throw _ _ _ _ _ E4). reflexivity.
Qed.

Variable req : Request.
Variable uploads : gmap string Buffer.

(** C5. Whenever a step of the pipeline fails on a request (the read of
    the stored upload or the extraction of its text, the completion of
    the résumé, of the cover letter or of the email, the parse of the
    options or of the model's résumé, the building or the rendering of a
    selected document), the answer is one body of status 500 that holds a
    message and nothing else, in whatever order the pending operations
    settle: whatever the other tasks have put into [results] by then is
    not sent. *)
Theorem failure_is_all_or_nothing :
  Step_fails env req uploads ->
  exists msg,
    response (handler env schedule req uploads)
    = {| status := 500; body := Failure msg |}.
Proof.
  intros Hfail.
  assert (Hthrows : is_ok (tailor_cv env schedule req (entered uploads)).1 = false).
  { destruct Hfail
      as [msg Ho|cvFile Hf Hb|cvFile buffer x Hf Hb He|cvFile buffer cvContent x Hf Hb He Hr
         |options cvFile cvContent raw msg Ha Hp
         |options cvFile cvContent raw cvData candidateName k Ha Hp Hn Hsel Htask].
    - unfold tailor_cv.
      erewrite bind_throw by (rewrite call_JSON_parse_runs, Ho; reflexivity).
      reflexivity.
    - unfold tailor_cv.
      destruct (JSON_parse env (field_text (body_options req))) as [msg|options] eqn:Ho.
      { erewrite bind_throw by (rewrite call_JSON_parse_runs, Ho; reflexivity).
        reflexivity. }
      erewrite bind_ok by (rewrite call_JSON_parse_runs, Ho; reflexivity).
      rewrite Hf. erewrite bind_lift_ok by reflexivity.
      erewrite bind_throw
        by (rewrite parseCVContent_runs; simpl; rewrite Hb; reflexivity).
      reflexivity.
    - unfold tailor_cv.
      destruct (JSON_parse env (field_text (body_options req))) as [msg|options] eqn:Ho.
      { erewrite bind_throw by (rewrite call_JSON_parse_runs, Ho; reflexivity).
        reflexivity. }
      erewrite bind_ok by (rewrite call_JSON_parse_runs, Ho; reflexivity).
      rewrite Hf. erewrite bind_lift_ok by reflexivity.
      erewrite bind_throw
        by (rewrite parseCVContent_runs; simpl; rewrite Hb, He; reflexivity).
      reflexivity.
    - unfold tailor_cv.
      destruct (JSON_parse env (field_text (body_options req))) as [msg|options] eqn:Ho.
      { erewrite bind_throw by (rewrite call_JSON_parse_runs, Ho; reflexivity).
        reflexivity. }
      erewrite bind_ok by (rewrite call_JSON_parse_runs, Ho; reflexivity).
      rewrite Hf. erewrite bind_lift_ok by reflexivity.
      erewrite bind_ok
        by (rewrite parseCVContent_runs; simpl; rewrite Hb, He; reflexivity).
      erewrite bind_throw
        by (rewrite generateTailoredCV_runs; simpl; rewrite Hr; reflexivity).
      reflexivity.
    - rewrite (tailor_cv_answered env schedule req uploads _ _ _ _ Ha).
      unfold cleaned in Hp.
      erewrite bind_throw by (rewrite call_JSON_parse_runs, Hp; reflexivity).
      reflexivity.
    - rewrite (tailor_cv_answered env schedule req uploads _ _ _ _ Ha).
      unfold cleaned in Hp.
      erewrite bind_ok by (rewrite call_JSON_parse_runs, Hp; reflexivity).
      apply (fan_out_rejected _ _ _ _ _ _ _ k _ Hn Hsel).
      apply task_fails_verdict, Htask. }
  destruct (handler_spec env schedule req uploads)
    as [(options & cvFile & cvContent & raw & cvData & name & format & tail
         & _ & _ & _ & _ & Hr & _)
       |(x & _ & Hr & _)]; [exfalso | eexists; exact Hr].
  unfold handler in Hr.
  destruct (tailor_cv env schedule req (entered uploads)) as [[res|x] st];
    [discriminate Hthrows | discriminate Hr].
Qed.
End All_or_nothing.

Section All_or_nothing_witness.
Import JS Base64 Server Notions.

Lemma email_down_answered :
  Answered Scenario.email_down (Scenario.request Scenario.job Scenario.all_pdf)
    Scenario.uploads (Scenario.parsed Scenario.all_pdf) Scenario.jane_upload
    "Jane Doe, jane@x.com, 555-1234, Boston" Scenario.fenced_resume.
Proof.
  constructor.
  - vm_compute. reflexivity.
  - reflexivity.
  - exists Scenario.upload_bytes. split; vm_compute; reflexivity.
  - vm_compute. reflexivity.
Defined.

(** The completion endpoint refuses the email after the CV and the cover
    letter have been produced: both are in [results] when the handler
    answers, and the answer is the failure alone. *)
Lemma failure_is_all_or_nothing_witness :
  let req := Scenario.request Scenario.job Scenario.all_pdf in
  let o := handler Scenario.email_down [CV; CoverLetter; CoverLetter; Email]
             req Scenario.uploads in
  Step_fails Scenario.email_down req Scenario.uploads
  /\ (exists e data, cv (results (final o)) = Some e /\ fileData e = Some data)
  /\ (exists e data, coverLetter (results (final o)) = Some e /\ fileData e = Some data)
  /\ response o
     = {| status := 500; body := Failure "Request failed with status code 503" |}.
Proof.
  intros req o.
  assert (Hfail : Step_fails Scenario.email_down req Scenario.uploads).
  { apply (task_fails _ _ _ (Scenario.parsed Scenario.all_pdf) Scenario.jane_upload
             "Jane Doe, jane@x.com, 555-1234, Boston" Scenario.fenced_resume
             (Scenario.parsed Scenario.resume_json) (str "Jane Doe") Email).
    - exact email_down_answered.
    - vm_compute. reflexivity.
    - vm_compute. reflexivity.
    - vm_compute. reflexivity.
    - apply (generation_fails _ _ _ _ _ _ Email
               (email_request Scenario.email_down Scenario.job "Jane Doe")
               (Error "Request failed with status code 503")).
      + discriminate.
      + reflexivity.
      + vm_compute. reflexivity. }
  split; [exact Hfail |].
  split; [do 2 eexists; vm_compute; split; reflexivity |].
  split; [do 2 eexists; vm_compute; split; reflexivity |].
  destruct (failure_is_all_or_nothing Scenario.email_down
              [CV; CoverLetter; CoverLetter; Email] req Scenario.uploads Hfail)
    as [msg Hmsg].
  unfold o. rewrite Hmsg. vm_compute in Hmsg. injection Hmsg as <-. reflexivity.
Defined.
End All_or_nothing_witness.

Section First_failure.
Import JS Base64 Server Notions.
Variable env : Env.
Variable req : Request.
Variable uploads : gmap string Buffer.

(** X8. When the completion for the cover letter and the completion for
    the email both fail, the message of the 500 response is that of the
    one that settles first: the order of settling, which the program does
    not control, decides which error the user is shown.  The two
    completions are those of a candidate whose name can be converted to
    a string; without such a name neither is asked for. *)
Theorem first_failure_is_reported (options cvData : JSON) (cvFile : File)
    (cvContent raw : string) (candidateName : Value) (name : string) (e1 e2 : Exn)
    (later : list Kind) :
  Answered env req uploads options cvFile cvContent raw ->
  JSON_parse env (cleaned raw) = inr cvData ->
  candidate_name cvData = Ok candidateName ->
  tpl env candidateName = Ok name ->
  selects env options CV = false ->
  selects env options CoverLetter = true ->
  selects env options Email = true ->
  post env (coverLetter_request env cvContent (field_text (body_jobDescription req)) name)
  = Throw e1 ->
  post env (email_request env (field_text (body_jobDescription req)) name) = Throw e2 ->
  response (handler env (CoverLetter :: later) req uploads)
  = {| status := 500; body := Failure (message e1) |}
  /\ response (handler env (Email :: later) req uploads)
     = {| status := 500; body := Failure (message e2) |}.
Proof.
  intros Ha Hp Hname Htpl Hcv Hcl Hem H1 H2. unfold cleaned in Hp.
  unfold candidate_name in Hname.
  destruct (get (Some cvData) "personalInfo") as [personalInfo|x] eqn:E1;
    [|discriminate]. simpl in Hname.
  apply selects_true in Hcl as (wants_cl & Ecl & Bcl).
  apply selects_true in Hem as (wants_em & Eem & Bem).
  destruct (get_other options "coverLetter" "cv" _ Ecl) as [wants_cv Ecv].
  rewrite (selects_get env options CV _ Ecv) in Hcv.
  change (key CoverLetter) with "coverLetter" in Ecl.
  change (key Email) with "email" in Eem.
  assert (Hrun : forall k e,
            (k = CoverLetter /\ e = e1) \/ (k = Email /\ e = e2) ->
            response (handler env (k :: later) req uploads)
            = {| status := 500; body := Failure (message e) |}).
  { intros k e Hk. unfold handler.
    rewrite (tailor_cv_answered env _ req uploads _ _ _ _ Ha).
    erewrite bind_ok by (rewrite call_JSON_parse_runs, Hp; reflexivity).
    unfold fan_out.
    rewrite (bind_lift_ok _ _ _ _ E1), (bind_lift_ok _ _ _ _ Hname). cbv zeta.
    rewrite (bind_lift_ok _ _ _ _ Ecv).
    erewrite bind_ok by (rewrite push_if_runs, Hcv; reflexivity).
    rewrite (bind_lift_ok _ _ _ _ Ecl).
    erewrite bind_ok by (rewrite push_if_runs, Bcl; reflexivity).
    rewrite (bind_lift_ok _ _ _ _ Eem).
    erewrite bind_ok by (rewrite push_if_runs, Bem; reflexivity).
    match goal with
    | |- context [(Promise_all env ?s ?ts ≫= _) ?st] =>
        assert (HP : exists st4, Promise_all env s ts st = (Throw e, st4))
    end.
    { unfold coverLetter_request in H1. unfold email_request in H2.
      unfold coverLetter_task, email_task, generateCoverLetter, generateApplicationEmail.
      rewrite Htpl.
      destruct Hk as [[-> ->]|[-> ->]]; simpl.
      - rewrite H1. simpl. eexists. apply Promise_all_rejected. reflexivity.
      - rewrite H2. simpl. eexists. apply Promise_all_rejected. reflexivity. }
    destruct HP as [st4 HP]. rewrite (bind_throw _ _ _ _ _ HP). reflexivity. }
  split; apply Hrun; [left | right]; split; reflexivity.
Qed.
End First_failure.

Section First_failure_witness.
Import JS Base64 Server Notions.

Lemma first_failure_is_reported_witness :
  let req := Scenario.request Scenario.job Cases.letters_pdf in
  response (handler Cases.both_down [CoverLetter; CV] req Scenario.uploads)
  = {| status := 500; body := Failure "Request failed with status code 429" |}
  /\ response (handler Cases.both_down [Email; CV] req Scenario.uploads)
     = {| status := 500; body := Failure "Request failed with status code 503" |}.
Proof.
  apply (first_failure_is_reported Cases.both_down
           (Scenario.request Scenario.job Cases.letters_pdf) Scenario.uploads
           (Scenario.parsed Cases.letters_pdf) (Scenario.parsed Scenario.resume_json)
           Scenario.jane_upload "Jane Doe, jane@x.com, 555-1234, Boston"
           Scenario.fenced_resume (str "Jane Doe") "Jane Doe"
           (Error "Request failed with status code 429")
           (Error "Request failed with status code 503") [CV]).
  - split; try (vm_compute; reflexivity).
    exists Scenario.upload_bytes. split; vm_compute; reflexivity.
  - vm_compute. reflexivity.
  - vm_compute. reflexivity.
  - vm_compute. reflexivity.
  - vm_compute. reflexivity.
  - vm_compute. reflexivity.
  - vm_compute. reflexivity.
  - vm_compute. reflexivity.
  - vm_compute. reflexivity.
Defined.
End First_failure_witness.

(* ===================================================================== *)
(** * The completions a request asks for *)
(* ===================================================================== *)

Section Silence.
Import JS Base64 Server Notions.
Variable env : Env.

Lemma sent_app (a b : list Event) : sent (a ++ b) = sent a ++ sent b.
Proof. apply omap_app. Qed.

Lemma sent_log (e : Event) (st : State) :
  sent (trace (log e st)) = sent (trace st) ++ sent [e].
Proof. apply sent_app. Qed.

(** Events that are no request leave the list of requests as it is. *)
Ltac no_request :=
  simpl; rewrite ?sent_log, ?sent_app; simpl; rewrite ?app_nil_r; try reflexivity.

Lemma await_silent (c : Async unit) :
  Silent c -> forall st, sent (trace (await env c st).2) = sent (trace st).
Proof.
  induction 1 as [u|x|f c Hc IH|j k Hk IH]; intros st; simpl; try reflexivity.
  - rewrite IH. reflexivity.
  - destruct (render env j) as [buffer|x]; simpl.
    + rewrite IH. no_request.
    + no_request.
Qed.

Lemma start_silent (c : Async unit) :
  Silent c ->
  forall st, sent (trace (start c st).2) = sent (trace st)
             /\ Promise_silent (start c st).1.
Proof.
  induction 1 as [u|x|f c Hc IH|j k Hk IH]; intros st; simpl.
  - split; [reflexivity | exact I].
  - split; [reflexivity | exact I].
  - destruct (IH (update_results f st)) as [E S]. split; [exact E | exact S].
  - split; [|exact Hk]. no_request.
Qed.

Lemma resume_silent (p : Promise) (st : State) :
  Promise_silent p ->
  sent (trace (resume env p st).2) = sent (trace st)
  /\ Promise_silent (resume env p st).1.
Proof.
  destruct p as [r|r k|j k]; simpl; intros H.
  - split; [reflexivity | exact I].
  - destruct (post env r) as [content|x].
    + destruct (start_silent _ (H content) (log (Replied r true) st)) as [E S].
      split; [|exact S]. rewrite E. no_request.
    + split; [|exact I]. no_request.
  - destruct (render env j) as [buffer|x].
    + destruct (start_silent _ (H buffer) (log (Rendered j true) st)) as [E S].
      split; [|exact S]. rewrite E. no_request.
    + split; [|exact I]. no_request.
Qed.

Lemma finish_silent (p : Promise) (st : State) :
  Promise_silent p -> sent (trace (finish env p st).2) = sent (trace st).
Proof.
  destruct p as [r|r k|j k]; simpl; intros H.
  - reflexivity.
  - destruct (post env r) as [content|x]; simpl.
    + rewrite (await_silent _ (H content)). no_request.
    + no_request.
  - destruct (render env j) as [buffer|x]; simpl.
    + rewrite (await_silent _ (H buffer)). no_request.
    + no_request.
Qed.

Lemma step_silent (k : Kind) (tasks : list Task) :
  Forall (fun t : Task => Promise_silent (snd t)) tasks ->
  forall st,
    sent (trace (step env k tasks st).2) = sent (trace st)
    /\ Forall (fun t : Task => Promise_silent (snd t)) (step env k tasks st).1.
Proof.
  induction 1 as [|[k' p] rest Hp Hrest IH]; intros st; simpl.
  - split; [reflexivity | constructor].
  - destruct (decide (k = k')).
    + destruct (resume_silent p st Hp) as [E S].
      destruct (resume env p st) as [p' st']. simpl in *.
      split; [exact E |]. constructor; assumption.
    + destruct (IH st) as [E S].
      destruct (step env k rest st) as [rest' st']. simpl in *.
      split; [exact E |]. constructor; assumption.
Qed.

Lemma drain_silent (tasks : list Task) :
  Forall (fun t : Task => Promise_silent (snd t)) tasks ->
  forall st, sent (trace (drain env tasks st).2) = sent (trace st).
Proof.
  induction 1 as [|[k p] rest Hp Hrest IH]; intros st; simpl; [reflexivity |].
  unfold mbind, M_bind.
  pose proof (finish_silent p st Hp) as E.
  destruct (finish env p st) as [[u|x] st']; simpl in E.
  - rewrite IH. exact E.
  - exact E.
Qed.

(** While the handler waits, no completion is asked for: the tasks have
    sent their requests when they were started. *)
Lemma Promise_all_silent (schedule : list Kind) :
  forall tasks st,
    Forall (fun t : Task => Promise_silent (snd t)) tasks ->
    sent (trace (Promise_all env schedule tasks st).2) = sent (trace st).
Proof.
  induction schedule as [|k later IH]; intros tasks st H; simpl.
  - destruct (first_rejection tasks); [reflexivity | apply drain_silent, H].
  - destruct (first_rejection tasks); [reflexivity |].
    destruct (step_silent k tasks H st) as [E S].
    destruct (step env k tasks st) as [tasks' st']. simpl in *.
    rewrite (IH _ _ S). exact E.
Qed.
End Silence.

Section Requests_of_the_tasks.
Import JS Base64 Server Notions.
Variable env : Env.

Lemma cv_task_silent (options cvData candidateName : Value) (raw : string) :
  Silent (cv_task env options cvData candidateName raw).
Proof.
  unfold cv_task.
  destruct (tpl env candidateName) as [name|x]; simpl; [|constructor].
  destruct (get options "format") as [format|x]; simpl; [|constructor].
  destruct (tpl env format) as [extension|x]; simpl; [|constructor].
  constructor.
  assert (Hshape :
    (exists j, (if strict_eq_string format "pdf" then generateCVPDF env cvData
                else generateCVDocx env cvData)
               = AwaitRender j (fun buffer => Return buffer))
    \/ (exists x, (if strict_eq_string format "pdf" then generateCVPDF env cvData
                   else generateCVDocx env cvData) = Raise x)).
  { destruct (strict_eq_string format "pdf");
      [apply generateCVPDF_shape | apply generateCVDocx_shape]. }
  destruct Hshape as [[j ->]|[x ->]]; simpl; repeat constructor.
Qed.

(** What a text task does once the model has replied. *)
Lemma text_tail_silent (options candidateName : Value) (k : Kind) (title text : string) :
  Silent
    (name ← now (tpl env candidateName);
     format ← now (get options "format");
     extension ← now (tpl env format);
     Assign (set_entry k {| preview := text;
                            fileName := name +:+ suffix k +:+ extension;
                            fileData := None |})
       (buffer ← (if strict_eq_string format "pdf" then generateTextPDF title text
                  else generateTextDocx title text);
        Assign (set_fileData k (toString_base64 buffer)) (Return ()))).
Proof.
  destruct (tpl env candidateName) as [name|x]; simpl; [|constructor].
  destruct (get options "format") as [format|x]; simpl; [|constructor].
  destruct (tpl env format) as [extension|x]; simpl; [|constructor].
  constructor. destruct (strict_eq_string format "pdf"); simpl; repeat constructor.
Qed.

Lemma start_cv_task_sent (options cvData candidateName : Value) (raw : string) (st : State) :
  sent (trace (start (cv_task env options cvData candidateName raw) st).2)
  = sent (trace st) ++ []
  /\ Promise_silent (start (cv_task env options cvData candidateName raw) st).1.
Proof. rewrite app_nil_r. apply start_silent, cv_task_silent. Qed.

Lemma start_coverLetter_task_sent (options candidateName : Value)
    (cvContent jobDescription : string) (st : State) :
  sent (trace (start (coverLetter_task env options candidateName cvContent jobDescription)
                 st).2)
  = sent (trace st)
    ++ match tpl env candidateName with
       | Ok name => [coverLetter_request env cvContent jobDescription name]
       | Throw _ => []
       end
  /\ Promise_silent
       (start (coverLetter_task env options candidateName cvContent jobDescription) st).1.
Proof.
  destruct (tpl env candidateName) as [name|x] eqn:Htpl.
  - split.
    + rewrite (start_coverLetter_task env _ _ _ _ _ _ Htpl). apply sent_log.
    + unfold coverLetter_task, generateCoverLetter. rewrite Htpl.
      intros text. rewrite <- Htpl. apply (text_tail_silent options candidateName CoverLetter).
  - unfold coverLetter_task, generateCoverLetter. rewrite Htpl. simpl.
    rewrite app_nil_r. split; [reflexivity | exact I].
Qed.

Lemma start_email_task_sent (options candidateName : Value)
    (cvContent jobDescription : string) (st : State) :
  sent (trace (start (email_task env options candidateName cvContent jobDescription) st).2)
  = sent (trace st)
    ++ match tpl env candidateName with
       | Ok name => [email_request env jobDescription name]
       | Throw _ => []
       end
  /\ Promise_silent
       (start (email_task env options candidateName cvContent jobDescription) st).1.
Proof.
  destruct (tpl env candidateName) as [name|x] eqn:Htpl.
  - split.
    + rewrite (start_email_task env _ _ _ _ _ _ Htpl). apply sent_log.
    + unfold email_task, generateApplicationEmail. rewrite Htpl.
      intros text. rewrite <- Htpl. apply (text_tail_silent options candidateName Email).
  - unfold email_task, generateApplicationEmail. rewrite Htpl. simpl.
    rewrite app_nil_r. split; [reflexivity | exact I].
Qed.

Lemma push_if_sent (selected : Value) (k : Kind) (c : Async unit)
    (promises : list Task) (st : State) (requests : list CompletionRequest) :
  (sent (trace (start c st).2) = sent (trace st) ++ requests
   /\ Promise_silent (start c st).1) ->
  Forall (fun t : Task => Promise_silent (snd t)) promises ->
  exists promises' st',
    push_if env selected k c promises st = (Ok promises', st')
    /\ sent (trace st')
       = sent (trace st)
         ++ (if ToBoolean (Number_toBoolean env) selected then requests else [])
    /\ Forall (fun t : Task => Promise_silent (snd t)) promises'.
Proof.
  intros [E S] H. rewrite push_if_runs.
  destruct (ToBoolean (Number_toBoolean env) selected).
  - do 2 eexists. split; [reflexivity |]. split; [exact E |].
    apply Forall_app. split; [exact H | repeat constructor; exact S].
  - do 2 eexists. split; [reflexivity |]. split; [symmetry; apply app_nil_r | exact H].
Qed.

Variable schedule : list Kind.

(** The completions the fan-out asks for: none if it stops before it
    starts a task, else those of the selected text kinds, in the order
    cover letter, email. *)
Lemma fan_out_sent (options cvData : JSON) (cvFile : File)
    (cvContent jobDescription raw : string) (st st' : State) (r : Res Response) :
  fan_out env schedule options cvData cvFile cvContent jobDescription raw st = (r, st') ->
  (is_ok r = false /\ sent (trace st') = sent (trace st))
  \/ (exists candidateName,
        candidate_name cvData = Ok candidateName
        /\ sent (trace st')
           = sent (trace st)
             ++ task_completions env options cvContent jobDescription candidateName).
Proof.
  intros Hrun. unfold fan_out in Hrun. unfold candidate_name.
  destruct (get (Some cvData) "personalInfo") as [personalInfo|x] eqn:E1;
    [rewrite (bind_lift_ok _ _ _ _ eq_refl) in Hrun
    |rewrite (bind_lift_throw _ _ _ _ eq_refl) in Hrun; injection Hrun as <- <-;
     left; split; reflexivity].
  destruct (get personalInfo "fullName") as [candidateName|x] eqn:E2;
    [rewrite (bind_lift_ok _ _ _ _ eq_refl) in Hrun
    |rewrite (bind_lift_throw _ _ _ _ eq_refl) in Hrun; injection Hrun as <- <-;
     left; split; reflexivity].
  cbv zeta in Hrun.
  destruct (get (Some options) "cv") as [wants_cv|x] eqn:Ecv;
    [rewrite (bind_lift_ok _ _ _ _ eq_refl) in Hrun
    |rewrite (bind_lift_throw _ _ _ _ eq_refl) in Hrun; injection Hrun as <- <-;
     left; split; reflexivity].
  destruct (get_other options "cv" "coverLetter" _ Ecv) as [wants_coverLetter Ecl].
  destruct (get_other options "cv" "email" _ Ecv) as [wants_email Eem].
  right. exists candidateName. split; [exact E2 |].
  destruct (push_if_sent wants_cv CV _ [] st []
              (start_cv_task_sent (Some options) (Some cvData) candidateName raw st)
              (List.Forall_nil _))
    as (p1 & st1 & R1 & S1 & F1).
  rewrite (bind_ok _ _ _ _ _ R1), (bind_lift_ok _ _ _ _ Ecl) in Hrun.
  destruct (push_if_sent wants_coverLetter CoverLetter _ p1 st1 _
              (start_coverLetter_task_sent (Some options) candidateName cvContent
                 jobDescription st1) F1)
    as (p2 & st2 & R2 & S2 & F2).
  rewrite (bind_ok _ _ _ _ _ R2), (bind_lift_ok _ _ _ _ Eem) in Hrun.
  destruct (push_if_sent wants_email Email _ p2 st2 _
              (start_email_task_sent (Some options) candidateName cvContent
                 jobDescription st2) F2)
    as (p3 & st3 & R3 & S3 & F3).
  rewrite (bind_ok _ _ _ _ _ R3) in Hrun.
  assert (H3 : sent (trace st3)
               = sent (trace st)
                 ++ task_completions env options cvContent jobDescription candidateName).
  { rewrite S3, S2, S1. unfold task_completions.
    rewrite (selects_get env options CoverLetter _ Ecl), (selects_get env options Email _ Eem).
    destruct (tpl env candidateName) as [name|x];
      destruct (ToBoolean _ wants_cv), (ToBoolean _ wants_coverLetter),
               (ToBoolean _ wants_email);
      rewrite ?app_nil_r, <- ?app_assoc; reflexivity. }
  pose proof (Promise_all_silent env schedule p3 st3 F3) as S4.
  destruct (Promise_all env schedule p3 st3) as [[u|x] st4] eqn:E4; simpl in S4.
  2:{ rewrite (bind_throw _ _ _ _ _ E4) in Hrun. injection Hrun as <- <-.
      rewrite S4. exact H3. }
  rewrite (bind_ok _ _ _ _ _ E4) in Hrun.
  destruct (unlinkSync_runs (path cvFile) st4) as [(buffer & _ & R5)|(_ & x & R5)].
  - rewrite (bind_ok _ _ _ _ _ R5) in Hrun. unfold res_json in Hrun.
    injection Hrun as <- <-. simpl. rewrite sent_app. simpl. rewrite app_nil_r, S4.
    exact H3.
  - rewrite (bind_throw _ _ _ _ _ R5) in Hrun. injection Hrun as <- <-.
    simpl. rewrite sent_app. simpl. rewrite app_nil_r, S4. exact H3.
Qed.
End Requests_of_the_tasks.

Section Completions.
Import JS Base64 Server Notions.
Variable env : Env.
Variable schedule : list Kind.
Variable req : Request.
Variable uploads : gmap string Buffer.

(** A request that stops before the model has answered has asked for
    nothing, or for the résumé only. *)
Lemma tailor_cv_early_sent :
  (exists options cvFile cvContent raw,
      Answered env req uploads options cvFile cvContent raw)
  \/ (exists x st,
        tailor_cv env schedule req (entered uploads) = (Throw x, st)
        /\ (sent (trace st) = []
            \/ exists cvContent,
                 sent (trace st)
                 = [tailoredCV_request env cvContent (field_text (body_jobDescription req))])).
Proof.
  unfold tailor_cv.
  destruct (JSON_parse env (field_text (body_options req))) as [msg|options] eqn:Ho.
  { right. erewrite bind_throw by (rewrite call_JSON_parse_runs, Ho; reflexivity).
    do 2 eexists. split; [reflexivity |]. left. reflexivity. }
  erewrite bind_ok by (rewrite call_JSON_parse_runs, Ho; reflexivity).
  destruct (file req) as [cvFile|] eqn:Hf.
  2:{ right. erewrite bind_lift_throw by reflexivity.
      do 2 eexists. split; [reflexivity |]. left. reflexivity. }
  erewrite bind_lift_ok by reflexivity.
  destruct (uploads !! path cvFile) as [buffer|] eqn:Hb.
  2:{ right. erewrite bind_throw
        by (rewrite parseCVContent_runs; simpl; rewrite Hb; reflexivity).
      do 2 eexists. split; [reflexivity |]. left. reflexivity. }
  destruct (extraction env (mimetype cvFile) buffer) as [cvContent|x] eqn:He.
  2:{ right. erewrite bind_throw
        by (rewrite parseCVContent_runs; simpl; rewrite Hb, He; reflexivity).
      do 2 eexists. split; [reflexivity |]. left. reflexivity. }
  erewrite bind_ok
    by (rewrite parseCVContent_runs; simpl; rewrite Hb, He; reflexivity).
  destruct (post env (tailoredCV_request env cvContent
                        (field_text (body_jobDescription req)))) as [raw|x] eqn:Hr.
  2:{ right. erewrite bind_throw
        by (rewrite generateTailoredCV_runs; simpl; rewrite Hr; reflexivity).
      do 2 eexists. split; [reflexivity |]. right. exists cvContent. reflexivity. }
  left. exists options, cvFile, cvContent, raw. split; eauto.
Qed.

(** The completions of a request, however it ends. *)
Lemma handler_sent :
  let o := handler env schedule req uploads in
  (status (response o) = 500%Z
   /\ (sent (trace (final o)) = []
       \/ exists cvContent,
            sent (trace (final o))
            = [tailoredCV_request env cvContent (field_text (body_jobDescription req))]))
  \/ (exists options cvFile cvContent raw cvData candidateName,
        Answered env req uploads options cvFile cvContent raw
        /\ JSON_parse env (cleaned raw) = inr cvData
        /\ candidate_name cvData = Ok candidateName
        /\ sent (trace (final o))
           = tailoredCV_request env cvContent (field_text (body_jobDescription req))
             :: task_completions env options cvContent
                  (field_text (body_jobDescription req)) candidateName).
Proof.
  cbv zeta. unfold handler.
  destruct tailor_cv_early_sent
    as [(options & cvFile & cvContent & raw & Ha)|(x & st & Hrun & Hsent)].
  2:{ left. rewrite Hrun. split; [reflexivity | exact Hsent]. }
  rewrite (tailor_cv_answered env schedule req uploads _ _ _ _ Ha).
  destruct (JSON_parse env (trim (replace_all fences raw))) as [msg|cvData] eqn:Hp.
  { left. erewrite bind_throw by (rewrite call_JSON_parse_runs, Hp; reflexivity).
    split; [reflexivity |]. right. exists cvContent. reflexivity. }
  erewrite bind_ok by (rewrite call_JSON_parse_runs, Hp; reflexivity).
  match goal with
  | |- context [fan_out _ _ _ _ _ _ _ _ ?st] => set (st6 := st)
  end.
  destruct (fan_out env schedule options cvData cvFile cvContent
              (field_text (body_jobDescription req)) raw st6) as [r st'] eqn:Hrun.
  destruct (fan_out_sent env schedule _ _ _ _ _ _ _ _ _ Hrun)
    as [[Hr Hs]|(name & Hn & Hs)].
  - left. destruct r as [res|x]; [discriminate Hr |]. simpl.
    split; [reflexivity |]. right. exists cvContent. rewrite Hs. reflexivity.
  - right. exists options, cvFile, cvContent, raw, cvData, name.
    split; [exact Ha |]. split; [exact Hp |]. split; [exact Hn |].
    destruct r as [res|x]; simpl; rewrite Hs; reflexivity.
Qed.

(** X9. A request answered 200 has asked the model for the résumé, then
    for the cover letter if it was selected, then for the email if it was
    selected, and for nothing else: each completion is requested once, the
    résumé's also when the CV is not among the documents asked for. *)
Theorem completions_of_a_served_request :
  let o := handler env schedule req uploads in
  status (response o) = 200%Z ->
  exists options cvFile cvContent raw cvData candidateName,
    Answered env req uploads options cvFile cvContent raw
    /\ JSON_parse env (cleaned raw) = inr cvData
    /\ candidate_name cvData = Ok candidateName
    /\ completions env options cvContent (field_text (body_jobDescription req))
         candidateName
       = Ok (sent (trace (final o))).
Proof.
  cbv zeta. intros Hs.
  destruct (handler_documents env schedule req uploads Hs)
    as (o & f & c & r & d & n & fmt & Ha & Hp & Hn & Hfmt & _ & Hk).
  destruct handler_sent
    as [[H500 _]|(o' & f' & c' & r' & d' & n' & Ha' & Hp' & Hn' & Hsent)];
    [rewrite H500 in Hs; discriminate Hs |].
  destruct (Answered_unique _ _ _ _ _ _ _ _ _ _ _ Ha Ha') as (<- & <- & <- & <-).
  assert (d = d') by congruence. subst d'.
  assert (n = n') by congruence. subst n'.
  exists o, f, c, r, d, n.
  split; [exact Ha |]. split; [exact Hp |]. split; [exact Hn |].
  rewrite Hsent. unfold completions, task_completions, text_request.
  assert (Hconv : forall k, selects env o k = true -> exists name, tpl env n = Ok name).
  { intros k Hsel. specialize (Hk k). rewrite Hsel in Hk.
    destruct Hk as (e & _ & (Hfile & _) & _). unfold file_name in Hfile.
    destruct (tpl env n) as [name|x]; [exists name; reflexivity | discriminate Hfile]. }
  destruct (selects env o CoverLetter) eqn:Ecl.
  { destruct (Hconv _ Ecl) as [name ->]. simpl.
    destruct (selects env o Email); reflexivity. }
  destruct (selects env o Email) eqn:Eem.
  { destruct (Hconv _ Eem) as [name ->]. reflexivity. }
  destruct (tpl env n); reflexivity.
Qed.

Lemma completion_request_well_addressed (systemPrompt userPrompt : string) (maxTokens : Z) :
  (maxTokens = 4000 \/ maxTokens = 2048 \/ maxTokens = 1024)%Z ->
  well_addressed env (completion_request env systemPrompt userPrompt maxTokens).
Proof. intros H. repeat split. exact H. Qed.

(** X10. However a request ends, it has posted at most three completion
    requests, and each of them went to the one endpoint, for the one
    model, at temperature 0.5, with at most 4000, 2048 or 1024 tokens and
    with the configured key as bearer credential; without a configured key
    the request is posted all the same, with the word [undefined] in the
    place of the key. *)
Theorem at_most_three_completions :
  let o := handler env schedule req uploads in
  length (sent (trace (final o))) <= 3
  /\ Forall (well_addressed env) (sent (trace (final o))).
Proof.
  cbv zeta.
  destruct handler_sent
    as [[_ [->|[cvContent ->]]]|(options & f & cvContent & raw & d & name & _ & _ & _ & ->)].
  - split; [simpl; lia | constructor].
  - split; [simpl; lia |]. constructor; [|constructor].
    apply completion_request_well_addressed. left. reflexivity.
  - unfold task_completions.
    destruct (tpl env name) as [converted|x];
      destruct (selects env options CoverLetter), (selects env options Email);
      (split; [simpl; lia |]);
      repeat (constructor;
              [apply completion_request_well_addressed; auto |]); constructor.
Qed.
End Completions.

Section Completions_witness.
Import JS Base64 Server Notions.

Lemma completions_of_a_served_request_witness :
  let o := handler Scenario.all_well [Email]
             (Scenario.request Scenario.job Scenario.all_pdf) Scenario.uploads in
  status (response o) = 200%Z
  /\ exists options cvFile cvContent raw cvData candidateName,
       Answered Scenario.all_well (Scenario.request Scenario.job Scenario.all_pdf)
         Scenario.uploads options cvFile cvContent raw
       /\ JSON_parse Scenario.all_well (cleaned raw) = inr cvData
       /\ candidate_name cvData = Ok candidateName
       /\ completions Scenario.all_well options cvContent Scenario.job candidateName
          = Ok (sent (trace (final o))).
Proof.
  split; [vm_compute; reflexivity |].
  apply (completions_of_a_served_request Scenario.all_well [Email]
           (Scenario.request Scenario.job Scenario.all_pdf) Scenario.uploads).
  vm_compute. reflexivity.
Defined.
End Completions_witness.

(* ===================================================================== *)
(** * What a response holds and what a request leaves behind *)
(* ===================================================================== *)

Section Contents.
Import JS Base64 Server Notions.
Variable env : Env.
Variable schedule : list Kind.
Variable req : Request.
Variable uploads : gmap string Buffer.

(** X11. A request touches no file of the upload directory but its own
    upload: every other file is, when the response is sent, what it was
    when the handler was entered. *)
Theorem other_uploads_are_untouched (p : string) :
  (forall f, file req = Some f -> path f <> p) ->
  files (final (handler env schedule req uploads)) !! p = uploads !! p.
Proof.
  intros Hp.
  destruct (handler_spec env schedule req uploads)
    as [(o & f & c & r & d & n & fmt & tl & Ha & _ & _ & _ & _ & _ & _ & Hf & _)
       |(x & _ & _ & Hf & _)].
  - rewrite Hf. apply lookup_delete_ne. apply Hp. apply Ha.
  - rewrite Hf. reflexivity.
Qed.

(** What [cv_task] leaves in [results.cv] when it runs alone. *)
Lemma cv_task_effect (options cvData : JSON) (candidateName format : Value) (raw : string)
    (e : Entry) :
  get (Some options) "format" = Ok format ->
  Some e = entry CV (effect env (cv_task env (Some options) (Some cvData) candidateName raw)
                       no_results) ->
  is_Some (fileData e) ->
  exists job buffer,
    cv_document env format (Some cvData) = Ok job
    /\ render env job = Ok buffer
    /\ fileData e = Some (toString_base64 buffer).
Proof.
  intros Hf He Hdata. unfold cv_task in He. rewrite Hf in He.
  destruct (tpl env candidateName) as [name|x]; simpl in He; [|discriminate He].
  destruct (tpl env format) as [extension|x]; simpl in He; [|discriminate He].
  unfold cv_document.
  destruct (strict_eq_string format "pdf").
  - unfold generateCVPDF in He.
    destruct (pdf_calls env (Some cvData)) as [calls|x]; simpl in He.
    + destruct (PDFDocument_output env {| pdf_margin := 40; calls := calls |})
        as [buffer|x] eqn:Hr; simpl in He.
      * injection He as ->. do 2 eexists. split; [reflexivity |]. split; [exact Hr |].
        reflexivity.
      * injection He as ->. destruct Hdata as [? Hd]. discriminate Hd.
    + injection He as ->. destruct Hdata as [? Hd]. discriminate Hd.
  - unfold generateCVDocx in He.
    destruct (docx_children env (Some cvData)) as [children|x]; simpl in He.
    + match type of He with
      | context [Packer_toBuffer env ?d] =>
          destruct (Packer_toBuffer env d) as [buffer|x] eqn:Hr; simpl in He
      end.
      * injection He as ->. do 2 eexists. split; [reflexivity |]. split; [exact Hr |].
        reflexivity.
      * injection He as ->. destruct Hdata as [? Hd]. discriminate Hd.
    + injection He as ->. destruct Hdata as [? Hd]. discriminate Hd.
Qed.

(** What the task of a text kind leaves in its entry when it runs
    alone. *)
Lemma text_task_effect (options cvData : JSON) (candidateName format : Value)
    (cvContent jobDescription raw : string) (k : Kind) (e : Entry) :
  k <> CV ->
  get (Some options) "format" = Ok format ->
  Some e = entry k (effect env (task env options cvData candidateName cvContent
                                  jobDescription raw k) no_results) ->
  is_Some (fileData e) ->
  exists request text buffer,
    text_request env cvContent jobDescription candidateName k = Ok request
    /\ post env request = Ok text
    /\ preview e = text
    /\ render env (text_document (title_of k) text) = Ok buffer
    /\ fileData e = Some (toString_base64 buffer).
Proof.
  intros Hk Hf He Hdata.
  assert (Hnone : forall a : Entry, None = Some a -> False) by discriminate.
  destruct k; [contradiction | |]; unfold task in He; unfold text_request.
  - unfold coverLetter_task, generateCoverLetter, coverLetter_request in *.
    rewrite Hf in He.
    destruct (tpl env candidateName) as [name|x]; simpl in He;
      [|destruct (Hnone _ (eq_sym He))].
    destruct (post env _) as [text|x] eqn:Hpost; simpl in He;
      [|destruct (Hnone _ (eq_sym He))].
    destruct (tpl env format) as [extension|x]; simpl in He;
      [|destruct (Hnone _ (eq_sym He))].
    destruct (strict_eq_string format "pdf"); simpl in He.
    + match type of He with
      | context [PDFDocument_output env ?d] =>
          destruct (PDFDocument_output env d) as [buffer|x] eqn:Hr; simpl in He
      end.
      * injection He as ->. eexists. exists text, buffer.
        split; [reflexivity |]. split; [exact Hpost |]. repeat split. exact Hr.
      * injection He as ->. destruct Hdata as [? Hd]. discriminate Hd.
    + injection He as ->. destruct Hdata as [? Hd]. discriminate Hd.
  - unfold email_task, generateApplicationEmail, email_request in *.
    rewrite Hf in He.
    destruct (tpl env candidateName) as [name|x]; simpl in He;
      [|destruct (Hnone _ (eq_sym He))].
    destruct (post env _) as [text|x] eqn:Hpost; simpl in He;
      [|destruct (Hnone _ (eq_sym He))].
    destruct (tpl env format) as [extension|x]; simpl in He;
      [|destruct (Hnone _ (eq_sym He))].
    destruct (strict_eq_string format "pdf"); simpl in He.
    + match type of He with
      | context [PDFDocument_output env ?d] =>
          destruct (PDFDocument_output env d) as [buffer|x] eqn:Hr; simpl in He
      end.
      * injection He as ->. eexists. exists text, buffer.
        split; [reflexivity |]. split; [exact Hpost |]. repeat split. exact Hr.
      * injection He as ->. destruct Hdata as [? Hd]. discriminate Hd.
    + injection He as ->. destruct Hdata as [? Hd]. discriminate Hd.
Qed.

(** The document of a kind in a response, and what the rendering
    library returned for it. *)
Lemma task_document (options cvData : JSON) (candidateName format : Value)
    (cvContent jobDescription raw : string) (k : Kind) (e : Entry) :
  get (Some options) "format" = Ok format ->
  Some e = entry k (effect env (task env options cvData candidateName cvContent
                                  jobDescription raw k) no_results) ->
  is_Some (fileData e) ->
  exists job buffer,
    document env options cvData candidateName cvContent jobDescription k = Ok job
    /\ render env job = Ok buffer
    /\ fileData e = Some (toString_base64 buffer).
Proof.
  intros Hf He Hdata. destruct (decide (k = CV)) as [->|Hk].
  - destruct (cv_task_effect options cvData candidateName format raw e Hf He Hdata)
      as (job & buffer & Hjob & Hrender & Hd).
    exists job, buffer. split; [|split; assumption].
    unfold document. rewrite Hf. exact Hjob.
  - destruct (text_task_effect options cvData candidateName format cvContent jobDescription
                raw k e Hk Hf He Hdata)
      as (request & text & buffer & Hreq & Hpost & _ & Hrender & Hd).
    exists (text_document (title_of k) text), buffer. split; [|split; assumption].
    unfold document. destruct k; [contradiction | |]; rewrite Hreq; simpl;
      rewrite Hpost; reflexivity.
Qed.

Lemma produced_fileData (candidateName format : Value) (raw : string) (k : Kind) (e : Entry) :
  produced env candidateName format raw k e -> is_Some (fileData e).
Proof. intros (_ & (buffer & ->) & _). eexists. reflexivity. Qed.

(** X12. The CV of a 200 response is the file a rendering library
    returned for the document built from the parsed résumé, in base64: the
    PDF library's when [options.format] is the string [pdf], the DOCX
    library's for any other value of [format], a missing one included. *)
Theorem cv_file_follows_the_format (docs : Results) (e : Entry) :
  response (handler env schedule req uploads)
  = {| status := 200; body := Success docs |} ->
  entry CV docs = Some e ->
  exists options cvFile cvContent raw cvData format job buffer,
    Answered env req uploads options cvFile cvContent raw
    /\ JSON_parse env (cleaned raw) = inr cvData
    /\ get (Some options) "format" = Ok format
    /\ cv_document env format (Some cvData) = Ok job
    /\ render env job = Ok buffer
    /\ fileData e = Some (toString_base64 buffer).
Proof.
  intros Hres He.
  assert (Hs : status (response (handler env schedule req uploads)) = 200%Z)
    by (rewrite Hres; reflexivity).
  destruct (handler_documents env schedule req uploads Hs)
    as (o & f & c & r & d & n & fmt & Ha & Hp & Hn & Hfmt & Hr & Hk).
  rewrite Hr in Hres. injection Hres as <-.
  specialize (Hk CV). destruct (selects env o CV); [|congruence].
  destruct Hk as (e' & He' & Hprod & Heff).
  assert (e' = e) by congruence. subst e'.
  destruct (cv_task_effect o d n fmt r e Hfmt Heff (produced_fileData _ _ _ _ _ Hprod))
    as (job & buffer & Hjob & Hrender & Hdata).
  exists o, f, c, r, d, fmt, job, buffer.
  split; [exact Ha |]. repeat (split; [assumption |]). assumption.
Qed.

(** X13. A cover letter or an email of a 200 response is the model's
    reply and its rendering: the preview is the text the model sent in
    reply to the request of that kind, and the file is what the PDF
    library returned for that very text under the title of the kind, in
    base64. *)
Theorem text_document_is_the_reply (docs : Results) (k : Kind) (e : Entry) :
  response (handler env schedule req uploads)
  = {| status := 200; body := Success docs |} ->
  k <> CV ->
  entry k docs = Some e ->
  exists options cvFile cvContent raw cvData candidateName request text buffer,
    Answered env req uploads options cvFile cvContent raw
    /\ JSON_parse env (cleaned raw) = inr cvData
    /\ candidate_name cvData = Ok candidateName
    /\ text_request env cvContent (field_text (body_jobDescription req)) candidateName k
       = Ok request
    /\ post env request = Ok text
    /\ preview e = text
    /\ render env (text_document (title_of k) text) = Ok buffer
    /\ fileData e = Some (toString_base64 buffer).
Proof.
  intros Hres Hkind He.
  assert (Hs : status (response (handler env schedule req uploads)) = 200%Z)
    by (rewrite Hres; reflexivity).
  destruct (handler_documents env schedule req uploads Hs)
    as (o & f & c & r & d & n & fmt & Ha & Hp & Hn & Hfmt & Hr & Hk).
  rewrite Hr in Hres. injection Hres as <-.
  specialize (Hk k). destruct (selects env o k); [|congruence].
  destruct Hk as (e' & He' & Hprod & Heff).
  assert (e' = e) by congruence. subst e'.
  destruct (text_task_effect o d n fmt c _ r k e Hkind Hfmt Heff
              (produced_fileData _ _ _ _ _ Hprod))
    as (request & text & buffer & Hreq & Hpost & Hprev & Hrender & Hdata).
  exists o, f, c, r, d, n, request, text, buffer.
  split; [exact Ha |]. repeat (split; [assumption |]). assumption.
Qed.
End Contents.

Section Contents_witness.
Import JS Base64 Server Notions.

Lemma other_uploads_are_untouched_witness :
  let req := Scenario.request Scenario.job Scenario.all_pdf in
  (forall f, file req = Some f -> path f <> Cases.other_path)
  /\ status (response (handler Scenario.all_well [] req Cases.two_uploads)) = 200%Z
  /\ files (final (handler Scenario.all_well [] req Cases.two_uploads)) !! Cases.other_path
     = Cases.two_uploads !! Cases.other_path.
Proof.
  assert (H : forall f, file (Scenario.request Scenario.job Scenario.all_pdf) = Some f ->
                        path f <> Cases.other_path).
  { intros f Hf. injection Hf as <-. vm_compute. discriminate. }
  split; [exact H |]. split; [vm_compute; reflexivity |].
  exact (other_uploads_are_untouched Scenario.all_well []
           (Scenario.request Scenario.job Scenario.all_pdf) Cases.two_uploads
           Cases.other_path H).
Defined.

Lemma cv_file_follows_the_format_witness :
  let req := Scenario.request Scenario.job Scenario.cv_docx in
  let o := handler Scenario.all_well [] req Scenario.uploads in
  response o = {| status := 200; body := Success (results (final o)) |}
  /\ exists e,
       entry CV (results (final o)) = Some e
       /\ exists options cvFile cvContent raw cvData format job buffer,
            Answered Scenario.all_well req Scenario.uploads options cvFile cvContent raw
            /\ JSON_parse Scenario.all_well (cleaned raw) = inr cvData
            /\ get (Some options) "format" = Ok format
            /\ cv_document Scenario.all_well format (Some cvData) = Ok job
            /\ render Scenario.all_well job = Ok buffer
            /\ fileData e = Some (toString_base64 buffer).
Proof.
  cbv zeta. split; [vm_compute; reflexivity |].
  destruct (entry CV (results (final (handler Scenario.all_well []
              (Scenario.request Scenario.job Scenario.cv_docx) Scenario.uploads))))
    as [e|] eqn:E; [|vm_compute in E; discriminate E].
  exists e. split; [reflexivity |].
  apply (cv_file_follows_the_format Scenario.all_well []
           (Scenario.request Scenario.job Scenario.cv_docx) Scenario.uploads
           (results (final (handler Scenario.all_well []
              (Scenario.request Scenario.job Scenario.cv_docx) Scenario.uploads))) e).
  - vm_compute. reflexivity.
  - exact E.
Defined.

Lemma text_document_is_the_reply_witness :
  let req := Scenario.request Scenario.job Scenario.all_pdf in
  let o := handler Scenario.all_well [Email; CV] req Scenario.uploads in
  response o = {| status := 200; body := Success (results (final o)) |}
  /\ CoverLetter <> CV
  /\ exists e,
       entry CoverLetter (results (final o)) = Some e
       /\ exists options cvFile cvContent raw cvData candidateName request text buffer,
            Answered Scenario.all_well req Scenario.uploads options cvFile cvContent raw
            /\ JSON_parse Scenario.all_well (cleaned raw) = inr cvData
            /\ candidate_name cvData = Ok candidateName
            /\ text_request Scenario.all_well cvContent
                 (field_text (body_jobDescription req)) candidateName CoverLetter
               = Ok request
            /\ post Scenario.all_well request = Ok text
            /\ preview e = text
            /\ render Scenario.all_well (text_document (title_of CoverLetter) text)
               = Ok buffer
            /\ fileData e = Some (toString_base64 buffer).
Proof.
  cbv zeta. split; [vm_compute; reflexivity |]. split; [discriminate |].
  destruct (entry CoverLetter (results (final (handler Scenario.all_well [Email; CV]
              (Scenario.request Scenario.job Scenario.all_pdf) Scenario.uploads))))
    as [e|] eqn:E; [|vm_compute in E; discriminate E].
  exists e. split; [reflexivity |].
  apply (text_document_is_the_reply Scenario.all_well [Email; CV]
           (Scenario.request Scenario.job Scenario.all_pdf) Scenario.uploads
           (results (final (handler Scenario.all_well [Email; CV]
              (Scenario.request Scenario.job Scenario.all_pdf) Scenario.uploads)))
           CoverLetter e).
  - vm_compute. reflexivity.
  - discriminate.
  - exact E.
Defined.
End Contents_witness.

(* ===================================================================== *)
(** * The browser script and the server *)
(* ===================================================================== *)

Section Drop_zone.
Import JS Base64 Client Page.

Lemma filter_of_sent_type (file : BrowserFile) :
  Server.fileFilter (mimetype_sent file) = Ok true
  <-> type file = "application/pdf"
      \/ type file
         = "application/vnd.openxmlformats-officedocument.wordprocessingml.document".
Proof.
  rewrite fileFilter_accepts. unfold mimetype_sent.
  destruct (String.eqb_spec (type file) "") as [E|E]; [|reflexivity].
  rewrite E. split; intros [H|H]; discriminate H.
Qed.

(** X14. The drop zone and the upload filter of the server disagree on
    two sorts of files, and on no other.  A file whose name ends in
    [.docx] and whose type is neither of the two allowed types is taken
    by the drop zone and refused by the server; a file of the DOCX type
    whose name does not end in [.docx] is refused by the drop zone though
    the server would take it. *)
Theorem drop_zone_and_upload_filter (file : BrowserFile) :
  (drop_accepts file = true /\ Server.fileFilter (mimetype_sent file) <> Ok true
   <-> endsWith (name file) ".docx" = true
       /\ type file <> "application/pdf"
       /\ type file
          <> "application/vnd.openxmlformats-officedocument.wordprocessingml.document")
  /\ (drop_accepts file = false /\ Server.fileFilter (mimetype_sent file) = Ok true
      <-> type file
          = "application/vnd.openxmlformats-officedocument.wordprocessingml.document"
          /\ endsWith (name file) ".docx" = false).
Proof.
  rewrite filter_of_sent_type. unfold drop_accepts.
  destruct (String.eqb_spec (type file) "application/pdf") as [Hpdf|Hpdf];
    destruct (endsWith (name file) ".docx"); simpl.
  - split; split.
    + intros [_ H]. exfalso. apply H. left. exact Hpdf.
    + intros (_ & H & _). contradiction.
    + intros [H _]. discriminate H.
    + intros [_ H]. discriminate H.
  - split; split.
    + intros [_ H]. exfalso. apply H. left. exact Hpdf.
    + intros [H _]. discriminate H.
    + intros [H _]. discriminate H.
    + intros [H _]. rewrite Hpdf in H. discriminate H.
  - split; split.
    + intros [_ H]. split; [reflexivity |]. split; [exact Hpdf |].
      intros E. apply H. right. exact E.
    + intros (_ & _ & H). split; [reflexivity |]. intros [E|E]; contradiction.
    + intros [H _]. discriminate H.
    + intros [_ H]. discriminate H.
  - split; split.
    + intros [H _]. discriminate H.
    + intros [H _]. discriminate H.
    + intros [_ [H|H]]; [contradiction |]. split; [exact H | reflexivity].
    + intros [H _]. split; [reflexivity |]. right. exact H.
Qed.
End Drop_zone.

Section Download.
Import JS Base64 Server Client Notions Page.

Lemma toString_base64_empty (buffer : Buffer) :
  toString_base64 buffer = "" -> buffer = [].
Proof.
  unfold toString_base64. destruct buffer as [|a [|b [|c l]]];
    [reflexivity | discriminate ..].
Qed.

(** What [downloadFile] does with the base64 text of a buffer. *)
Lemma downloadFile_of_encoding (buffer : Buffer) (fileName format : string) :
  downloadFile (Some (toString_base64 buffer)) fileName format
  = match buffer with
    | [] => [ ShowToast "No file data available" false 5000 ]
    | _ :: _ =>
        [ SaveAs buffer (mimeType format) fileName;
          ShowToast (fileName +:+ " downloaded!") true 3000 ]
    end.
Proof.
  destruct buffer as [|a l]; [reflexivity |].
  unfold downloadFile.
  destruct (toString_base64 (a :: l)) as [|c rest] eqn:E.
  - apply toString_base64_empty in E. discriminate E.
  - rewrite <- E, base64_to_bytes_toString. reflexivity.
Qed.

Variable env : Env.
Variable schedule : list Kind.
Variable req : Request.
Variable uploads : gmap string Buffer.

(** X15. A click on the download button of a kind, after a 200 response,
    saves under the file name of the response exactly the bytes that the
    rendering library returned to the server for the document of that
    kind of the request: the CV built from the parsed résumé in the format
    asked for, or the text of the model's reply under the title of the
    kind.  The type of the saved blob follows the format toggle as it
    stands at the click, not the format the file was rendered in.  A
    rendering of no bytes at all is not saved: the page says that there
    is no file data. *)
Theorem download_saves_what_was_rendered (docs : Results) (k : Kind) (e : Entry)
    (toggle : string) :
  response (handler env schedule req uploads)
  = {| status := 200; body := Success docs |} ->
  entry k docs = Some e ->
  exists options cvFile cvContent raw cvData candidateName job buffer,
    Answered env req uploads options cvFile cvContent raw
    /\ JSON_parse env (cleaned raw) = inr cvData
    /\ candidate_name cvData = Ok candidateName
    /\ document env options cvData candidateName cvContent
         (field_text (body_jobDescription req)) k = Ok job
    /\ render env job = Ok buffer
    /\ download k {| Page.results := Some docs; Page.selectedFormat := toggle |}
       = match buffer with
         | [] => [ ShowToast "No file data available" false 5000 ]
         | _ :: _ =>
             [ SaveAs buffer (mimeType toggle) (fileName e);
               ShowToast (fileName e +:+ " downloaded!") true 3000 ]
         end.
Proof.
  intros Hres He.
  assert (Hs : status (response (handler env schedule req uploads)) = 200%Z)
    by (rewrite Hres; reflexivity).
  destruct (handler_documents env schedule req uploads Hs)
    as (o & f & c & r & d & n & fmt & Ha & Hp & Hn & Hfmt & Hr & Hk).
  rewrite Hr in Hres. injection Hres as <-.
  specialize (Hk k). destruct (selects env o k); [|congruence].
  destruct Hk as (e' & He' & Hprod & Heff).
  assert (e' = e) by congruence. subst e'.
  pose proof (produced_fileData env _ _ _ _ _ Hprod) as Hdata.
  destruct (task_document env o d n fmt c _ r k e Hfmt Heff Hdata)
    as (job & buffer & Hjob & Hrender & Hd).
  exists o, f, c, r, d, n, job, buffer.
  split; [exact Ha |]. split; [exact Hp |]. split; [exact Hn |].
  split; [exact Hjob |]. split; [exact Hrender |].
  unfold download. simpl. rewrite He, Hd. apply downloadFile_of_encoding.
Qed.
End Download.

Section Download_witness.
Import JS Base64 Server Client Notions Page.

Lemma download_saves_what_was_rendered_witness :
  let req := Scenario.request Scenario.job Scenario.cv_docx in
  let o := handler Scenario.all_well [] req Scenario.uploads in
  response o = {| status := 200; body := Success (Server.results (final o)) |}
  /\ exists e,
       entry CV (Server.results (final o)) = Some e
       /\ exists options cvFile cvContent raw cvData candidateName job buffer,
            Answered Scenario.all_well req Scenario.uploads options cvFile cvContent raw
            /\ JSON_parse Scenario.all_well (cleaned raw) = inr cvData
            /\ candidate_name cvData = Ok candidateName
            /\ document Scenario.all_well options cvData candidateName cvContent
                 (field_text (body_jobDescription req)) CV = Ok job
            /\ render Scenario.all_well job = Ok buffer
            /\ download CV {| Page.results := Some (Server.results (final o));
                              Page.selectedFormat := "pdf" |}
               = match buffer with
                 | [] => [ ShowToast "No file data available" false 5000 ]
                 | _ :: _ =>
                     [ SaveAs buffer (mimeType "pdf") (fileName e);
                       ShowToast (fileName e +:+ " downloaded!") true 3000 ]
                 end.
Proof.
  cbv zeta. split; [vm_compute; reflexivity |].
  destruct (entry CV (Server.results (final (handler Scenario.all_well []
              (Scenario.request Scenario.job Scenario.cv_docx) Scenario.uploads))))
    as [e|] eqn:E; [|vm_compute in E; discriminate E].
  exists e. split; [reflexivity |].
  apply (download_saves_what_was_rendered Scenario.all_well []
           (Scenario.request Scenario.job Scenario.cv_docx) Scenario.uploads
           (Server.results (final (handler Scenario.all_well []
              (Scenario.request Scenario.job Scenario.cv_docx) Scenario.uploads)))
           CV e "pdf").
  - vm_compute. reflexivity.
  - exact E.
Defined.
End Download_witness.

Section Bad_data.
Import JS Base64 Client Page.

Lemma remove_padding_keeps (data : list ascii) (c : ascii) :
  c ∈ data -> c <> "="%char -> c ∈ remove_padding data.
Proof.
  intros Hc Hne. unfold remove_padding.
  destruct (N.of_nat (length data) mod 4 =? 0)%N; [|exact Hc].
  assert (Hin : forall l : list ascii, c ∈ l -> c ∈ rev l)
    by (intros l H; apply list_elem_of_In, in_rev, list_elem_of_In in H; exact H).
  assert (Hrev : c ∈ rev data) by (apply Hin, Hc).
  destruct (rev data) as [|c1 r1] eqn:E; [exact Hc |].
  destruct (Ascii.eqb_spec c1 "=") as [->|H1]; [|exact Hc].
  apply elem_of_cons in Hrev as [->|Hrev]; [contradiction |].
  destruct r1 as [|c2 r2]; [apply Hin, Hrev |].
  destruct (Ascii.eqb_spec c2 "=") as [->|H2]; [|apply Hin, Hrev].
  apply elem_of_cons in Hrev as [->|Hrev]; [contradiction |].
  apply Hin, Hrev.
Qed.

Lemma mapM_sextet_fails (data : list ascii) (c : ascii) :
  c ∈ data -> sextet c = None -> mapM sextet data = None.
Proof.
  intros Hc Hs. destruct (mapM sextet data) as [l|] eqn:E; [|reflexivity].
  apply mapM_Some in E.
  apply list_elem_of_lookup_1 in Hc as [i Hi].
  destruct (Forall2_lookup_l _ _ _ i c E Hi) as (y & _ & Hy). congruence.
Qed.

(** [atob] refuses a text that holds a character which is neither of the
    base64 alphabet, nor white space, nor the padding character. *)
Lemma atob_rejects (data : string) (c : ascii) :
  c ∈ list_ascii_of_string data ->
  is_ascii_whitespace c = false -> c <> "="%char -> sextet c = None ->
  atob data = Throw InvalidCharacterError.
Proof.
  intros Hc Hw Hp Hs. unfold atob.
  set (kept := filter (fun c => is_ascii_whitespace c = false) (list_ascii_of_string data)).
  assert (Hk : c ∈ kept) by (apply list_elem_of_filter; split; assumption).
  destruct (N.of_nat (length (remove_padding kept)) mod 4 =? 1)%N; [reflexivity |].
  rewrite (mapM_sextet_fails _ c (remove_padding_keeps _ _ Hk Hp) Hs). reflexivity.
Qed.

(** X16. Data that is not base64 is never saved.  When [fileData] holds
    a character that is neither of the base64 alphabet, nor ASCII white
    space, nor [=], [downloadFile] saves nothing: it logs the error and
    shows a message that begins with [Download failed:]. *)
Theorem bad_data_is_not_saved (data fileName format : string) (c : ascii) :
  c ∈ list_ascii_of_string data ->
  is_ascii_whitespace c = false -> c <> "="%char -> sextet c = None ->
  downloadFile (Some data) fileName format
  = [ ConsoleError "Download error:" (message InvalidCharacterError);
      ShowToast ("Download failed: " +:+ message InvalidCharacterError) false 5000 ].
Proof.
  intros Hc Hw Hp Hs. unfold downloadFile, base64_to_bytes.
  rewrite (atob_rejects data c Hc Hw Hp Hs).
  destruct data as [|a rest]; [|reflexivity].
  apply elem_of_nil in Hc. contradiction.
Qed.

Lemma bad_data_is_not_saved_witness :
  ("*"%char ∈ list_ascii_of_string "JVBERi0*")
  /\ downloadFile (Some "JVBERi0*") "Jane Doe_CV.pdf" "pdf"
     = [ ConsoleError "Download error:" (message InvalidCharacterError);
         ShowToast ("Download failed: " +:+ message InvalidCharacterError) false 5000 ].
Proof.
  assert (H : "*"%char ∈ list_ascii_of_string "JVBERi0*").
  { apply list_elem_of_In. simpl. tauto. }
  split; [exact H |].
  apply (bad_data_is_not_saved "JVBERi0*" "Jane Doe_CV.pdf" "pdf" "*"%char H).
  - reflexivity.
  - discriminate.
  - reflexivity.
Defined.
End Bad_data.

(* ===================================================================== *)
(** * The options, from the form to the handler *)
(* ===================================================================== *)

Section Options_text.
Import JS Base64 Server Client Page.

Ltac bits x := destruct x as [[] [] [] [] [] [] [] []].

(** The reference parser reads a quoted character back. *)
Lemma string_chars_quote_char (c : ascii) (tail acc : list ascii) :
  Scenario.string_chars (quote_char c ++ tail) acc
  = Scenario.string_chars tail (c :: acc).
Proof. bits c; reflexivity. Qed.

Lemma string_chars_quote_chars (s tail acc : list ascii) :
  Scenario.string_chars (quote_chars s ++ "034"%char :: tail) acc
  = Some (string_of_list_ascii (rev acc ++ s), tail).
Proof.
  revert acc. induction s as [|c s IH]; intros acc.
  - simpl. rewrite app_nil_r. reflexivity.
  - unfold quote_chars. simpl flat_map. rewrite <- app_assoc.
    rewrite string_chars_quote_char. fold (quote_chars s). rewrite IH.
    simpl. rewrite <- app_assoc. reflexivity.
Qed.

(** The text of the options, read by the reference parser. *)
Lemma value_options (b1 b2 b3 : bool) (mid : list ascii) (s : string) (fuel : nat) :
  (forall tail acc,
      Scenario.string_chars (mid ++ "034"%char :: tail) acc
      = Some (string_of_list_ascii (rev acc ++ list_ascii_of_string s), tail)) ->
  Scenario.value (6 + fuel)
    (list_ascii_of_string (q "{~cv~:") ++ JSON_boolean b1
     ++ list_ascii_of_string (q ",~coverLetter~:") ++ JSON_boolean b2
     ++ list_ascii_of_string (q ",~email~:") ++ JSON_boolean b3
     ++ list_ascii_of_string (q ",~format~:~") ++ mid ++ ["034"%char; "}"%char])
  = Some (JObj [ ("cv", JBool b1); ("coverLetter", JBool b2); ("email", JBool b3);
                 ("format", JStr s) ], []).
Proof.
  intros H.
  destruct b1, b2, b3; simpl; rewrite H; simpl;
    rewrite string_of_list_ascii_of_string; reflexivity.
Qed.

Lemma boolean_is_selection (env : Env) (b : bool) :
  ToBoolean (Number_toBoolean env) (Some (JBool b)) = b.
Proof. reflexivity. Qed.

(** X17. The options go from the form to the handler unchanged.  The
    text that [JSON.stringify] makes of the object built by the submit
    handler, whatever the format toggle holds, is read by [JSON.parse] as
    an object in which the handler finds each kind selected exactly when
    its box is ticked, and the format as the string of the toggle. *)
Theorem options_reach_the_handler (env : Env) (o : Options) :
  JSON_parse env (JSON_stringify o) = Scenario.JSON_parse (JSON_stringify o) ->
  exists options,
    JSON_parse env (JSON_stringify o) = inr options
    /\ (forall k, selects env options k = checked o k)
    /\ get (Some options) "format" = Ok (str (format o)).
Proof.
  intros ->.
  exists (JObj [ ("cv", JBool (cv o)); ("coverLetter", JBool (coverLetter o));
                 ("email", JBool (email o)); ("format", JStr (format o)) ]).
  split; [|split; [intros []; reflexivity | reflexivity]].
  unfold Scenario.JSON_parse, JSON_stringify.
  rewrite list_ascii_of_string_of_list_ascii.
  match goal with
  | |- context [Scenario.value ?n ?l] =>
      assert (Hfuel : exists m, n = 6 + m);
      [|destruct Hfuel as [m ->];
        replace l
          with (list_ascii_of_string (q "{~cv~:") ++ JSON_boolean (cv o)
                ++ list_ascii_of_string (q ",~coverLetter~:") ++ JSON_boolean (coverLetter o)
                ++ list_ascii_of_string (q ",~email~:") ++ JSON_boolean (email o)
                ++ list_ascii_of_string (q ",~format~:~")
                ++ quote_chars (list_ascii_of_string (format o))
                ++ ["034"%char; "}"%char])]
  end.
  - match goal with
    | |- exists m, 2 * length (?a ++ ?b) + 2 = 6 + m =>
        exists (2 * length (a ++ b) + 2 - 6);
        assert (6 <= length (a ++ b))
          by (rewrite length_app; change (length a) with 6; lia);
        lia
    end.
  - rewrite (value_options _ _ _ _ (format o) m); [reflexivity |].
    intros tail acc. apply string_chars_quote_chars.
  - unfold JSON_quote. simpl. rewrite <- !app_assoc. reflexivity.
Qed.
End Options_text.

Section Options_text_witness.
Import JS Base64 Server Client Page.

Lemma options_reach_the_handler_witness :
  let o := {| cv := true; coverLetter := false; email := true;
              format := q "pd~f" |} in
  JSON_parse Scenario.all_well (JSON_stringify o) = Scenario.JSON_parse (JSON_stringify o)
  /\ exists options,
       JSON_parse Scenario.all_well (JSON_stringify o) = inr options
       /\ (forall k, selects Scenario.all_well options k = checked o k)
       /\ get (Some options) "format" = Ok (str (format o)).
Proof.
  cbv zeta. split; [reflexivity |].
  apply (options_reach_the_handler Scenario.all_well
           {| cv := true; coverLetter := false; email := true; format := q "pd~f" |}).
  reflexivity.
Defined.
End Options_text_witness.

(* ===================================================================== *)
(** * The names of the stored uploads *)
(* ===================================================================== *)

Section Extension.
Import JS Storage.

(** One more character seen. *)
Lemma scan_found (pre : list ascii) :
  forall st suf, scanned st pre suf -> found (scan (rev pre) st) (pre ++ suf).
Proof.
  induction pre as [|c pre IH] using rev_ind; intros st suf Hst.
  - (* the whole path has been seen *)
    simpl. unfold scanned in Hst. unfold found.
    destruct (end_ st) as [e|]; [|destruct Hst as [-> _]; exact I].
    destruct (startDot st) as [dot|]; [|exact I].
    destruct Hst as (_ & mid & rest & -> & -> & Hmid & m1 & m2 & -> & ->).
    apply Forall_app in Hmid as [_ Hm2]. apply Forall_cons in Hm2 as [_ Hm2].
    exists m1, m2, rest. simpl. rewrite <- !List.app_assoc, length_app. simpl.
    split; [reflexivity |]. split; [reflexivity |]. split; [lia | exact Hm2].
  - rewrite rev_app_distr. simpl rev. simpl app at 1.
    rewrite <- List.app_assoc. simpl app at 2.
    unfold scan; fold scan. rewrite length_rev.
    destruct (Ascii.eqb_spec c "/") as [->|Hc].
    + destruct (matchedSlash st) eqn:Hm; simpl negb; cbv iota.
      * (* separators at the end of the path *)
        apply IH. unfold scanned in *.
        destruct (end_ st) as [e|]; [destruct Hst as [Hf _]; congruence | exact Hst].
      * (* the separator before the last component: the loop stops *)
        unfold scanned in Hst. unfold found. simpl.
        destruct (end_ st) as [e|]; [|destruct Hst as [_ Hf]; congruence].
        destruct (startDot st) as [dot|]; [|exact I].
        destruct Hst as (_ & mid & rest & -> & -> & Hmid & m1 & m2 & -> & ->).
        apply Forall_app in Hmid as [_ Hm2]. apply Forall_cons in Hm2 as [_ Hm2].
        exists ((pre ++ ["/"%char]) ++ m1), m2, rest.
        rewrite <- ?List.app_assoc, ?length_app. simpl. rewrite <- ?List.app_assoc. simpl.
        split; [reflexivity |]. split; [lia |]. split; [lia | exact Hm2].
    + apply IH. clear IH. unfold scanned in *.
      destruct (end_ st) as [e|] eqn:He.
      * destruct Hst as (Hm & mid & rest & -> & -> & Hmid & Hdot).
        assert (Hend : forall st', end_ st' = Some (length (pre ++ [c]) + length mid) ->
                  matchedSlash st' = false ->
                  (match startDot st' with
                   | None => True
                   | Some dot =>
                       exists m1 m2, c :: mid = m1 ++ "."%char :: m2
                                     /\ dot = length pre + length m1
                   end) ->
                  match end_ st' with
                  | None => startDot st' = None /\ matchedSlash st' = true
                  | Some e' =>
                      matchedSlash st' = false
                      /\ exists mid' rest',
                           c :: mid ++ rest = mid' ++ rest'
                           /\ e' = length pre + length mid'
                           /\ Forall (fun c => c <> "/"%char) mid'
                           /\ match startDot st' with
                              | None => True
                              | Some dot =>
                                  exists m1 m2, mid' = m1 ++ "."%char :: m2
                                                /\ dot = length pre + length m1
                              end
                  end).
        { intros st' -> Hm' Hd'. split; [exact Hm' |].
          exists (c :: mid), rest. split; [reflexivity |].
          split; [rewrite length_app; simpl; lia |].
          split; [constructor; assumption | exact Hd']. }
        destruct (Ascii.eqb_spec c ".") as [->|Hp]; destruct (startDot st) as [dot|] eqn:Hd.
        -- destruct Hdot as (m1 & m2 & -> & ->).
           destruct (negb (preDotState st =? 1)%Z);
             (apply Hend; [exact He | exact Hm |]);
             simpl; rewrite ?Hd; exists ("."%char :: m1), m2;
             (split; [reflexivity | rewrite length_app; simpl; lia]).
        -- apply Hend; [exact He | exact Hm |]. simpl.
           exists [], mid. split; [reflexivity | simpl; lia].
        -- destruct Hdot as (m1 & m2 & -> & ->).
           apply Hend; [exact He | exact Hm |]. simpl.
           exists (c :: m1), m2. split; [reflexivity | rewrite length_app; simpl; lia].
        -- apply Hend; [exact He | exact Hm |]. rewrite Hd. exact I.
      * destruct Hst as [Hd Hm].
        assert (Hend : forall st', end_ st' = Some (length pre + 1) ->
                  matchedSlash st' = false ->
                  (match startDot st' with
                   | None => True
                   | Some dot =>
                       exists m1 m2, [c] = m1 ++ "."%char :: m2
                                     /\ dot = length pre + length m1
                   end) ->
                  match end_ st' with
                  | None => startDot st' = None /\ matchedSlash st' = true
                  | Some e' =>
                      matchedSlash st' = false
                      /\ exists mid' rest',
                           c :: suf = mid' ++ rest'
                           /\ e' = length pre + length mid'
                           /\ Forall (fun c => c <> "/"%char) mid'
                           /\ match startDot st' with
                              | None => True
                              | Some dot =>
                                  exists m1 m2, mid' = m1 ++ "."%char :: m2
                                                /\ dot = length pre + length m1
                              end
                  end).
        { intros st' -> Hm' Hd'. split; [exact Hm' |].
          exists [c], suf. split; [reflexivity |]. split; [reflexivity |].
          split; [repeat constructor; assumption | exact Hd']. }
        destruct (Ascii.eqb_spec c ".") as [->|Hp]; simpl; rewrite Hd.
        -- apply Hend; simpl; try reflexivity.
           exists [], []. split; [reflexivity | simpl; lia].
        -- apply Hend; simpl; reflexivity || exact I.
Qed.
End Extension.

Section Stored_names.
Import JS Storage.

(** What [path.extname] returns is empty, or a dot followed by
    characters none of which is a separator. *)
Lemma extname_shape (path : string) :
  extname path = ""
  \/ exists m, extname path = String "." (string_of_list_ascii m)
               /\ Forall (fun c => c <> "/"%char) m.
Proof.
  unfold extname.
  pose proof (scan_found (list_ascii_of_string path) initial [] (conj eq_refl eq_refl)) as H.
  rewrite app_nil_r in H. unfold found in H.
  destruct (startDot _) as [dot|]; [|left; reflexivity].
  destruct (end_ _) as [e|]; [|left; reflexivity].
  destruct (_ || _); [left; reflexivity |].
  destruct H as (a & m & b & -> & -> & -> & Hm).
  right. exists m. split; [|exact Hm].
  unfold slice. rewrite drop_app_length.
  replace (length a + 1 + length m - length a) with (length ("."%char :: m))
    by (simpl; lia).
  change ("."%char :: m ++ b) with (("."%char :: m) ++ b).
  rewrite take_app_length. reflexivity.
Qed.

Lemma list_ascii_of_append (s t : string) :
  list_ascii_of_string (s +:+ t) = list_ascii_of_string s ++ list_ascii_of_string t.
Proof.
  induction s as [|c s IH]; [reflexivity |].
  change (c :: list_ascii_of_string (s +:+ t)
          = c :: list_ascii_of_string s ++ list_ascii_of_string t).
  rewrite IH. reflexivity.
Qed.

Lemma list_ascii_of_string_inj (s t : string) :
  list_ascii_of_string s = list_ascii_of_string t -> s = t.
Proof.
  intros H. rewrite <- (string_of_list_ascii_of_string s), H.
  apply string_of_list_ascii_of_string.
Qed.

(** A number is written with digits only, and with one at least. *)
Lemma string_of_uint_digits (d : Decimal.uint) :
  Forall (fun c => is_digit c = true) (list_ascii_of_string (NilEmpty.string_of_uint d)).
Proof. induction d; simpl; constructor; (reflexivity || assumption). Qed.

Lemma Number_toString_digits (n : N) :
  Forall (fun c => is_digit c = true) (list_ascii_of_string (Number_toString n)).
Proof. apply string_of_uint_digits. Qed.

Lemma Number_toString_inj (n m : N) : Number_toString n = Number_toString m -> n = m.
Proof.
  unfold Number_toString. intros H. apply Unsigned.to_uint_inj.
  pose proof (NilEmpty.usu (N.to_uint n)) as Hn. rewrite H, NilEmpty.usu in Hn.
  congruence.
Qed.

(** Two texts that begin with digits and go on with something else: the
    digits are the same in both when the texts are. *)
Lemma digits_then_rest (a b x y : list ascii) :
  Forall (fun c => is_digit c = true) a ->
  Forall (fun c => is_digit c = true) b ->
  no_digit_ahead x -> no_digit_ahead y ->
  a ++ x = b ++ y -> a = b /\ x = y.
Proof.
  intros Ha. revert b. induction Ha as [|c a Hc Ha IH]; intros b Hb Hx Hy E.
  - destruct Hb as [|d b Hd Hb]; [split; [reflexivity | exact E] |].
    simpl in E. subst x. simpl in Hx. congruence.
  - destruct Hb as [|d b Hd Hb].
    + simpl in E. subst y. simpl in Hy. congruence.
    + simpl in E. injection E as -> E.
      destruct (IH b Hb Hx Hy E) as [-> ->]. split; reflexivity.
Qed.

Lemma extname_no_digit_ahead (path : string) :
  no_digit_ahead (list_ascii_of_string (extname path)).
Proof.
  destruct (extname_shape path) as [->|(m & -> & _)]; [exact I | reflexivity].
Qed.

(** X18. The name under which an upload is stored holds no path
    separator, whatever name the client gave the file: the stored file is
    an entry of the upload directory itself. *)
Theorem stored_name_has_no_separator (now random : N) (originalname : string) :
  "/"%char ∉ list_ascii_of_string (filename now random originalname).
Proof.
  unfold filename. rewrite !list_ascii_of_append. intros H.
  assert (Hd : forall n, "/"%char ∉ list_ascii_of_string (Number_toString n)).
  { intros n Hn.
    pose proof (Number_toString_digits n) as F. rewrite Forall_forall in F.
    specialize (F _ Hn). discriminate F. }
  repeat (apply elem_of_app in H as [H|H]).
  - exact (Hd _ H).
  - apply list_elem_of_singleton in H. discriminate H.
  - exact (Hd _ H).
  - destruct (extname_shape originalname) as [E|(m & E & Hm)]; rewrite E in H.
    + apply elem_of_nil in H. exact H.
    + simpl in H. apply elem_of_cons in H as [H|H]; [discriminate H |].
      rewrite list_ascii_of_string_of_list_ascii in H.
      rewrite Forall_forall in Hm. exact (Hm _ H eq_refl).
Qed.

(** X19. Two uploads are stored under the same name only if they were
    received in the same millisecond, drew the same random number and
    have the same extension: a different time or a different draw gives a
    different name. *)
Theorem stored_names_collide_only_on_equal_draws (now now' random random' : N)
    (originalname originalname' : string) :
  filename now random originalname = filename now' random' originalname' ->
  now = now' /\ random = random' /\ extname originalname = extname originalname'.
Proof.
  unfold filename. intros E. apply (f_equal list_ascii_of_string) in E.
  rewrite !list_ascii_of_append in E. rewrite <- !List.app_assoc in E.
  destruct (digits_then_rest _ _
              ("-"%char :: list_ascii_of_string (Number_toString random)
                 ++ list_ascii_of_string (extname originalname))
              ("-"%char :: list_ascii_of_string (Number_toString random')
                 ++ list_ascii_of_string (extname originalname'))
              (Number_toString_digits now) (Number_toString_digits now')
              eq_refl eq_refl E) as [E1 E2].
  injection E2 as E2.
  destruct (digits_then_rest _ _ _ _ (Number_toString_digits random)
              (Number_toString_digits random') (extname_no_digit_ahead _)
              (extname_no_digit_ahead _) E2) as [E3 E4].
  split; [apply Number_toString_inj, list_ascii_of_string_inj, E1 |].
  split; [apply Number_toString_inj, list_ascii_of_string_inj, E3 |].
  apply list_ascii_of_string_inj, E4.
Qed.

Lemma stored_names_collide_only_on_equal_draws_witness :
  filename 1730592000000 123456789 "Jane CV.docx"
  = filename 1730592000000 123456789 "notes/final.docx"
  /\ (1730592000000 = 1730592000000 /\ 123456789 = 123456789
      /\ extname "Jane CV.docx" = extname "notes/final.docx")%N.
Proof.
  assert (H : filename 1730592000000 123456789 "Jane CV.docx"
              = filename 1730592000000 123456789 "notes/final.docx")
    by (vm_compute; reflexivity).
  split; [exact H |].
  exact (stored_names_collide_only_on_equal_draws _ _ _ _ _ _ H).
Defined.
End Stored_names.

(* ===================================================================== *)
(** * The edges of a request *)
(* ===================================================================== *)

Section Sent_form.
Import JS Base64 Client.

(** X20. Whatever the form sends has passed its checks: the job
    description of the request is the text of the text area trimmed, it is
    not empty and begins and ends with no white space; the file is the
    first of the chosen files; at least one kind is selected; and the
    format is that of the toggle. *)
Theorem what_the_form_sends (form : Form) (fd : FormData) :
  submit form = Fetch fd ->
  fd_jobDescription fd = trim (jobDescription_value form)
  /\ fd_jobDescription fd <> ""
  /\ trim (fd_jobDescription fd) = fd_jobDescription fd
  /\ (exists others, cvFile_files form = fd_cv fd :: others)
  /\ (cv (fd_options fd) = true \/ coverLetter (fd_options fd) = true
      \/ email (fd_options fd) = true)
  /\ cv (fd_options fd) = generateCV_checked form
  /\ coverLetter (fd_options fd) = generateCoverLetter_checked form
  /\ email (fd_options fd) = generateEmail_checked form
  /\ format (fd_options fd) = selectedFormat form.
Proof.
  unfold submit.
  destruct (String.eqb_spec (trim (jobDescription_value form)) "") as [E|E];
    [discriminate |].
  destruct (cvFile_files form) as [|file0 others]; [discriminate |].
  simpl.
  destruct (generateCV_checked form) eqn:B1, (generateCoverLetter_checked form) eqn:B2,
           (generateEmail_checked form) eqn:B3; simpl; try discriminate;
    intros H; injection H as <-; simpl;
    (split; [reflexivity |]); (split; [exact E |]);
    (split; [apply trim_idempotent |]); (split; [eexists; reflexivity |]);
    (split; [tauto |]); repeat split.
Qed.
End Sent_form.

Section Sent_form_witness.
Import JS Base64 Client.

Lemma what_the_form_sends_witness :
  let form := {| jobDescription_value := "  Senior Backend Engineer ";
                 cvFile_files := [ {| name := "jane.docx"; type := Scenario.docx_type;
                                      content := Scenario.upload_bytes |} ];
                 generateCV_checked := true;
                 generateCoverLetter_checked := false;
                 generateEmail_checked := false;
                 selectedFormat := "docx" |} in
  exists fd,
    submit form = Fetch fd
    /\ fd_jobDescription fd = trim (jobDescription_value form)
    /\ fd_jobDescription fd <> ""
    /\ trim (fd_jobDescription fd) = fd_jobDescription fd
    /\ (exists others, cvFile_files form = fd_cv fd :: others)
    /\ (cv (fd_options fd) = true \/ coverLetter (fd_options fd) = true
        \/ email (fd_options fd) = true)
    /\ cv (fd_options fd) = generateCV_checked form
    /\ coverLetter (fd_options fd) = generateCoverLetter_checked form
    /\ email (fd_options fd) = generateEmail_checked form
    /\ format (fd_options fd) = selectedFormat form.
Proof.
  cbv zeta. eexists. split; [vm_compute; reflexivity |].
  apply what_the_form_sends. vm_compute. reflexivity.
Defined.
End Sent_form_witness.

Section Early.
Import JS Base64 Server Notions.
Variable env : Env.
Variable schedule : list Kind.
Variable req : Request.
Variable uploads : gmap string Buffer.

(** X21. The first three steps of the handler fail in this order and in
    this way, each with status 500 and before anything is sent to the
    model.  Options that are no JSON (a missing field is the text
    [undefined]) are answered with the parser's message, and nothing is
    read.  Without a file the message is that of the failed read of its
    path.  With a file that is not in the upload directory the message is
    that of the file system, and no extraction is tried.  In the three
    cases the upload directory is left as it was. *)
Theorem early_failures :
  let o := handler env schedule req uploads in
  let text := field_text (body_options req) in
  (forall msg,
      JSON_parse env text = inl msg ->
      response o = {| status := 500; body := Failure msg |}
      /\ trace (final o) = [JSONParse text None]
      /\ files (final o) = uploads)
  /\ (forall options,
        JSON_parse env text = inr options -> file req = None ->
        response o
        = {| status := 500;
             body := Failure "Cannot read properties of undefined (reading 'path')" |}
        /\ trace (final o) = [JSONParse text (Some options)]
        /\ files (final o) = uploads)
  /\ (forall options cvFile,
        JSON_parse env text = inr options -> file req = Some cvFile ->
        uploads !! path cvFile = None ->
        response o
        = {| status := 500;
             body := Failure ("ENOENT: no such file or directory, open '"
                              +:+ path cvFile +:+ "'") |}
        /\ trace (final o) = [JSONParse text (Some options); ReadFile (path cvFile) false]
        /\ files (final o) = uploads).
Proof.
  cbv zeta. unfold handler, tailor_cv. split; [|split].
  - intros msg Ho.
    erewrite bind_throw by (rewrite call_JSON_parse_runs, Ho; reflexivity).
    repeat split.
  - intros options Ho Hf.
    erewrite bind_ok by (rewrite call_JSON_parse_runs, Ho; reflexivity).
    rewrite Hf. erewrite bind_lift_throw by reflexivity.
    repeat split.
  - intros options cvFile Ho Hf Hb.
    erewrite bind_ok by (rewrite call_JSON_parse_runs, Ho; reflexivity).
    rewrite Hf. erewrite bind_lift_ok by reflexivity.
    erewrite bind_throw by (rewrite parseCVContent_runs; simpl; rewrite Hb; reflexivity).
    repeat split.
Qed.

(** With no task to wait for the wait is over at once. *)
Lemma Promise_all_nil (s : list Kind) (st : State) :
  Promise_all env s [] st = (Ok (), st).
Proof. induction s as [|k s IH]; [reflexivity | exact IH]. Qed.

(** X22. An empty selection is served.  When the options are an object
    that selects no kind, a request that gets as far as the parsed résumé
    and finds a name in it is answered 200 with no document; the upload is
    removed, and the completion for the résumé has been asked for and is
    the only one. *)
Theorem empty_selection_is_served (options cvData : JSON) (cvFile : File)
    (cvContent raw : string) (candidateName wants_cv : Value) :
  Answered env req uploads options cvFile cvContent raw ->
  JSON_parse env (cleaned raw) = inr cvData ->
  candidate_name cvData = Ok candidateName ->
  get (Some options) "cv" = Ok wants_cv ->
  (forall k, selects env options k = false) ->
  let o := handler env schedule req uploads in
  response o = {| status := 200; body := Success no_results |}
  /\ files (final o) = delete (path cvFile) uploads
  /\ sent (trace (final o))
     = [tailoredCV_request env cvContent (field_text (body_jobDescription req))].
Proof.
  intros Ha Hp Hname Ecv Hnone. cbv zeta. unfold cleaned in Hp.
  unfold candidate_name in Hname.
  destruct (get (Some cvData) "personalInfo") as [personalInfo|x] eqn:E1;
    [|discriminate]. simpl in Hname.
  destruct (get_other options "cv" "coverLetter" _ Ecv) as [wants_cl Ecl].
  destruct (get_other options "cv" "email" _ Ecv) as [wants_em Eem].
  pose proof (Hnone CV) as Bcv. rewrite (selects_get env options CV _ Ecv) in Bcv.
  pose proof (Hnone CoverLetter) as Bcl.
  rewrite (selects_get env options CoverLetter _ Ecl) in Bcl.
  pose proof (Hnone Email) as Bem. rewrite (selects_get env options Email _ Eem) in Bem.
  pose proof Ha as [Ho Hf (buffer & Hb & He) Hr].
  unfold handler.
  rewrite (tailor_cv_answered env schedule req uploads _ _ _ _ Ha).
  erewrite bind_ok by (rewrite call_JSON_parse_runs, Hp; reflexivity).
  unfold fan_out.
  rewrite (bind_lift_ok _ _ _ _ E1), (bind_lift_ok _ _ _ _ Hname). cbv zeta.
  rewrite (bind_lift_ok _ _ _ _ Ecv).
  erewrite bind_ok by (rewrite push_if_runs, Bcv; reflexivity).
  rewrite (bind_lift_ok _ _ _ _ Ecl).
  erewrite bind_ok by (rewrite push_if_runs, Bcl; reflexivity).
  rewrite (bind_lift_ok _ _ _ _ Eem).
  erewrite bind_ok by (rewrite push_if_runs, Bem; reflexivity).
  erewrite bind_ok by apply Promise_all_nil.
  erewrite bind_ok by (unfold unlinkSync; simpl; rewrite Hb; reflexivity).
  repeat split.
Qed.
End Early.

Section Early_witness.
Import JS Base64 Server Notions.

Lemma empty_selection_is_served_witness :
  let req := Scenario.request "" Scenario.nothing_docx in
  let o := handler Scenario.all_well [] req Scenario.uploads in
  response o = {| status := 200; body := Success no_results |}
  /\ files (final o) = delete (path Scenario.jane_upload) Scenario.uploads
  /\ sent (trace (final o))
     = [tailoredCV_request Scenario.all_well "Jane Doe, jane@x.com, 555-1234, Boston"
          (field_text (body_jobDescription req))].
Proof.
  apply (empty_selection_is_served Scenario.all_well []
           (Scenario.request "" Scenario.nothing_docx) Scenario.uploads
           (Scenario.parsed Scenario.nothing_docx) (Scenario.parsed Scenario.resume_json)
           Scenario.jane_upload "Jane Doe, jane@x.com, 555-1234, Boston"
           Scenario.fenced_resume (str "Jane Doe") (Some (JBool false))).
  - split; try (vm_compute; reflexivity).
    exists Scenario.upload_bytes. split; vm_compute; reflexivity.
  - vm_compute. reflexivity.
  - vm_compute. reflexivity.
  - vm_compute. reflexivity.
  - intros []; vm_compute; reflexivity.
Defined.
End Early_witness.
